(** * paasta_tools: spark-run launch pipeline and secret references

    A shallow embedding of [paasta_tools/cli/cmds/spark_run.py] and
    [paasta_tools/secret_tools.py].

    Modelling conventions.
    - A Python [str] is a [string]; each [ascii] stands for one code point
      below 256.
    - A Python [int] is a [Z]; an argparse option without a default is an
      [option] ([None] when the flag is absent).
    - Effects are explicit: every function that prints, reads a file, exits
      or replaces the process runs in the monad [M], which records the
      events in order and ends in an [outcome].
    - Everything the module imports from outside the two files (the
      operating system, the mesos helpers, the instance configuration) is a
      field of the record [World]. *)

From Stdlib Require Import String Ascii List ZArith Bool Lia.
From Stdlib Require Import DecimalString.
Import ListNotations.
Open Scope list_scope.
Open Scope string_scope.
Set Warnings "-register-all".

(** [++] is the concatenation of strings; lists are concatenated by [+++]. *)
Infix "+++" := app (right associativity, at level 60).

(* ================================================================== *)
(** ** Python built-ins used by the two modules                        *)
(* ================================================================== *)

Module Py.

(** The characters a Rocq literal cannot hold directly. *)
Definition dquote : ascii := "034"%char.
Definition nl : string := String "010"%char EmptyString.

(** [l.append(x)] and [l.extend(xs)], returning the updated list. *)
Definition append {A} (l : list A) (x : A) : list A := (l ++ [x])%list.
Definition extend {A} (l xs : list A) : list A := (l ++ xs)%list.

(** [sep.join(l)] *)
Definition join (sep : string) (l : list string) : string :=
  String.concat sep l.

(** ['%d' % n] *)
Definition fmt_d (n : Z) : string :=
  NilZero.string_of_int (Z.to_int n).

(** Truthiness of an optional integer: [None] and [0] are false. *)
Definition truthy_int (o : option Z) : bool :=
  match o with
  | Some n => negb (Z.eqb n 0)
  | None => false
  end.

(** Truthiness of an optional string: [None] and [''] are false. *)
Definition truthy_str (o : option string) : bool :=
  match o with
  | Some EmptyString => false
  | Some _ => true
  | None => false
  end.

(** [o == s] where [o] may be None. *)
Definition opt_eqb (o : option string) (s : string) : bool :=
  match o with
  | Some x => String.eqb x s
  | None => false
  end.

(** [s.startswith(p)] *)
Definition startswith (p s : string) : bool := String.prefix p s.

(** [s[n:]] for a non-negative [n] *)
Fixpoint drop (n : nat) (s : string) : string :=
  match n, s with
  | O, _ => s
  | S _, EmptyString => EmptyString
  | S n', String _ s' => drop n' s'
  end.

(** [s[:-1]] *)
Fixpoint drop_last (s : string) : string :=
  match s with
  | EmptyString => EmptyString
  | String _ EmptyString => EmptyString
  | String c s' => String c (drop_last s')
  end.

(** [s.split(sep)] for a one-character separator; never returns []. *)
Fixpoint split (sep : ascii) (s : string) : list string :=
  match s with
  | EmptyString => [EmptyString]
  | String c s' =>
      if Ascii.eqb c sep then EmptyString :: split sep s'
      else match split sep s' with
           | [] => [String c EmptyString]
           | w :: ws => String c w :: ws
           end
  end.

Definition in_range (lo hi c : ascii) : bool :=
  (nat_of_ascii lo <=? nat_of_ascii c)%nat &&
  (nat_of_ascii c <=? nat_of_ascii hi)%nat.

(** [c.lower()] for a code point below 256: the ASCII letters, and the
    Latin-1 capitals U+00C0..U+00DE except the multiplication sign. *)
Definition lower_char (c : ascii) : ascii :=
  if in_range "A" "Z" c
     || (in_range "192" "222" c && negb (Ascii.eqb c "215"))
  then ascii_of_nat (nat_of_ascii c + 32) else c.

(** [s.lower()] *)
Fixpoint lower (s : string) : string :=
  match s with
  | EmptyString => EmptyString
  | String c s' => String (lower_char c) (lower s')
  end.

(** [os.path.isabs] of posixpath. *)
Definition isabs (s : string) : bool := startswith "/" s.

(** [os.path.join(a, *p)] of posixpath. *)
Definition endswith_slash (s : string) : bool :=
  match get (String.length s - 1) s with
  | Some c => Ascii.eqb c "/"
  | None => false
  end.

Fixpoint path_join (a : string) (p : list string) : string :=
  match p with
  | [] => a
  | b :: p' =>
      if startswith "/" b then path_join b p'
      else if orb (String.eqb a "") (endswith_slash a) then path_join (a ++ b) p'
      else path_join (a ++ "/" ++ b) p'
  end.

End Py.

(* ================================================================== *)
(** ** The subset of [re] that SECRET_REGEX needs                      *)
(* ================================================================== *)

Module Re.

(** One item of a pattern.  [Star] is the greedy [*] applied to a
    character set, the only repetition SECRET_REGEX has. *)
Inductive item : Type :=
| Bol                                   (* ^ *)
| Eol                                   (* $ *)
| Lit (c : ascii)                       (* a literal or escaped char *)
| Star (ranges : list (ascii * ascii)) (singles : list ascii).

Definition in_set (ranges : list (ascii * ascii)) (singles : list ascii)
           (c : ascii) : bool :=
  existsb (fun r => Py.in_range (fst r) (snd r) c) ranges ||
  existsb (Ascii.eqb c) singles.

(** Without re.MULTILINE, [$] holds at the end of the string and just
    before a newline that is the last character of the string. *)
Definition at_eol (s : string) : bool :=
  match s with
  | EmptyString => true
  | String c EmptyString => Ascii.eqb c "010"
  | _ => false
  end.

(** [matches r bol s]: pattern [r] matches a prefix of [s]; [bol] tells
    whether [s] starts at position 0 of the subject. *)
Fixpoint matches (r : list item) : bool -> string -> bool :=
  match r with
  | [] => fun _ _ => true
  | i :: r' =>
      let k := matches r' in
      match i with
      | Bol => fun bol s => bol && k bol s
      | Eol => fun bol s => at_eol s && k bol s
      | Lit c => fun _ s =>
          match s with
          | String c' s' => Ascii.eqb c c' && k false s'
          | EmptyString => false
          end
      | Star rs ss =>
          fix star (bol : bool) (s : string) : bool :=
            match s with
            | String c s' =>
                if in_set rs ss c then star false s' || k bol s
                else k bol s
            | EmptyString => k bol s
            end
      end
  end.

(** [pattern.match(s) is not None] *)
Definition match_ (r : list item) (s : string) : bool := matches r true s.

End Re.

(* ================================================================== *)
(** ** Effects: an event trace and a final outcome                     *)
(* ================================================================== *)

Inductive event : Type :=
| Stdout (s : string)                  (* print / paasta_print *)
| Stderr (s : string)                  (* paasta_print(..., file=sys.stderr) *)
| Open (path : string)                 (* open(path, 'r') attempted *)
| SetEnv (k v : string)                (* os.environ[k] = v *)
| CookImage (service soa_dir : string) (* paasta_cook_image *)
| Run (command : string).              (* paasta_tools.utils._run *)

Inductive exn : Type :=
| IndexError
| KeyError
| TypeError
| AttributeError.

Inductive outcome (A : Type) : Type :=
| Ret (a : A)                               (* normal return *)
| Exit (code : Z)                           (* sys.exit(code) *)
| Raise (e : exn)                           (* uncaught exception *)
| Execlp (file : string) (argv : list string). (* os.execlp: process replaced *)

Arguments Ret {A} a.
Arguments Exit {A} code.
Arguments Raise {A} e.
Arguments Execlp {A} file argv.

Definition M (A : Type) : Type := (list event * outcome A)%type.

Definition ret {A} (a : A) : M A := ([], Ret a).

Definition bind {A B} (m : M A) (f : A -> M B) : M B :=
  match m with
  | (t, Ret a) => let (t', o) := f a in ((t ++ t')%list, o)
  | (t, Exit c) => (t, Exit c)
  | (t, Raise e) => (t, Raise e)
  | (t, Execlp p a) => (t, Execlp p a)
  end.

Definition emit (e : event) : M unit := ([e], Ret tt).
Definition sys_exit {A} (code : Z) : M A := ([], Exit code).
Definition raise {A} (e : exn) : M A := ([], Raise e).
Definition execlp {A} (file : string) (argv : list string) : M A :=
  ([], Execlp file argv).

Declare Scope py_scope.
Delimit Scope py_scope with py.
Notation "x <- m ;; k" := (bind m (fun x => k))
  (at level 61, m at next level, right associativity) : py_scope.
Notation "m ;; k" := (bind m (fun _ => k))
  (at level 61, right associativity) : py_scope.
Open Scope py_scope.

Definition trace {A} (m : M A) : list event := fst m.
Definition result {A} (m : M A) : outcome A := snd m.

(** [l[i]] on a list: IndexError out of range. *)
Definition index {A} (l : list A) (i : nat) : M A :=
  match nth_error l i with
  | Some x => ret x
  | None => raise IndexError
  end.

(** [o.f] on a value that may be None: None has no attribute [f]. *)
Definition attr {A B} (o : option A) (f : A -> B) : M B :=
  match o with
  | Some x => ret (f x)
  | None => raise AttributeError
  end.

(* ================================================================== *)
(** ** The subset of [json] the two modules use                        *)
(* ================================================================== *)

Module Json.

(** A decoded document.  [JNum] stands for int and float alike; an
    object keeps its items as the decoded dict does. *)
Inductive value : Type :=
| JNull
| JBool (b : bool)
| JNum (n : Z)
| JStr (s : string)
| JArr (l : list value)
| JObj (items : list (string * value)).

Fixpoint lookup (k : string) (items : list (string * value)) : option value :=
  match items with
  | [] => None
  | (k', v) :: rest => if String.eqb k k' then Some v else lookup k rest
  end.

(** [v[k]] for a string key [k]: only a dict accepts it. *)
Definition subscript (v : value) (k : string) : M value :=
  match v with
  | JObj items =>
      match lookup k items with
      | Some x => ret x
      | None => raise KeyError
      end
  | _ => raise TypeError
  end.

(** What [open(path)] followed by [json.load] finds. *)
Inductive file_state : Type :=
| Missing                      (* open raises IOError *)
| Malformed                    (* json.load raises JSONDecodeError *)
| Document (v : value).

(** json.dumps of a str, ensure_ascii=True: ESCAPE_ASCII and ESCAPE_DCT
    of json.encoder. *)
Definition hex_digit (n : nat) : ascii :=
  nth n ["0"; "1"; "2"; "3"; "4"; "5"; "6"; "7"; "8"; "9";
         "a"; "b"; "c"; "d"; "e"; "f"]%char "0"%char.

Definition escape_char (c : ascii) : string :=
  let n := nat_of_ascii c in
  if Ascii.eqb c Py.dquote then String "\" (String Py.dquote "")
  else if Ascii.eqb c "\" then "\\"
  else if Ascii.eqb c "010" then "\n"
  else if Ascii.eqb c "013" then "\r"
  else if Ascii.eqb c "009" then "\t"
  else if Ascii.eqb c "008" then "\b"
  else if Ascii.eqb c "012" then "\f"
  else if Py.in_range " " "~" c then String c ""
  else "\u00" ++ String (hex_digit (n / 16)) (String (hex_digit (n mod 16)) "").

Fixpoint escape (s : string) : string :=
  match s with
  | EmptyString => EmptyString
  | String c s' => escape_char c ++ escape s'
  end.

Definition dumps_str (s : string) : string :=
  String Py.dquote (escape s ++ String Py.dquote "").

(** [json.dumps(l)] for a list of str. *)
Definition dumps (l : list string) : string :=
  "[" ++ Py.join ", " (map dumps_str l) ++ "]".

(** *** Reading back an array of strings

    The part of [json.loads] that inverts [dumps]: an array of string
    literals separated by a comma and a space. *)

Definition hex_value (c : ascii) : option nat :=
  let n := nat_of_ascii c in
  if Py.in_range "0" "9" c then Some (n - 48)
  else if Py.in_range "a" "f" c then Some (n - 87)
  else if Py.in_range "A" "F" c then Some (n - 55)
  else None.

Definition hex4 (a b c d : ascii) : option nat :=
  match hex_value a, hex_value b, hex_value c, hex_value d with
  | Some x, Some y, Some z, Some t => Some (((x * 16 + y) * 16 + z) * 16 + t)
  | _, _, _, _ => None
  end.

(** The character a one-letter escape stands for. *)
Definition unescape_letter (e : ascii) : option ascii :=
  if Ascii.eqb e Py.dquote then Some Py.dquote
  else if Ascii.eqb e "\" then Some "\"%char
  else if Ascii.eqb e "/" then Some "/"%char
  else if Ascii.eqb e "n" then Some "010"%char
  else if Ascii.eqb e "r" then Some "013"%char
  else if Ascii.eqb e "t" then Some "009"%char
  else if Ascii.eqb e "b" then Some "008"%char
  else if Ascii.eqb e "f" then Some "012"%char
  else None.

Definition cons_char (c : ascii) (r : option (string * string))
  : option (string * string) :=
  match r with
  | Some (s, rest) => Some (String c s, rest)
  | None => None
  end.

(** Reads a string literal from just after its opening quote; returns
    the decoded string and what follows the closing quote. *)
Fixpoint read_string (s : string) : option (string * string) :=
  match s with
  | EmptyString => None
  | String c s1 =>
      if Ascii.eqb c Py.dquote then Some (EmptyString, s1)
      else if Ascii.eqb c "\" then
        match s1 with
        | EmptyString => None
        | String e s2 =>
            if Ascii.eqb e "u" then
              match s2 with
              | String h1 (String h2 (String h3 (String h4 s3))) =>
                  match hex4 h1 h2 h3 h4 with
                  | Some n =>
                      if (n <? 256)%nat
                      then cons_char (ascii_of_nat n) (read_string s3)
                      else None
                  | None => None
                  end
              | _ => None
              end
            else
              match unescape_letter e with
              | Some x => cons_char x (read_string s2)
              | None => None
              end
        end
      else cons_char c (read_string s1)
  end.

(** Reads the items of a non-empty array, from the opening quote of an
    item to the closing bracket. *)
Fixpoint read_items (fuel : nat) (s : string) : option (list string) :=
  match fuel with
  | O => None
  | S fuel' =>
      match s with
      | String q s1 =>
          if Ascii.eqb q Py.dquote then
            match read_string s1 with
            | Some (x, String "]" EmptyString) => Some [x]
            | Some (x, String "," (String " " rest)) =>
                match read_items fuel' rest with
                | Some xs => Some (x :: xs)
                | None => None
                end
            | _ => None
            end
          else None
      | EmptyString => None
      end
  end.

Definition loads (s : string) : option (list string) :=
  match s with
  | String "[" (String "]" EmptyString) => Some []
  | String "[" s1 => read_items (String.length s1) s1
  | _ => None
  end.

End Json.

(* ================================================================== *)
(** ** secret_tools.py                                                 *)
(* ================================================================== *)

Module SecretTools.

(** SECRET_REGEX = "^SECRET\([A-Za-z0-9_-]*\)$" *)
Definition token_ranges : list (ascii * ascii) :=
  [("A", "Z"); ("a", "z"); ("0", "9")]%char.
Definition token_singles : list ascii := ["_"; "-"]%char.

Definition SECRET_REGEX : list Re.item :=
  [Re.Bol; Re.Lit "S"; Re.Lit "E"; Re.Lit "C"; Re.Lit "R"; Re.Lit "E";
   Re.Lit "T"; Re.Lit "("; Re.Star token_ranges token_singles;
   Re.Lit ")"; Re.Eol].

Definition is_secret_ref (env_var_val : string) : bool :=
  Re.match_ SECRET_REGEX env_var_val.

(** [env_var_val.split('(')[1][:-1]] *)
Definition get_secret_name_from_ref (env_var_val : string) : M string :=
  part <- index (Py.split "(" env_var_val) 1 ;;
  ret (Py.drop_last part).

(** The file system as [get_hmac_for_secret] sees it. *)
Definition files := string -> Json.file_state.

Definition secret_path (soa_dir service secret_name : string) : string :=
  Py.path_join soa_dir [service; "secrets"; secret_name ++ ".json"].

Definition msg_no_signature (vault_environment : string) : string :=
  "Failed to get secret signature at environments:" ++ vault_environment ++
  ":signature in json file".
Definition msg_no_file (path : string) : string :=
  "Failed to open json secret at " ++ path.
Definition msg_bad_json (path : string) : string :=
  "Failed to deserialise json secret at " ++ path.

(** [try: ... except KeyError: print(...); return None] around the
    nested lookup; any other exception passes through. *)
Definition catch_KeyError (m : M Json.value) (handler : M Json.value)
  : M Json.value :=
  match m with
  | (t, Raise KeyError) => let (t', o) := handler in ((t ++ t')%list, o)
  | _ => m
  end.

(** The Python result is the decoded value, [None] being [JNull]. *)
Definition get_hmac_for_secret (fs : files)
           (env_var_val service soa_dir vault_environment : string)
  : M Json.value :=
  secret_name <- get_secret_name_from_ref env_var_val ;;
  let path := secret_path soa_dir service secret_name in
  emit (Open path) ;;
  match fs path with
  | Json.Missing =>
      emit (Stdout (msg_no_file path)) ;; ret Json.JNull
  | Json.Malformed =>
      emit (Stdout (msg_bad_json path)) ;; ret Json.JNull
  | Json.Document secret_file =>
      catch_KeyError
        (envs <- Json.subscript secret_file "environments" ;;
         env <- Json.subscript envs vault_environment ;;
         Json.subscript env "signature")
        (emit (Stdout (msg_no_signature vault_environment)) ;;
         ret Json.JNull)
  end.

(** The characters a token may contain. *)
Definition token_char (c : ascii) : bool :=
  Re.in_set token_ranges token_singles c.

Fixpoint is_token (s : string) : bool :=
  match s with
  | EmptyString => true
  | String c s' => token_char c && is_token s'
  end.

End SecretTools.

(* ================================================================== *)
(** ** Python dicts with string keys, in insertion order               *)
(* ================================================================== *)

Module Dict.

Definition t : Type := list (string * string).

(** [d[k] = v]: replaces the value of a present key in place, appends a
    new key. *)
Fixpoint set (k v : string) (d : t) : t :=
  match d with
  | [] => [(k, v)]
  | (k', v') :: d' =>
      if String.eqb k k' then (k', v) :: d' else (k', v') :: set k v d'
  end.

(** [d.update(other)] *)
Definition update (d other : t) : t :=
  fold_left (fun acc kv => set (fst kv) (snd kv) acc) other d.

End Dict.

(** [for x in l: body] threading the loop's variables through [M]. *)
Fixpoint for_each {A S : Type} (l : list A) (body : S -> A -> M S) (s : S)
  : M S :=
  match l with
  | [] => ret s
  | x :: l' => s' <- body s x ;; for_each l' body s'
  end.

(* ================================================================== *)
(** ** cli/cmds/spark_run.py                                           *)
(* ================================================================== *)

Module SparkRun.

Definition DEFAULT_SPARK_WORK_DIR := "/spark_driver".
Definition DEFAULT_SPARK_DOCKER_IMAGE_PREFIX := "paasta-spark-run".
Definition DEFAULT_SPARK_DOCKER_REGISTRY := "docker-dev.yelpcorp.com".
Definition DEFAULT_SPARK_MESOS_SECRET_FILE := "/nail/etc/paasta_spark_secret".

(** The namespace argparse builds from [add_subparser]. *)
Record Args : Type := {
  build : bool;
  image : option string;
  service : string;
  instance : string;
  cluster : string;
  jars : option string;
  pool : string;
  work_dir : string;
  yelpsoa_config_root : string;
  cmd : option string;
  dry_run : bool;
  mesos_principal : string;
  mesos_secret : option string;
  executor_memory : Z;
  executor_cores : Z;
  max_cores : Z;
  driver_max_result_size : option Z;
  driver_memory : option Z;
  driver_cores : option Z
}.

(** One element of [get_volumes()]. *)
Record Volume : Type := {
  hostPath : string;
  containerPath : string;
  mode : string
}.

Record SystemPaastaConfig : Type := {
  get_volumes : list Volume;
  (** [get_cluster_fqdn_format().format(cluster=c)] *)
  cluster_fqdn : string -> string
}.

Record InstanceConfig : Type := {
  ic_get_volumes : list Volume -> list Volume;
  get_cmd : option string;
  get_env_dictionary : Dict.t;
  get_docker_url : option string;       (* None: NoDockerImageError *)
  get_deploy_group : string
}.

Inductive instance_config_result : Type :=
| Loaded (c : InstanceConfig)
| NoConfigurationForServiceError (message : string)
| NoDeploymentsAvailable.

(** What [Session().get_credentials()] returns when it finds some. *)
Record Credentials : Type := {
  access_key : string;
  secret_key : string
}.

(** What the module imports and the machine it runs on. *)
Record World : Type := {
  path_exists : string -> bool;              (* os.path.exists *)
  read_text : string -> option string;       (* open(p).read(); None: IOError *)
  geteuid : Z;
  getegid : Z;
  getfqdn : string;                          (* socket.getfqdn() *)
  environ_get : string -> option string;     (* os.environ.get *)
  get_username : string;
  find_mesos_leader : string -> string;
  MESOS_MASTER_PORT : Z;
  pick_random_port : string -> Z;
  get_credentials : option Credentials;      (* Session().get_credentials();
                                                None: no credentials found *)
  grey : string -> string;                   (* PaastaColors *)
  yellow : string -> string;
  red : string -> string;
  makefile_responds_to : string -> bool;
  paasta_cook_image : string -> string -> Z;
  run_retcode : string -> Z;                 (* _run(command, ...)[0] *)
  load_system_paasta_config : option SystemPaastaConfig;
                                             (* None: PaastaNotConfiguredError *)
  fallback_cluster_fqdn : string -> string;  (* of SystemPaastaConfig({"volumes": []}, ...) *)
  get_instance_config :
    string -> string -> string -> bool -> string -> instance_config_result
}.

Definition paasta_print (s : string) : M unit := emit (Stdout s).
Definition paasta_print_err (s : string) : M unit := emit (Stderr s).

Section WithWorld.
Variable w : World.

Definition get_docker_run_cmd (container_name : string)
           (volumes : list string) (env : Dict.t)
           (docker_img docker_cmd : string) : list string :=
  let cmd := ["paasta_docker_wrapper"; "run"] in
  let cmd := Py.append cmd "--rm" in
  let cmd := Py.append cmd "--net=host" in
  let cmd := Py.append cmd "--interactive=true" in
  let cmd := Py.append cmd "--tty=true" in
  let cmd := Py.append cmd ("--user=" ++ Py.fmt_d (geteuid w) ++ ":" ++
                      Py.fmt_d (getegid w)) in
  let cmd := Py.append cmd ("--name=" ++ container_name) in
  let cmd := fold_left
               (fun cmd kv => Py.extend cmd ["--env"; fst kv ++ "=" ++ snd kv])
               env cmd in
  let cmd := fold_left
               (fun cmd volume => Py.append cmd ("--volume=" ++ volume))
               volumes cmd in
  let cmd := Py.append cmd docker_img in
  let cmd := Py.extend cmd ["sh"; "-c"; docker_cmd] in
  cmd.

Definition get_spark_env (args : Args) (spark_conf : string) : M Dict.t :=
  let spark_env : Dict.t := [] in
  let creds := get_credentials w in
  a <- attr creds access_key ;;
  let spark_env := Dict.set "AWS_ACCESS_KEY_ID" a spark_env in
  s <- attr creds secret_key ;;
  let spark_env := Dict.set "AWS_SECRET_ACCESS_KEY" s spark_env in
  let spark_env := Dict.set "SPARK_USER" "root" spark_env in
  let spark_env := Dict.set "SPARK_OPTS" spark_conf spark_env in
  if Py.opt_eqb (cmd args) "jupyter" then
    let dirs := Py.split ":" (work_dir args) in
    d <- index dirs 1 ;;
    let spark_env := Dict.set "JUPYTER_RUNTIME_DIR" (d ++ "/.jupyter") spark_env in
    d <- index dirs 1 ;;
    let spark_env := Dict.set "JUPYTER_DATA_DIR" (d ++ "/.jupyter") spark_env in
    ret spark_env
  else ret spark_env.

(** [if x: spark_conf.append(fmt % x)] for an optional integer. *)
Definition append_if_int (x : option Z) (entry : Z -> string)
           (spark_conf : list string) : list string :=
  match x with
  | Some n => if negb (Z.eqb n 0) then Py.append spark_conf (entry n)
              else spark_conf
  | None => spark_conf
  end.

(** [if x: spark_conf.append(fmt % x)] for an optional string. *)
Definition append_if_str (x : option string) (entry : string -> string)
           (spark_conf : list string) : list string :=
  match x with
  | Some EmptyString => spark_conf
  | Some s => Py.append spark_conf (entry s)
  | None => spark_conf
  end.

Definition get_spark_conf_str (args : Args) (container_name : string)
           (spark_ui_port : Z) (docker_img : string)
           (system_paasta_config : SystemPaastaConfig)
           (volumes : list string) : M string :=
  let spark_conf : list string := [] in
  let spark_conf := Py.append spark_conf ("--conf spark.app.name=" ++ container_name) in
  let spark_conf := Py.append spark_conf ("--conf spark.ui.port=" ++ Py.fmt_d spark_ui_port) in
  let cluster_fqdn := cluster_fqdn system_paasta_config (cluster args) in
  let mesos_address :=
    find_mesos_leader w cluster_fqdn ++ ":" ++ Py.fmt_d (MESOS_MASTER_PORT w) in
  let spark_conf := Py.append spark_conf ("--conf spark.master=mesos://" ++ mesos_address) in
  let spark_conf := Py.append spark_conf ("--conf spark.cores.max=" ++ Py.fmt_d (max_cores args)) in
  let spark_conf := Py.append spark_conf ("--conf spark.executor.memory=" ++
                                    Py.fmt_d (executor_memory args) ++ "g") in
  let spark_conf := Py.append spark_conf ("--conf spark.executor.cores=" ++
                                    Py.fmt_d (executor_cores args)) in
  let spark_conf :=
    append_if_int (driver_max_result_size args)
      (fun n => "--conf spark.driver.maxResultSize=" ++ Py.fmt_d n ++ "g") spark_conf in
  let spark_conf :=
    append_if_int (driver_memory args)
      (fun n => "--conf spark.driver.memory=" ++ Py.fmt_d n ++ "g") spark_conf in
  let spark_conf :=
    append_if_int (driver_cores args)
      (fun n => "--conf spark.driver.cores=" ++ Py.fmt_d n) spark_conf in
  let spark_conf := Py.append spark_conf ("--conf spark.mesos.executor.docker.image=" ++ docker_img) in
  let spark_conf :=
    if negb (build args) && negb (Py.truthy_str (image args))
    then Py.append spark_conf "--conf spark.mesos.uris=file:///root/.dockercfg"
    else spark_conf in
  let spark_conf :=
    append_if_str (jars args) (fun j => "--conf spark.jars=" ++ j) spark_conf in
  let spark_conf := Py.append spark_conf ("--conf spark.mesos.principal=" ++ mesos_principal args) in
  spark_conf <-
    match mesos_secret args with
    | Some (String c s) =>
        ret (Py.append spark_conf ("--conf spark.mesos.secret=" ++ String c s))
    | _ =>
        emit (Open DEFAULT_SPARK_MESOS_SECRET_FILE) ;;
        match read_text w DEFAULT_SPARK_MESOS_SECRET_FILE with
        | Some mesos_secret =>
            ret (Py.append spark_conf ("--conf spark.mesos.secret=" ++ mesos_secret))
        | None =>
            paasta_print_err ("Cannot load mesos secret from " ++
                              DEFAULT_SPARK_MESOS_SECRET_FILE) ;;
            sys_exit 1
        end
    end ;;
  let spark_conf := Py.append spark_conf "--conf spark.driver.extraJavaOptions=-Dderby.system.home=/tmp/derby" in
  let spark_conf := Py.append spark_conf ("--conf spark.mesos.constraints=pool:" ++ pool args) in
  let spark_conf := Py.append spark_conf ("--conf spark.mesos.executor.docker.volumes=" ++
                                    Py.join "," volumes) in
  ret (Py.join " " spark_conf).

Definition run_docker_container (container_name : string)
           (volumes : list string) (environment : Dict.t)
           (docker_img docker_cmd : string) (dry_run : bool) : M Z :=
  let docker_run_cmd :=
    get_docker_run_cmd container_name volumes environment docker_img docker_cmd in
  let joined_docker_run_cmd := Py.join " " docker_run_cmd in
  (if dry_run then
     paasta_print (Json.dumps docker_run_cmd) ;;
     ret 0%Z
   else
     paasta_print ("Running docker command:" ++ Py.nl ++
                   grey w joined_docker_run_cmd) ;;
     (execlp "paasta_docker_wrapper" docker_run_cmd : M unit) ;;
     ret 0%Z).

(** The warning printed for a binding whose host path is missing. *)
Definition skip_warning (v : Volume) : string :=
  yellow w ("Warning: Path " ++ hostPath v ++
            " does not exist on this host. Skipping this binding.").

(** ['%s:%s:%s' % (hostPath, containerPath, mode.lower())] *)
Definition format_volume (v : Volume) : string :=
  hostPath v ++ ":" ++ containerPath v ++ ":" ++ Py.lower (mode v).

(** The body of the loop over the configured volumes. *)
Definition volume_step (volumes : list string) (volume : Volume)
  : M (list string) :=
  if path_exists w (hostPath volume)
  then ret (Py.append volumes (format_volume volume))
  else paasta_print (skip_warning volume) ;; ret volumes.

(** The rewriting of the command by run mode. *)
Definition rewrite_docker_cmd (args : Args) (docker_cmd spark_conf_str : string)
  : M string :=
  if String.eqb docker_cmd "jupyter" then
    d <- index (Py.split ":" (work_dir args)) 1 ;;
    ret ("jupyter notebook -y --ip=" ++ getfqdn w ++ " --notebook-dir=" ++ d)
  else if existsb (String.eqb docker_cmd) ["pyspark"; "spark-shell"] then
    ret (docker_cmd ++ " " ++ spark_conf_str)
  else if Py.startswith "spark-submit" docker_cmd then
    ret ("spark-submit " ++ spark_conf_str ++
         Py.drop (String.length "spark-submit") docker_cmd)
  else ret docker_cmd.

Definition configure_and_run_docker_container (args : Args)
           (docker_img : string) (instance_config : InstanceConfig)
           (system_paasta_config : SystemPaastaConfig) : M Z :=
  volumes <- for_each
               (ic_get_volumes instance_config (get_volumes system_paasta_config))
               volume_step [] ;;
  let spark_ui_port := pick_random_port w (service args) in
  let container_name :=
    "paasta_spark_run_" ++ get_username w ++ "_" ++ Py.fmt_d spark_ui_port in
  spark_conf_str <- get_spark_conf_str args container_name spark_ui_port
                      docker_img system_paasta_config volumes ;;
  (* Spark client specific volumes *)
  let volumes := Py.append volumes (work_dir args ++ ":rw") in
  let volumes := Py.append volumes "/etc/passwd:/etc/passwd:ro" in
  let volumes := Py.append volumes "/etc/group:/etc/group:ro" in
  let docker_cmd :=
    match cmd args with
    | None => get_cmd instance_config
    | Some c => Some c
    end in
  match docker_cmd with
  | None =>
      paasta_print_err
        "A command is required, pyspark, spark-shell, spark-submit or jupyter" ;;
      ret 1%Z
  | Some docker_cmd =>
      docker_cmd <- rewrite_docker_cmd args docker_cmd spark_conf_str ;;
      let environment := get_env_dictionary instance_config in
      spark_env <- get_spark_env args spark_conf_str ;;
      let environment := Dict.update environment spark_env in
      paasta_print (Py.nl ++ "Spark Monitoring URL http://" ++ getfqdn w ++ ":" ++
                    Py.fmt_d spark_ui_port ++ Py.nl) ;;
      run_docker_container container_name volumes environment docker_img
                           docker_cmd (dry_run args)
  end.

(** Returns [None] where the Python returns None. *)
Definition build_and_push_docker_image (args : Args) : M (option string) :=
  if negb (makefile_responds_to w "cook-image") then
    paasta_print_err
      "A local Makefile with a 'cook-image' target is required for --build" ;;
    ret None
  else
    let default_tag :=
      DEFAULT_SPARK_DOCKER_IMAGE_PREFIX ++ "-" ++ get_username w in
    let docker_tag :=
      match environ_get w "DOCKER_TAG" with
      | Some t => t
      | None => default_tag
      end in
    emit (SetEnv "DOCKER_TAG" docker_tag) ;;
    emit (CookImage (service args) (yelpsoa_config_root args)) ;;
    let cook_return := paasta_cook_image w (service args) (yelpsoa_config_root args) in
    if negb (Z.eqb cook_return 0) then ret None
    else
      let docker_url := DEFAULT_SPARK_DOCKER_REGISTRY ++ "/" ++ docker_tag in
      let command := "docker tag " ++ docker_tag ++ " " ++ docker_url in
      paasta_print (grey w command) ;;
      emit (Run command) ;;
      if negb (Z.eqb (run_retcode w command) 0) then ret None
      else
        let command := "docker push " ++ docker_url in
        paasta_print (grey w command) ;;
        emit (Run command) ;;
        if negb (Z.eqb (run_retcode w command) 0) then ret None
        else ret (Some docker_url).

Definition check_len (s : string) (dirs : list string) : M unit :=
  if negb (Nat.eqb (List.length dirs) 2) then
    paasta_print_err ("work-dir " ++ s ++
                      " is not in format local_abs_dir:container_abs_dir") ;;
    sys_exit 1
  else ret tt.

Definition check_abs (_ : unit) (d : string) : M unit :=
  if negb (Py.isabs d) then
    paasta_print_err (d ++ " is not an absolute path") ;;
    sys_exit 1
  else ret tt.

Definition validate_work_dir (s : string) : M unit :=
  let dirs := Py.split ":" s in
  check_len s dirs ;;
  for_each dirs check_abs tt.

Definition msg_not_configured : string :=
  "Warning: Couldn't load config files from '/etc/paasta'. This indicates" ++
  "PaaSTA is not configured locally on this host, and local-run may not behave" ++
  "the same way it would behave on a server configured for PaaSTA.".

Definition msg_no_deployments (soa_dir service : string) : string :=
  "Error: No deployments.json found in " ++ soa_dir ++ "/" ++ service ++ "." ++
  "You can generate this by running:" ++
  "generate_deployments_for_service -d " ++ soa_dir ++ " -s " ++ service.

Definition msg_no_image (deploy_group service : string) : string :=
  "Error: No sha has been marked for deployment for the " ++ deploy_group ++
  " deploy group." ++ Py.nl ++
  "Please ensure this service has either run through a jenkins pipeline " ++
  "or paasta mark-for-deployment has been run for " ++ service ++ Py.nl.

(** The three ways [paasta_spark_run] obtains the image. *)
Definition resolve_image (args : Args) (instance_config : InstanceConfig)
  : M (option string) :=
  if build args then
    build_and_push_docker_image args
  else if Py.truthy_str (image args) then
    ret (image args)
  else
    match get_docker_url instance_config with
    | None =>
        paasta_print_err
          (red w (msg_no_image (get_deploy_group instance_config) (service args))) ;;
        ret None
    | Some docker_url =>
        paasta_print_err
          ("Please wait while the image (" ++ docker_url ++
           ") is pulled (times out after 5m)...") ;;
        let command := "sudo -H docker pull " ++ docker_url in
        emit (Run command) ;;
        if negb (Z.eqb (run_retcode w command) 0) then
          paasta_print_err
            (Py.nl ++ "Pull failed. Are you authorized to run docker commands?") ;;
          ret None
        else ret (Some docker_url)
    end.

Definition paasta_spark_run (args : Args) : M Z :=
  validate_work_dir (work_dir args) ;;
  system_paasta_config <-
    match load_system_paasta_config w with
    | Some c => ret c
    | None =>
        paasta_print (yellow w msg_not_configured) ;;
        ret {| get_volumes := []; cluster_fqdn := fallback_cluster_fqdn w |}
    end ;;
  match get_instance_config w (service args) (instance args) (cluster args)
          (negb (build args) &&
           match image args with None => true | Some _ => false end)
          (yelpsoa_config_root args) with
  | NoConfigurationForServiceError message =>
      paasta_print_err message ;; ret 1%Z
  | NoDeploymentsAvailable =>
      paasta_print_err
        (red w (msg_no_deployments (yelpsoa_config_root args) (service args))) ;;
      ret 1%Z
  | Loaded instance_config =>
      docker_url <- resolve_image args instance_config ;;
      match docker_url with
      | None => ret 1%Z
      | Some docker_url =>
          configure_and_run_docker_container args docker_url instance_config
                                             system_paasta_config
      end
  end.

End WithWorld.

End SparkRun.

(* ================================================================== *)
(** ** Vocabulary of the statements                                    *)
(* ================================================================== *)

(** [no_char c s]: the character [c] does not occur in [s]. *)
Fixpoint no_char (c : ascii) (s : string) : bool :=
  match s with
  | EmptyString => true
  | String x s' => negb (Ascii.eqb x c) && no_char c s'
  end.

(** The run of a function that printed nothing and returned None. *)
Definition work_dir_ok : M unit := ([], Ret tt).

(** A secret store holding one document, for service [svc] under
    [/soa], whose entry for environment [prod] is JSON null:
    [{"environments": {"prod": null}}]. *)
Definition fs_null_env : SecretTools.files :=
  fun path =>
    if String.eqb path "/soa/svc/secrets/a.json"
    then Json.Document
           (Json.JObj [("environments", Json.JObj [("prod", Json.JNull)])])
    else Json.Missing.

(** *** The runtime configuration as a sequence of key/value entries *)

Module Conf.
Import SparkRun.

(** One entry on the command line: [--conf key=value]. *)
Definition render (kv : string * string) : string :=
  "--conf " ++ fst kv ++ "=" ++ snd kv.

(** An optional integer entry: present when the option was given and is
    not zero; [unit] is the unit written after the number. *)
Definition opt_int (o : option Z) (key unit : string)
  : list (string * string) :=
  if Py.truthy_int o
  then match o with
       | Some n => [(key, Py.fmt_d n ++ unit)]
       | None => []
       end
  else [].

(** An optional string entry: present when the option was given and is
    not empty. *)
Definition opt_str (o : option string) (key : string)
  : list (string * string) :=
  if Py.truthy_str o
  then match o with
       | Some s => [(key, s)]
       | None => []
       end
  else [].

(** Where [paasta_spark_run] takes the image from. *)
Inductive image_source : Type := Built | Supplied | Deployed.

Definition image_source_of (args : Args) : image_source :=
  if build args then Built
  else if Py.truthy_str (image args) then Supplied
  else Deployed.

(** The shared secret: the one on the command line when it is not empty,
    the content of the secret file otherwise ([None] when unreadable). *)
Definition secret_value (w : World) (args : Args) : option string :=
  if Py.truthy_str (mesos_secret args) then mesos_secret args
  else read_text w DEFAULT_SPARK_MESOS_SECRET_FILE.

(** The entries in the order of the specification. *)
Definition entries (w : World) (args : Args) (container_name : string)
           (spark_ui_port : Z) (docker_img : string)
           (system_paasta_config : SystemPaastaConfig)
           (volumes : list string) (secret : string)
  : list (string * string) :=
  concat
    [ [ ("spark.app.name", container_name);
        ("spark.ui.port", Py.fmt_d spark_ui_port);
        ("spark.master",
         "mesos://" ++
         find_mesos_leader w (cluster_fqdn system_paasta_config (cluster args)) ++
         ":" ++ Py.fmt_d (MESOS_MASTER_PORT w));
        ("spark.cores.max", Py.fmt_d (max_cores args));
        ("spark.executor.memory", Py.fmt_d (executor_memory args) ++ "g");
        ("spark.executor.cores", Py.fmt_d (executor_cores args)) ];
      opt_int (driver_max_result_size args) "spark.driver.maxResultSize" "g";
      opt_int (driver_memory args) "spark.driver.memory" "g";
      opt_int (driver_cores args) "spark.driver.cores" "";
      [ ("spark.mesos.executor.docker.image", docker_img) ];
      match image_source_of args with
      | Deployed => [ ("spark.mesos.uris", "file:///root/.dockercfg") ]
      | _ => []
      end;
      opt_str (jars args) "spark.jars";
      [ ("spark.mesos.principal", mesos_principal args);
        ("spark.mesos.secret", secret);
        ("spark.driver.extraJavaOptions", "-Dderby.system.home=/tmp/derby");
        ("spark.mesos.constraints", "pool:" ++ pool args);
        ("spark.mesos.executor.docker.volumes", Py.join "," volumes) ] ].

End Conf.

(** *** Changing single options of a request *)

Module Request.
Import SparkRun.
Local Open Scope Z_scope.

(** The same request with other driver options. *)
Definition with_driver (a : Args) (result_size memory cores : option Z) : Args :=
  {| build := build a; image := image a; service := service a;
     instance := instance a; cluster := cluster a; jars := jars a;
     pool := pool a; work_dir := work_dir a;
     yelpsoa_config_root := yelpsoa_config_root a; cmd := cmd a;
     dry_run := dry_run a; mesos_principal := mesos_principal a;
     mesos_secret := mesos_secret a; executor_memory := executor_memory a;
     executor_cores := executor_cores a; max_cores := max_cores a;
     driver_max_result_size := result_size; driver_memory := memory;
     driver_cores := cores |}.

(** The defaults of [add_subparser], for cluster norcal-devc, started in
    the directory /home/alice. *)
Definition defaults : Args :=
  {| build := false; image := None; service := "spark";
     instance := "client"; cluster := "norcal-devc"; jars := None;
     pool := "default"; work_dir := "/home/alice:/spark_driver";
     yelpsoa_config_root := "/nail/etc/services"; cmd := Some "pyspark";
     dry_run := false; mesos_principal := "spark";
     mesos_secret := None; executor_memory := 4; executor_cores := 2;
     max_cores := 4; driver_max_result_size := None; driver_memory := None;
     driver_cores := None |}.

(** The same request with another --mesos-secret and --cmd. *)
Definition with_secret_cmd (a : Args) (secret c : option string) : Args :=
  {| build := build a; image := image a; service := service a;
     instance := instance a; cluster := cluster a; jars := jars a;
     pool := pool a; work_dir := work_dir a;
     yelpsoa_config_root := yelpsoa_config_root a; cmd := c;
     dry_run := dry_run a; mesos_principal := mesos_principal a;
     mesos_secret := secret; executor_memory := executor_memory a;
     executor_cores := executor_cores a; max_cores := max_cores a;
     driver_max_result_size := driver_max_result_size a;
     driver_memory := driver_memory a; driver_cores := driver_cores a |}.

End Request.

(** *** A sample machine *)

Module Sample.
Import SparkRun.
Local Open Scope Z_scope.

Definition system_config : SystemPaastaConfig :=
  {| get_volumes :=
       [ {| hostPath := "/nail/srv"; containerPath := "/nail/srv"; mode := "RO" |};
         {| hostPath := "/nail/missing"; containerPath := "/missing"; mode := "RW" |} ];
     cluster_fqdn := fun c => "paasta-" ++ c ++ ".yelp" |}.

Definition instance_config : InstanceConfig :=
  {| ic_get_volumes := fun system_volumes => system_volumes;
     get_cmd := None;
     get_env_dictionary := [("PAASTA_SERVICE", "spark")];
     get_docker_url := Some "docker-paasta.yelpcorp.com:443/services-spark:abc";
     get_deploy_group := "dev.everything" |}.

(** Of the host paths only /nail/srv exists; the secret file is
    readable; colours are left out. *)
Definition world : World :=
  {| path_exists := fun p => String.eqb p "/nail/srv";
     read_text := fun p =>
       if String.eqb p DEFAULT_SPARK_MESOS_SECRET_FILE then Some "hunter2" else None;
     geteuid := 1000; getegid := 1000;
     getfqdn := "dev1.example.com";
     environ_get := fun _ => None;
     get_username := "alice";
     find_mesos_leader := fun fqdn => "10.0.0.1";
     MESOS_MASTER_PORT := 5050;
     pick_random_port := fun _ => 31337;
     get_credentials := Some {| access_key := "AKIA"; secret_key := "wJal" |};
     grey := fun s => s; yellow := fun s => s; red := fun s => s;
     makefile_responds_to := fun _ => false;
     paasta_cook_image := fun _ _ => 0;
     run_retcode := fun _ => 0;
     load_system_paasta_config := Some system_config;
     fallback_cluster_fqdn := fun c => "paasta-" ++ c ++ ".yelp";
     get_instance_config := fun _ _ _ _ _ => Loaded instance_config |}.

(** A machine on which no path exists and no file can be read. *)
Definition bare_world : World :=
  {| path_exists := fun _ => false;
     read_text := fun _ => None;
     geteuid := 1000; getegid := 1000;
     getfqdn := "dev1.example.com";
     environ_get := fun _ => None;
     get_username := "alice";
     find_mesos_leader := fun fqdn => "10.0.0.1";
     MESOS_MASTER_PORT := 5050;
     pick_random_port := fun _ => 31337;
     get_credentials := Some {| access_key := "AKIA"; secret_key := "wJal" |};
     grey := fun s => s; yellow := fun s => s; red := fun s => s;
     makefile_responds_to := fun _ => false;
     paasta_cook_image := fun _ _ => 0;
     run_retcode := fun _ => 0;
     load_system_paasta_config := Some system_config;
     fallback_cluster_fqdn := fun c => "paasta-" ++ c ++ ".yelp";
     get_instance_config := fun _ _ _ _ _ => Loaded instance_config |}.

End Sample.

(** *** The launch as seen from outside *)

Module Launch.
Import SparkRun.

(** The declared bindings, from the instance and system configuration. *)
Definition declared (instance_config : InstanceConfig)
           (system_paasta_config : SystemPaastaConfig) : list Volume :=
  ic_get_volumes instance_config (get_volumes system_paasta_config).

Definition exists_on (w : World) (v : Volume) : bool :=
  path_exists w (hostPath v).

(** The declared bindings that survive the existence filter, formatted. *)
Definition kept (w : World) (vols : list Volume) : list string :=
  map format_volume (filter (exists_on w) vols).

(** The warnings for the others. *)
Definition warnings (w : World) (vols : list Volume) : list event :=
  map (fun v => Stdout (skip_warning w v))
      (filter (fun v => negb (exists_on w v)) vols).

(** The bindings every client gets. *)
Definition client_volumes (args : Args) : list string :=
  [work_dir args ++ ":rw"; "/etc/passwd:/etc/passwd:ro";
   "/etc/group:/etc/group:ro"].

Definition port_of (w : World) (args : Args) : Z :=
  pick_random_port w (service args).

Definition name_of (w : World) (args : Args) : string :=
  "paasta_spark_run_" ++ get_username w ++ "_" ++ Py.fmt_d (port_of w args).

(** The command before rewriting: the option, else the instance's. *)
Definition command_of (args : Args) (instance_config : InstanceConfig)
  : option string :=
  match cmd args with
  | None => get_cmd instance_config
  | Some c => Some c
  end.

(** [m] ends by handing [argv] to the container runtime: it replaces
    the process with it, or (dry run) prints it as JSON and returns 0. *)
Definition hands_over (m : M Z) (argv : list string) : Prop :=
  (exists t, m = (t, Execlp "paasta_docker_wrapper" argv)) \/
  (exists t, m = ((t ++ [Stdout (Json.dumps argv)])%list, Ret 0%Z)).

(** The parts of the argument vector. *)
Definition fixed_flags (w : World) (container_name : string) : list string :=
  ["paasta_docker_wrapper"; "run"; "--rm"; "--net=host";
   "--interactive=true"; "--tty=true";
   "--user=" ++ Py.fmt_d (geteuid w) ++ ":" ++ Py.fmt_d (getegid w);
   "--name=" ++ container_name].

Definition env_flags (env : Dict.t) : list string :=
  flat_map (fun kv => ["--env"; fst kv ++ "=" ++ snd kv]) env.

Definition volume_flags (volumes : list string) : list string :=
  map (fun v => "--volume=" ++ v) volumes.

(** The run of the sample request with an explicit secret on the machine
    where no path exists. *)
Definition bare_args : Args :=
  Request.with_secret_cmd Request.defaults (Some "hunter2") (Some "pyspark").

Definition bare_run : M Z :=
  configure_and_run_docker_container Sample.bare_world bare_args "img"
    Sample.instance_config Sample.system_config.

(** The run of [spark-submit myjob.py --foo] on the sample machine. *)
Definition submit_args : Args :=
  Request.with_secret_cmd Request.defaults None
    (Some "spark-submit myjob.py --foo").

Definition submit_run : M Z :=
  configure_and_run_docker_container Sample.world submit_args "img"
    Sample.instance_config Sample.system_config.

(** The run of the default request on the sample machine. *)
Definition sample_run : M Z :=
  configure_and_run_docker_container Sample.world Request.defaults "img"
    Sample.instance_config Sample.system_config.

Definition argv_of (m : M Z) : list string :=
  match result m with
  | Execlp _ argv => argv
  | _ => []
  end.

End Launch.

(* ================================================================== *)
(** ** metrics/metrics_lib.py                                          *)
(* ================================================================== *)

Module Metrics.

(** The two classes registered by the module. *)
Inductive metrics_class : Type :=
| MeteoriteMetrics
| NoMetrics.

(** [_metrics_interfaces]: a dict from an optional name to a class, in
    insertion order. *)
Definition registry : Type := list (option string * metrics_class).

Definition key_eqb (a b : option string) : bool :=
  match a, b with
  | None, None => true
  | Some x, Some y => String.eqb x y
  | _, _ => false
  end.

(** [_metrics_interfaces[name] = func] *)
Fixpoint registry_set (name : option string) (func : metrics_class)
         (r : registry) : registry :=
  match r with
  | [] => [(name, func)]
  | (n, c) :: r' =>
      if key_eqb name n then (n, func) :: r'
      else (n, c) :: registry_set name func r'
  end.

(** [_metrics_interfaces[name]]; [None] stands for KeyError. *)
Fixpoint registry_get (name : option string) (r : registry)
  : option metrics_class :=
  match r with
  | [] => None
  | (n, c) :: r' => if key_eqb name n then Some c else registry_get name r'
  end.

(** [register_metrics_interface(name)(func)]: the updated registry and
    the value the decorator returns. *)
Definition register_metrics_interface (name : option string)
           (func : metrics_class) (r : registry) : registry * metrics_class :=
  (registry_set name func r, func).

(** The registry once the module is imported: the two decorated classes
    in the order of the file. *)
Definition _metrics_interfaces : registry :=
  let r := [] in
  let r := fst (register_metrics_interface (Some "meteorite") MeteoriteMetrics r) in
  let r := fst (register_metrics_interface None NoMetrics r) in
  r.

Inductive error : Type :=
| PaastaNotConfiguredError          (* from load_system_paasta_config *)
| KeyError
| ImportError (message : string).

Inductive res (A : Type) : Type :=
| Ok (a : A)
| Err (e : error).

Arguments Ok {A} a.
Arguments Err {A} e.

(** An instance of a subclass of BaseMetrics. *)
Record instance : Type := {
  cls : metrics_class;
  base_name : string
}.

(** [cls(base_name)]; [yelp_meteorite] tells whether the import at the
    top of the module succeeded. *)
Definition construct (yelp_meteorite : bool) (c : metrics_class)
           (base_name : string) : res instance :=
  match c with
  | MeteoriteMetrics =>
      if yelp_meteorite
      then Ok {| cls := MeteoriteMetrics; base_name := base_name |}
      else Err (ImportError
                  "yelp_meteorite not imported, pleast try another metrics provider")
  | NoMetrics => Ok {| cls := NoMetrics; base_name := base_name |}
  end.

(** [provider] is what [load_system_paasta_config().get_metrics_provider()]
    gives: [None] when loading the configuration raises, otherwise the
    configured name, itself optional. *)
Definition get_metrics_interface (r : registry) (yelp_meteorite : bool)
           (provider : option (option string)) (base_name : string)
  : res instance :=
  match provider with
  | None => Err PaastaNotConfiguredError
  | Some metrics_provider =>
      match registry_get metrics_provider r with
      | None => Err KeyError
      | Some c => construct yelp_meteorite c base_name
      end
  end.

(** What [create_timer] and [create_gauge] return: an object of the
    module's own class, or the request passed on to yelp_meteorite. *)
Inductive timer : Type :=
| Timer (name : string)
| MeteoriteTimer (name : string) (kwargs : Dict.t).

Inductive gauge : Type :=
| Gauge (name : string)
| MeteoriteGauge (name : string) (kwargs : Dict.t).

Definition create_timer (self : instance) (name : string) (kwargs : Dict.t)
  : timer :=
  match cls self with
  | MeteoriteMetrics => MeteoriteTimer (base_name self ++ "." ++ name) kwargs
  | NoMetrics => Timer (base_name self ++ "." ++ name)
  end.

Definition create_gauge (self : instance) (name : string) (kwargs : Dict.t)
  : gauge :=
  match cls self with
  | MeteoriteMetrics => MeteoriteGauge (base_name self ++ "." ++ name) kwargs
  | NoMetrics => Gauge (base_name self ++ "." ++ name)
  end.

End Metrics.

(* ================================================================== *)
(** ** Vocabulary of the further properties                            *)
(* ================================================================== *)

Module More.
Import SparkRun.

(** [d.get(k)] *)
Fixpoint dict_get (k : string) (d : Dict.t) : option string :=
  match d with
  | [] => None
  | (k', v) :: d' => if String.eqb k k' then Some v else dict_get k d'
  end.

(** [list(d.keys())] *)
Definition dict_keys (d : Dict.t) : list string := map fst d.

(** Events that are a printed line or the opening of the mesos secret
    file. *)
Definition quiet (e : event) : bool :=
  match e with
  | Stdout _ | Stderr _ => true
  | Open path => String.eqb path DEFAULT_SPARK_MESOS_SECRET_FILE
  | SetEnv _ _ | CookImage _ _ | Run _ => false
  end.

(** The same machine with another outcome of [load_system_paasta_config]. *)
Definition with_system_config (w : World) (c : option SystemPaastaConfig)
  : World :=
  {| path_exists := path_exists w; read_text := read_text w;
     geteuid := geteuid w; getegid := getegid w; getfqdn := getfqdn w;
     environ_get := environ_get w; get_username := get_username w;
     find_mesos_leader := find_mesos_leader w;
     MESOS_MASTER_PORT := MESOS_MASTER_PORT w;
     pick_random_port := pick_random_port w;
     get_credentials := get_credentials w;
     grey := grey w; yellow := yellow w; red := red w;
     makefile_responds_to := makefile_responds_to w;
     paasta_cook_image := paasta_cook_image w;
     run_retcode := run_retcode w;
     load_system_paasta_config := c;
     fallback_cluster_fqdn := fallback_cluster_fqdn w;
     get_instance_config := get_instance_config w |}.

(** [SystemPaastaConfig({"volumes": []}, '/etc/paasta')] *)
Definition fallback_config (w : World) : SystemPaastaConfig :=
  {| get_volumes := []; cluster_fqdn := fallback_cluster_fqdn w |}.

(** The same machine with a Makefile that has every target. *)
Definition with_makefile (w : World) : World :=
  {| path_exists := path_exists w; read_text := read_text w;
     geteuid := geteuid w; getegid := getegid w; getfqdn := getfqdn w;
     environ_get := environ_get w; get_username := get_username w;
     find_mesos_leader := find_mesos_leader w;
     MESOS_MASTER_PORT := MESOS_MASTER_PORT w;
     pick_random_port := pick_random_port w;
     get_credentials := get_credentials w;
     grey := grey w; yellow := yellow w; red := red w;
     makefile_responds_to := fun _ => true;
     paasta_cook_image := paasta_cook_image w;
     run_retcode := run_retcode w;
     load_system_paasta_config := load_system_paasta_config w;
     fallback_cluster_fqdn := fallback_cluster_fqdn w;
     get_instance_config := get_instance_config w |}.

(** The same request with other --build, --image and --dry-run. *)
Definition with_image (a : Args) (b : bool) (i : option string) (d : bool)
  : Args :=
  {| build := b; image := i; service := service a;
     instance := instance a; cluster := cluster a; jars := jars a;
     pool := pool a; work_dir := work_dir a;
     yelpsoa_config_root := yelpsoa_config_root a; cmd := cmd a;
     dry_run := d; mesos_principal := mesos_principal a;
     mesos_secret := mesos_secret a; executor_memory := executor_memory a;
     executor_cores := executor_cores a; max_cores := max_cores a;
     driver_max_result_size := driver_max_result_size a;
     driver_memory := driver_memory a; driver_cores := driver_cores a |}.

(** The tag [build_and_push_docker_image] builds under. *)
Definition docker_tag_of (w : World) : string :=
  match environ_get w "DOCKER_TAG" with
  | Some t => t
  | None => DEFAULT_SPARK_DOCKER_IMAGE_PREFIX ++ "-" ++ get_username w
  end.

(** A secret store holding one well-formed document for service [svc]
    under [/soa]: [{"environments": {"prod": {"signature": "abc"}}}]. *)
Definition fs_signed : SecretTools.files :=
  fun path =>
    if String.eqb path "/soa/svc/secrets/a.json"
    then Json.Document
           (Json.JObj
              [("environments",
                Json.JObj [("prod", Json.JObj [("signature", Json.JStr "abc")])])])
    else Json.Missing.

(** The ways a run of the pipeline ends on the machines of this model:
    status 1, status 0 in a dry run, an exit with status 1, the
    AttributeError of missing credentials, or the process replaced by the
    wrapper outside a dry run. *)
Definition regular_end (dry : bool) (o : outcome Z) : Prop :=
  match o with
  | Ret z => z = 1%Z \/ (z = 0%Z /\ dry = true)
  | Exit c => c = 1%Z
  | Raise e => e = AttributeError
  | Execlp file _ => file = "paasta_docker_wrapper" /\ dry = false
  end.

(** The system configuration the run works with, and the warning printed
    when it is the fallback. *)
Definition config_of (w : World) : SystemPaastaConfig :=
  match load_system_paasta_config w with
  | Some c => c
  | None => fallback_config w
  end.

Definition config_warning (w : World) : list event :=
  match load_system_paasta_config w with
  | Some _ => []
  | None => [Stdout (yellow w msg_not_configured)]
  end.

(** The value [paasta_spark_run] passes as [load_deployments]. *)
Definition load_deployments_of (args : Args) : bool :=
  negb (build args) && match image args with None => true | Some _ => false end.

(** The registry name of the built image and the two docker commands. *)
Definition docker_url_of (w : World) : string :=
  DEFAULT_SPARK_DOCKER_REGISTRY ++ "/" ++ docker_tag_of w.

Definition tag_command (w : World) : string :=
  "docker tag " ++ docker_tag_of w ++ " " ++ docker_url_of w.

Definition push_command (w : World) : string :=
  "docker push " ++ docker_url_of w.

(** Sample machines and requests for the further properties. *)
Definition unconfigured_world : World := with_system_config Sample.world None.

Definition build_world : World := with_makefile Sample.world.

Definition build_args : Args := with_image Request.defaults true None false.

Definition image_args : Args :=
  with_image Request.defaults false (Some "registry.example.com/spark:1") false.

(** [distinct l]: no string occurs twice in [l]. *)
Fixpoint distinct (l : list string) : bool :=
  match l with
  | [] => true
  | x :: r => negb (existsb (String.eqb x) r) && distinct r
  end.

(** The request without a command on a machine whose instance declares
    none. *)
Definition no_command_args : Args :=
  Request.with_secret_cmd Request.defaults None None.

(** A run that ended well: status 0, or the process replaced. *)
Definition succeeded (m : M Z) : Prop :=
  result m = Ret 0%Z \/ exists file argv, result m = Execlp file argv.

End More.

(* ================================================================== *)
(** * Properties                                                       *)
(* ================================================================== *)

(** ** The monad *)

Lemma bind_ret_l {A B} (a : A) (f : A -> M B) : bind (ret a) f = f a.
Proof. unfold bind, ret. destruct (f a). reflexivity. Qed.

Lemma bind_ret_r {A} (m : M A) : bind m ret = m.
Proof.
  destruct m as [t [a|c|e|p a]]; simpl; try reflexivity.
  now rewrite app_nil_r.
Qed.

Lemma bind_assoc {A B C} (m : M A) (f : A -> M B) (g : B -> M C) :
  bind (bind m f) g = bind m (fun a => bind (f a) g).
Proof.
  destruct m as [t [a|c|e|p a]]; simpl; try reflexivity.
  destruct (f a) as [t1 [b|c|e|p b]]; simpl; try reflexivity.
  destruct (g b) as [t2 o]. now rewrite app_assoc.
Qed.

Lemma bind_ext {A B} (m : M A) (f g : A -> M B) :
  (forall a, f a = g a) -> bind m f = bind m g.
Proof.
  intros H. destruct m as [t [a|c|e|p a]]; simpl; try reflexivity.
  now rewrite H.
Qed.

(** A run that returns: its events come first, the rest follows. *)
Lemma bind_returns {A B} (t : list event) (a : A) (f : A -> M B) :
  bind (t, Ret a) f = ((t ++ trace (f a))%list, result (f a)).
Proof. unfold bind, trace, result. destruct (f a). reflexivity. Qed.

(** ** Strings *)

Lemma append_nil_r (s : string) : s ++ "" = s.
Proof. induction s; simpl; congruence. Qed.

Lemma append_assoc (a b c : string) : (a ++ b) ++ c = a ++ (b ++ c).
Proof. induction a; simpl; congruence. Qed.

Lemma ascii_eqb_true (a b : ascii) : Ascii.eqb a b = true <-> a = b.
Proof. apply Ascii.eqb_eq. Qed.

Section Split.
Variable sep : ascii.

Lemma split_not_nil (s : string) : Py.split sep s <> [].
Proof.
  destruct s as [|c s]; simpl; [discriminate|].
  destruct (Ascii.eqb c sep); [discriminate|].
  destruct (Py.split sep s); discriminate.
Qed.

(** A single component is the whole string, free of the separator. *)
Lemma split_one (s x : string) :
  Py.split sep s = [x] <-> x = s /\ no_char sep s = true.
Proof.
  revert x. induction s as [|c s IH]; intros x; simpl.
  - split; [intros H; injection H as <-; auto | intros [-> _]; auto].
  - destruct (Ascii.eqb c sep) eqn:E; simpl.
    + split; [|intros [_ H]; discriminate].
      intros H. injection H as _ H. now apply split_not_nil in H.
    + destruct (Py.split sep s) as [|y ys] eqn:S.
      * exfalso. exact (split_not_nil s S).
      * split.
        -- intros H. injection H as <- ->.
           destruct (proj1 (IH y) eq_refl) as [-> Hn]. auto.
        -- intros [-> Hn].
           pose proof (proj2 (IH s) (conj eq_refl Hn)) as K.
           injection K as -> ->. reflexivity.
Qed.

(** Exactly two components: one separator, at the cut. *)
Lemma split_two (s a b : string) :
  Py.split sep s = [a; b] <->
  s = a ++ String sep b /\ no_char sep a = true /\ no_char sep b = true.
Proof.
  revert a. induction s as [|c s IH]; intros a; simpl.
  - split; [discriminate|]. intros [H _]. destruct a; discriminate.
  - destruct (Ascii.eqb c sep) eqn:E.
    + apply ascii_eqb_true in E. subst c. split.
      * intros H. injection H as <- H. apply split_one in H as [-> Hb].
        repeat split; auto.
      * intros (H & Ha & Hb). destruct a as [|x a]; simpl in *.
        -- injection H as ->.
           now rewrite (proj2 (split_one b b) (conj eq_refl Hb)).
        -- injection H as <- _. rewrite Ascii.eqb_refl in Ha. discriminate.
    + destruct (Py.split sep s) as [|x xs] eqn:S.
      * exfalso. exact (split_not_nil s S).
      * split.
        -- intros H. injection H as <- ->.
           destruct (proj1 (IH x) eq_refl) as (-> & Hx & Hb).
           simpl. rewrite E. repeat split; auto.
        -- intros (H & Ha & Hb). destruct a as [|y a]; simpl in *.
           ++ injection H as -> _. rewrite Ascii.eqb_refl in E. discriminate.
           ++ injection H as <- ->.
              apply andb_prop in Ha as [_ Ha].
              assert (K : x :: xs = [a; b]) by (apply IH; auto).
              injection K as -> ->. reflexivity.
Qed.

End Split.

(** ** validate_work_dir *)

Section ValidateWorkDir.
Lemma validate_two (s a b : string) :
  Py.split ":" s = [a; b] ->
  SparkRun.validate_work_dir s =
    if negb (Py.isabs a) then ([Stderr (a ++ " is not an absolute path")], Exit 1%Z)
    else if negb (Py.isabs b) then ([Stderr (b ++ " is not an absolute path")], Exit 1%Z)
    else work_dir_ok.
Proof.
  intros H. unfold SparkRun.validate_work_dir. rewrite H.
  unfold SparkRun.check_len, SparkRun.check_abs. simpl.
  destruct (Py.isabs a), (Py.isabs b); reflexivity.
Qed.

Lemma validate_wrong_arity (s : string) :
  List.length (Py.split ":" s) <> 2%nat ->
  SparkRun.validate_work_dir s =
    ([Stderr ("work-dir " ++ s ++
              " is not in format local_abs_dir:container_abs_dir")], Exit 1%Z).
Proof.
  intros H. unfold SparkRun.validate_work_dir, SparkRun.check_len.
  apply Nat.eqb_neq in H. rewrite H. reflexivity.
Qed.

Lemma length_two {A} (l : list A) :
  List.length l = 2%nat -> exists a b, l = [a; b].
Proof.
  destruct l as [|a [|b [|c l]]]; simpl; try discriminate. eauto.
Qed.

End ValidateWorkDir.

(** C6. [validate_work_dir] splits its argument on [:].  It returns
    normally, having printed nothing, exactly when the split has two
    components and both are absolute paths (equivalently: the string is
    [a:b] with one colon and [a], [b] both starting with [/]).  In every
    other case it prints one message on stderr and exits with status 1,
    and [paasta_spark_run], which calls it first, ends there with nothing
    else done.  [a:b] fails, [/a:/b] passes, [/a:/b:/c] fails. *)
Theorem C6_validate_work_dir :
  (forall s : string,
    let r := SparkRun.validate_work_dir s in
    (r = work_dir_ok <->
       exists a b, Py.split ":" s = [a; b] /\
                   Py.isabs a = true /\ Py.isabs b = true) /\
    (r = work_dir_ok <->
       exists a b, s = a ++ ":" ++ b /\
                   no_char ":" a = true /\ no_char ":" b = true /\
                   Py.isabs a = true /\ Py.isabs b = true) /\
    (r = work_dir_ok \/ exists msg, r = ([Stderr msg], Exit 1%Z))) /\
  (forall (w : SparkRun.World) (args : SparkRun.Args),
    SparkRun.validate_work_dir (SparkRun.work_dir args) = work_dir_ok \/
    exists msg, SparkRun.paasta_spark_run w args = ([Stderr msg], Exit 1%Z)) /\
  SparkRun.validate_work_dir "a:b" =
    ([Stderr "a is not an absolute path"], Exit 1%Z) /\
  SparkRun.validate_work_dir "/a:/b" = work_dir_ok /\
  SparkRun.validate_work_dir "/a:/b:/c" =
    ([Stderr "work-dir /a:/b:/c is not in format local_abs_dir:container_abs_dir"],
     Exit 1%Z).
Proof.
  assert (C : forall s, SparkRun.validate_work_dir s = work_dir_ok \/
                        exists msg, SparkRun.validate_work_dir s =
                                    ([Stderr msg], Exit 1%Z)).
  { intros s.
    destruct (Nat.eq_dec (List.length (Py.split ":" s)) 2) as [L|L].
    - destruct (length_two _ L) as (a & b & E).
      rewrite (validate_two s a b E).
      destruct (Py.isabs a), (Py.isabs b); simpl; eauto.
    - rewrite (validate_wrong_arity s L). eauto. }
  assert (A : forall s, SparkRun.validate_work_dir s = work_dir_ok <->
              exists a b, Py.split ":" s = [a; b] /\
                          Py.isabs a = true /\ Py.isabs b = true).
  { intros s. split.
    - intros H.
      destruct (Nat.eq_dec (List.length (Py.split ":" s)) 2) as [L|L].
      + destruct (length_two _ L) as (a & b & E).
        exists a, b. rewrite (validate_two s a b E) in H.
        destruct (Py.isabs a), (Py.isabs b); simpl in H;
          try discriminate; auto.
      + rewrite (validate_wrong_arity s L) in H. discriminate.
    - intros (a & b & E & Ha & Hb).
      rewrite (validate_two s a b E), Ha, Hb. reflexivity. }
  split; [|split].
  - intros s r. subst r. split; [apply A|]. split; [|apply C].
    rewrite A. split.
    + intros (a & b & H & Ha & Hb). exists a, b.
      apply split_two in H as (-> & Na & Nb). auto.
    + intros (a & b & -> & Na & Nb & Ia & Ib). exists a, b.
      split; [|auto]. apply split_two. auto.
  - intros w args. destruct (C (SparkRun.work_dir args)) as [H|[msg H]].
    + now left.
    + right. exists msg. unfold SparkRun.paasta_spark_run.
      rewrite H. reflexivity.
  - repeat split.
Qed.

(** ** is_secret_ref *)

Section SecretRegex.
Import SecretTools.

Lemma matches_lit (c : ascii) (r : list Re.item) (b : bool) (s : string) :
  Re.matches (Re.Lit c :: r) b s = true <->
  exists s', s = String c s' /\ Re.matches r false s' = true.
Proof.
  simpl. destruct s as [|c' s'].
  - split; [discriminate | intros (x & H & _); discriminate].
  - split.
    + intros H. apply andb_prop in H as [E H].
      apply ascii_eqb_true in E. subst. eauto.
    + intros (x & H & K). injection H as -> ->.
      now rewrite Ascii.eqb_refl.
Qed.

(** What may follow the token: the closing parenthesis, and then the
    end of the subject or one final newline. *)
Lemma matches_close (b : bool) (s : string) :
  Re.matches [Re.Lit ")"; Re.Eol] b s = true <->
  s = ")" \/ s = ")" ++ Py.nl.
Proof.
  rewrite matches_lit. split.
  - intros (s' & -> & H). simpl in H. rewrite andb_true_r in H.
    destruct s' as [|c [|d s'']]; simpl in H; try discriminate; auto.
    apply ascii_eqb_true in H. subst. now right.
  - intros [->| ->]; eexists; split; reflexivity.
Qed.

Lemma close_not_token : token_char ")" = false.
Proof. reflexivity. Qed.

Lemma matches_token_star (s : string) (b : bool) :
  Re.matches [Re.Star token_ranges token_singles; Re.Lit ")"; Re.Eol] b s = true <->
  exists tok, is_token tok = true /\
              (s = tok ++ ")" \/ s = tok ++ ")" ++ Py.nl).
Proof.
  revert b. induction s as [|c s IH]; intros b.
  - change (Re.matches [Re.Lit ")"; Re.Eol] b "" = true <->
            exists tok, is_token tok = true /\
                        ("" = tok ++ ")" \/ "" = tok ++ ")" ++ Py.nl)).
    split; [discriminate|].
    intros (tok & _ & [H|H]); destruct tok; discriminate.
  - change (Re.matches [Re.Star token_ranges token_singles; Re.Lit ")"; Re.Eol]
              b (String c s))
      with (if token_char c
            then Re.matches [Re.Star token_ranges token_singles; Re.Lit ")"; Re.Eol]
                   false s
                 || Re.matches [Re.Lit ")"; Re.Eol] b (String c s)
            else Re.matches [Re.Lit ")"; Re.Eol] b (String c s)).
    destruct (token_char c) eqn:T.
    + assert (N : Re.matches [Re.Lit ")"; Re.Eol] b (String c s) = false).
      { destruct (Re.matches [Re.Lit ")"; Re.Eol] b (String c s)) eqn:K; auto.
        apply matches_close in K.
        assert (c = ")"%char) by (destruct K as [K|K]; now injection K).
        subst c. rewrite close_not_token in T. discriminate. }
      rewrite N, orb_false_r, IH. split.
      * intros (tok & Ht & H). exists (String c tok). simpl. rewrite T, Ht.
        split; [reflexivity|]. destruct H as [->| ->]; auto.
      * intros (tok & Ht & H). destruct tok as [|c' tok].
        -- assert (c = ")"%char) by (destruct H as [H|H]; now injection H).
           subst c. rewrite close_not_token in T. discriminate.
        -- simpl in Ht. apply andb_prop in Ht as [_ Ht]. exists tok.
           split; [exact Ht|].
           destruct H as [H|H]; simpl in H; injection H as _ ->; auto.
    + rewrite matches_close. split.
      * intros H. exists "". split; [reflexivity|exact H].
      * intros (tok & Ht & H). destruct tok as [|c' tok]; [exact H|].
        simpl in Ht. apply andb_prop in Ht as [Hc _].
        assert (c = c') by (destruct H as [H|H]; now injection H).
        subst c'. rewrite Hc in T. discriminate.
Qed.

(** The strings [is_secret_ref] accepts: [SECRET(<token>)], and the same
    followed by one newline. *)
Lemma is_secret_ref_spec (s : string) :
  is_secret_ref s = true <->
  exists tok, is_token tok = true /\
              (s = "SECRET(" ++ tok ++ ")" \/
               s = "SECRET(" ++ tok ++ ")" ++ Py.nl).
Proof.
  unfold is_secret_ref, Re.match_, SECRET_REGEX.
  change (Re.matches (Re.Bol :: ?r) true s) with (Re.matches r true s).
  split.
  - intros H.
    repeat (apply matches_lit in H; destruct H as (? & -> & H)).
    apply matches_token_star in H as (tok & Ht & H).
    exists tok. split; [exact Ht|]. destruct H as [->| ->]; auto.
  - intros (tok & Ht & H).
    assert (K : exists rest, s = "SECRET(" ++ rest /\
                             (rest = tok ++ ")" \/ rest = tok ++ ")" ++ Py.nl)).
    { destruct H as [->| ->]; eexists; split; eauto. }
    destruct K as (rest & -> & K). cbn [append].
    repeat (apply matches_lit; eexists; split; [reflexivity|]).
    apply matches_token_star. eauto.
Qed.

End SecretRegex.

(** C3. SECRET_REGEX ends in [$], which also holds just before a final
    newline, so [is_secret_ref] accepts [SECRET(a)] followed by a newline:
    the match is not a full-string match.  Leading characters and other
    trailing characters are rejected. *)
Theorem C3_is_secret_ref_trailing_newline :
  SecretTools.is_secret_ref ("SECRET(a)" ++ Py.nl) = true /\
  SecretTools.is_secret_ref "SECRET(a)" = true /\
  SecretTools.is_secret_ref "xSECRET(a)" = false /\
  SecretTools.is_secret_ref "SECRET(a)x" = false.
Proof. repeat split. Qed.

(** ** get_hmac_for_secret *)

Section Hmac.
Import SecretTools.
Variable fs : files.
Variables service soa_dir vault_environment : string.

Lemma token_no_paren (tok : string) :
  is_token tok = true -> no_char "(" tok = true.
Proof.
  induction tok as [|c tok IH]; simpl; [reflexivity|].
  intros H. apply andb_prop in H as [Hc Ht]. rewrite (IH Ht), andb_true_r.
  destruct (Ascii.eqb c "(") eqn:E; [|reflexivity].
  apply ascii_eqb_true in E. subst c. discriminate.
Qed.

Lemma no_char_app (c : ascii) (a b : string) :
  no_char c (a ++ b) = no_char c a && no_char c b.
Proof.
  induction a as [|x a IH]; simpl; [reflexivity|].
  now rewrite IH, andb_assoc.
Qed.

Lemma drop_last_app (a : string) (c : ascii) :
  Py.drop_last (a ++ String c "") = a.
Proof.
  induction a as [|x a IH]; [reflexivity|].
  simpl. rewrite IH. destruct a; reflexivity.
Qed.

(** The name extracted from a well-formed reference is its token. *)
Lemma secret_name_of_ref (tok : string) :
  is_token tok = true ->
  get_secret_name_from_ref ("SECRET(" ++ tok ++ ")") = ret tok.
Proof.
  intros H. unfold get_secret_name_from_ref.
  assert (E : Py.split "(" ("SECRET(" ++ tok ++ ")") = ["SECRET"; tok ++ ")"]).
  { apply split_two. repeat split.
    rewrite no_char_app, (token_no_paren tok H). reflexivity. }
  rewrite E. simpl. rewrite drop_last_app. reflexivity.
Qed.

Variable tok : string.
Hypothesis tok_ok : is_token tok = true.

Local Abbreviation path := (secret_path soa_dir service tok).
Local Abbreviation call :=
  (get_hmac_for_secret fs ("SECRET(" ++ tok ++ ")") service soa_dir
                       vault_environment).

Lemma hmac_unfold :
  call =
    (emit (Open path) ;;
     match fs path with
     | Json.Missing => emit (Stdout (msg_no_file path)) ;; ret Json.JNull
     | Json.Malformed => emit (Stdout (msg_bad_json path)) ;; ret Json.JNull
     | Json.Document secret_file =>
         catch_KeyError
           (envs <- Json.subscript secret_file "environments" ;;
            env <- Json.subscript envs vault_environment ;;
            Json.subscript env "signature")
           (emit (Stdout (msg_no_signature vault_environment)) ;;
            ret Json.JNull)
     end).
Proof.
  unfold get_hmac_for_secret.
  rewrite (secret_name_of_ref tok tok_ok), bind_ret_l. reflexivity.
Qed.

(** The file is missing: one diagnostic, [None]. *)
Lemma hmac_missing :
  fs path = Json.Missing ->
  call = ([Open path; Stdout (msg_no_file path)], Ret Json.JNull).
Proof. intros H. rewrite hmac_unfold, H. reflexivity. Qed.

(** The file is not JSON: another diagnostic, [None]. *)
Lemma hmac_malformed :
  fs path = Json.Malformed ->
  call = ([Open path; Stdout (msg_bad_json path)], Ret Json.JNull).
Proof. intros H. rewrite hmac_unfold, H. reflexivity. Qed.

(** A document made of objects all the way down: the signature when the
    three keys are present, a third diagnostic and [None] otherwise. *)
Lemma hmac_objects (top : list (string * Json.value)) :
  fs path = Json.Document (Json.JObj top) ->
  (forall envs, Json.lookup "environments" top = Some envs ->
                exists items, envs = Json.JObj items /\
                  forall env, Json.lookup vault_environment items = Some env ->
                              exists fields, env = Json.JObj fields) ->
  call =
    match Json.lookup "environments" top with
    | Some (Json.JObj items) =>
        match Json.lookup vault_environment items with
        | Some (Json.JObj fields) =>
            match Json.lookup "signature" fields with
            | Some sig => ([Open path], Ret sig)
            | None => ([Open path; Stdout (msg_no_signature vault_environment)],
                       Ret Json.JNull)
            end
        | _ => ([Open path; Stdout (msg_no_signature vault_environment)],
                Ret Json.JNull)
        end
    | _ => ([Open path; Stdout (msg_no_signature vault_environment)],
            Ret Json.JNull)
    end.
Proof.
  intros H Shape. rewrite hmac_unfold, H. simpl.
  destruct (Json.lookup "environments" top) as [envs|]; [|reflexivity].
  destruct (Shape envs eq_refl) as (items & -> & Shape'). simpl.
  destruct (Json.lookup vault_environment items) as [env|]; [|reflexivity].
  destruct (Shape' env eq_refl) as (fields & ->). simpl.
  destruct (Json.lookup "signature" fields); reflexivity.
Qed.

End Hmac.

(** C8. With the secret document [{"environments": {"prod": null}}] (valid
    JSON whose entry for the requested environment has no signature field)
    [get_hmac_for_secret] does not return None: the lookup raises
    TypeError, which none of the three handlers catches, and the exception
    reaches the caller. *)
Theorem C8_get_hmac_for_secret_raises :
  SecretTools.get_hmac_for_secret fs_null_env "SECRET(a)" "svc" "/soa" "prod" =
    ([Open "/soa/svc/secrets/a.json"], Raise TypeError).
Proof. reflexivity. Qed.

(** ** get_spark_conf_str *)

Section ConfStr.
Import SparkRun.
Variable w : World.

Lemma append_if_int_unit (o : option Z) (key unit : string)
      (l : list string) :
  append_if_int o (fun n => "--conf " ++ key ++ "=" ++ Py.fmt_d n ++ unit) l =
  (l ++ map Conf.render (Conf.opt_int o key unit))%list.
Proof.
  unfold append_if_int, Conf.opt_int, Py.truthy_int, Py.append.
  destruct o as [n|]; [destruct (Z.eqb n 0)|]; simpl;
    now rewrite ?app_nil_r.
Qed.

Lemma append_if_int_bare (o : option Z) (key : string) (l : list string) :
  append_if_int o (fun n => "--conf " ++ key ++ "=" ++ Py.fmt_d n) l =
  (l ++ map Conf.render (Conf.opt_int o key ""))%list.
Proof.
  unfold append_if_int, Conf.opt_int, Py.truthy_int, Py.append.
  destruct o as [n|]; [destruct (Z.eqb n 0)|]; simpl;
    rewrite ?app_nil_r; try reflexivity.
  unfold Conf.render. simpl. now rewrite append_nil_r.
Qed.

Lemma append_if_str_spec (o : option string) (key : string)
      (l : list string) :
  append_if_str o (fun s => "--conf " ++ key ++ "=" ++ s) l =
  (l ++ map Conf.render (Conf.opt_str o key))%list.
Proof.
  unfold append_if_str, Conf.opt_str, Py.truthy_str, Py.append.
  destruct o as [[|c s]|]; simpl; now rewrite ?app_nil_r.
Qed.

Variables (args : Args) (container_name : string) (spark_ui_port : Z).
Variables (docker_img : string) (system_paasta_config : SystemPaastaConfig).
Variable volumes : list string.

Local Abbreviation call :=
  (get_spark_conf_str w args container_name spark_ui_port docker_img
                      system_paasta_config volumes).
Local Abbreviation rendered secret :=
  (Py.join " " (map Conf.render
                    (Conf.entries w args container_name spark_ui_port docker_img
                                  system_paasta_config volumes secret))).

(** The whole function in closed form. *)
Lemma get_spark_conf_str_spec :
  call =
    match mesos_secret args with
    | Some (String c s) => ([], Ret (rendered (String c s)))
    | _ =>
        match read_text w DEFAULT_SPARK_MESOS_SECRET_FILE with
        | Some secret =>
            ([Open DEFAULT_SPARK_MESOS_SECRET_FILE], Ret (rendered secret))
        | None =>
            ([Open DEFAULT_SPARK_MESOS_SECRET_FILE;
              Stderr ("Cannot load mesos secret from " ++
                      DEFAULT_SPARK_MESOS_SECRET_FILE)], Exit 1%Z)
        end
    end.
Proof.
  unfold get_spark_conf_str, Conf.entries, Conf.image_source_of.
  rewrite (append_if_int_unit (driver_max_result_size args)
             "spark.driver.maxResultSize" "g").
  rewrite (append_if_int_unit (driver_memory args) "spark.driver.memory" "g").
  rewrite (append_if_int_bare (driver_cores args) "spark.driver.cores").
  rewrite (append_if_str_spec (jars args) "spark.jars").
  unfold Py.append. cbn [concat].
  destruct (build args), (Py.truthy_str (image args));
    destruct (mesos_secret args) as [[|c s]|];
    try destruct (read_text w DEFAULT_SPARK_MESOS_SECRET_FILE);
    cbn [negb andb bind emit ret paasta_print_err sys_exit app];
    try reflexivity;
    (do 3 f_equal;
     repeat first [rewrite map_app | progress cbn [map]];
     rewrite <- ?app_assoc; reflexivity).
Qed.

End ConfStr.

Example sample_conf_str :
  SparkRun.get_spark_conf_str Sample.world Request.defaults
    "paasta_spark_run_alice_31337" 31337 "img" Sample.system_config
    ["/nail/srv:/nail/srv:ro"] =
  ([Open "/nail/etc/paasta_spark_secret"],
   Ret ("--conf spark.app.name=paasta_spark_run_alice_31337 " ++
        "--conf spark.ui.port=31337 " ++
        "--conf spark.master=mesos://10.0.0.1:5050 " ++
        "--conf spark.cores.max=4 " ++
        "--conf spark.executor.memory=4g " ++
        "--conf spark.executor.cores=2 " ++
        "--conf spark.mesos.executor.docker.image=img " ++
        "--conf spark.mesos.uris=file:///root/.dockercfg " ++
        "--conf spark.mesos.principal=spark " ++
        "--conf spark.mesos.secret=hunter2 " ++
        "--conf spark.driver.extraJavaOptions=-Dderby.system.home=/tmp/derby " ++
        "--conf spark.mesos.constraints=pool:default " ++
        "--conf spark.mesos.executor.docker.volumes=/nail/srv:/nail/srv:ro")).
Proof. reflexivity. Qed.

Lemma Ret_inj {A} (a b : A) : @Ret A a = Ret b -> a = b.
Proof. intros H. now injection H. Qed.

Lemma conf_str_result (w : SparkRun.World) (args : SparkRun.Args)
      (container_name : string) (spark_ui_port : Z) (docker_img : string)
      (system_paasta_config : SparkRun.SystemPaastaConfig)
      (volumes : list string) :
  result (SparkRun.get_spark_conf_str w args container_name spark_ui_port
            docker_img system_paasta_config volumes) =
  match Conf.secret_value w args with
  | Some secret =>
      Ret (Py.join " "
             (map Conf.render
                (Conf.entries w args container_name spark_ui_port docker_img
                              system_paasta_config volumes secret)))
  | None => Exit 1%Z
  end.
Proof.
  rewrite get_spark_conf_str_spec.
  unfold Conf.secret_value, Py.truthy_str.
  destruct (SparkRun.mesos_secret args) as [[|c s]|];
    try destruct (SparkRun.read_text w SparkRun.DEFAULT_SPARK_MESOS_SECRET_FILE);
    reflexivity.
Qed.

(** C1. When [get_spark_conf_str] returns, its result is the entries of
    [Conf.entries], each rendered as [--conf key=value], joined by single
    spaces, in this order: job name, UI port, master endpoint, max cores,
    executor memory (with the g suffix), executor cores, the driver
    result-size cap, memory and cores (each only when supplied, and then
    only when not zero), the image, the registry-credentials hint (only
    when the image is resolved from the deployment), the jars (only when
    supplied and not empty), the principal, the shared secret, the derby
    override, the pool constraint and the comma-joined volume list it was
    given.  The only other outcome is the exit with status 1 when the
    secret has to come from the file and the file cannot be read. *)
Theorem C1_conf_str_entries_in_order :
  forall (w : SparkRun.World) (args : SparkRun.Args) (container_name : string)
         (spark_ui_port : Z) (docker_img : string)
         (system_paasta_config : SparkRun.SystemPaastaConfig)
         (volumes : list string),
    result (SparkRun.get_spark_conf_str w args container_name spark_ui_port
              docker_img system_paasta_config volumes) =
    match Conf.secret_value w args with
    | Some secret =>
        Ret (Py.join " "
               (map Conf.render
                  (Conf.entries w args container_name spark_ui_port docker_img
                                system_paasta_config volumes secret)))
    | None => Exit 1%Z
    end.
Proof. exact conf_str_result. Qed.

(** C10. A driver option given as 0 leaves the configuration string, and
    the whole run, exactly as they are when the option is not given: the
    three entries are guarded by the truth value of the integer. *)
Theorem C10_zero_driver_option_is_omitted :
  forall (w : SparkRun.World) (a : SparkRun.Args)
         (result_size memory cores : option Z),
    (forall container_name spark_ui_port docker_img system_paasta_config volumes,
        let conf_of args :=
          SparkRun.get_spark_conf_str w args container_name spark_ui_port
            docker_img system_paasta_config volumes in
        conf_of (Request.with_driver a (Some 0%Z) memory cores) =
        conf_of (Request.with_driver a None memory cores) /\
        conf_of (Request.with_driver a result_size (Some 0%Z) cores) =
        conf_of (Request.with_driver a result_size None cores) /\
        conf_of (Request.with_driver a result_size memory (Some 0%Z)) =
        conf_of (Request.with_driver a result_size memory None)) /\
    SparkRun.paasta_spark_run w (Request.with_driver a (Some 0%Z) memory cores) =
    SparkRun.paasta_spark_run w (Request.with_driver a None memory cores) /\
    SparkRun.paasta_spark_run w (Request.with_driver a result_size (Some 0%Z) cores) =
    SparkRun.paasta_spark_run w (Request.with_driver a result_size None cores) /\
    SparkRun.paasta_spark_run w (Request.with_driver a result_size memory (Some 0%Z)) =
    SparkRun.paasta_spark_run w (Request.with_driver a result_size memory None).
Proof.
  intros. repeat split; reflexivity.
Qed.

(** ** The shared secret *)

(** The claim of C7 fails for [--mesos-secret ''] : a secret is supplied,
    it is empty, and the secret file is opened all the same. *)
Lemma C7_empty_secret_reads_file :
  let args := Request.with_secret_cmd Request.defaults (Some "") (Some "pyspark") in
  SparkRun.mesos_secret args = Some "" /\
  trace (SparkRun.get_spark_conf_str Sample.world args
           "paasta_spark_run_alice_31337" 31337 "img" Sample.system_config []) =
    [Open "/nail/etc/paasta_spark_secret"].
Proof. split; reflexivity. Qed.

(** C7, amended.  When the secret option is absent or empty, the
    synthesizer opens the fixed secret file: if it can be read, its content
    is the secret of the configuration string; if not, the path is printed
    on stderr and the process exits with status 1, nothing else having
    happened.  When a non-empty secret is supplied, no file is opened and
    that secret is used. *)
Theorem C7_secret_from_file_or_option :
  forall (w : SparkRun.World) (args : SparkRun.Args) (container_name : string)
         (spark_ui_port : Z) (docker_img : string)
         (system_paasta_config : SparkRun.SystemPaastaConfig)
         (volumes : list string),
    let run := SparkRun.get_spark_conf_str w args container_name spark_ui_port
                 docker_img system_paasta_config volumes in
    let conf_with secret :=
      Py.join " "
        (map Conf.render
           (Conf.entries w args container_name spark_ui_port docker_img
                         system_paasta_config volumes secret)) in
    match SparkRun.mesos_secret args with
    | Some (String c s) =>
        run = ([], Ret (conf_with (String c s)))
    | _ =>
        match SparkRun.read_text w "/nail/etc/paasta_spark_secret" with
        | Some secret =>
            run = ([Open "/nail/etc/paasta_spark_secret"], Ret (conf_with secret))
        | None =>
            run = ([Open "/nail/etc/paasta_spark_secret";
                    Stderr "Cannot load mesos secret from /nail/etc/paasta_spark_secret"],
                   Exit 1%Z)
        end
    end.
Proof.
  intros. subst run conf_with. cbv beta.
  destruct (SparkRun.mesos_secret args) as [[|c s]|] eqn:E;
    try destruct (SparkRun.read_text w "/nail/etc/paasta_spark_secret") eqn:R;
    rewrite get_spark_conf_str_spec, E;
    unfold SparkRun.DEFAULT_SPARK_MESOS_SECRET_FILE; rewrite ?R; reflexivity.
Qed.

(** ** json.dumps can be read back *)

Section JsonRoundTrip.
Import Json.

Lemma read_string_escape_char (c : ascii) (tail : string) :
  read_string (escape_char c ++ tail) = cons_char c (read_string tail).
Proof.
  destruct c as [b0 b1 b2 b3 b4 b5 b6 b7].
  destruct b0, b1, b2, b3, b4, b5, b6, b7; reflexivity.
Qed.

Lemma read_string_escape (s rest : string) :
  read_string (escape s ++ String Py.dquote rest) = Some (s, rest).
Proof.
  induction s as [|c s IH].
  - reflexivity.
  - cbn [escape]. rewrite append_assoc, read_string_escape_char, IH.
    reflexivity.
Qed.

Lemma dumps_str_app (x rest : string) :
  dumps_str x ++ rest = String Py.dquote (escape x ++ String Py.dquote rest).
Proof. unfold dumps_str. cbn [append]. now rewrite append_assoc. Qed.

Lemma join_cons2 (sep x y : string) (l : list string) :
  Py.join sep (x :: y :: l) = x ++ sep ++ Py.join sep (y :: l).
Proof. reflexivity. Qed.

Lemma read_items_join (l : list string) :
  l <> [] ->
  forall fuel, (List.length l <= fuel)%nat ->
  read_items fuel (Py.join ", " (map dumps_str l) ++ "]") = Some l.
Proof.
  induction l as [|x [|y l] IH]; intros N fuel F.
  - contradiction.
  - destruct fuel as [|fuel]; [inversion F|].
    cbn [map Py.join String.concat]. rewrite dumps_str_app.
    cbn [read_items]. rewrite Ascii.eqb_refl, read_string_escape.
    reflexivity.
  - destruct fuel as [|fuel]; [inversion F|].
    cbn [map]. rewrite join_cons2, !append_assoc, dumps_str_app.
    cbn [read_items]. rewrite Ascii.eqb_refl, read_string_escape.
    cbn [append]. change (dumps_str y :: map dumps_str l)
      with (map dumps_str (y :: l)).
    rewrite IH; [reflexivity | discriminate | simpl in F |- *; lia].
Qed.

Lemma length_append (a b : string) :
  String.length (a ++ b) = (String.length a + String.length b)%nat.
Proof. induction a; simpl; congruence. Qed.

Lemma join_length (l : list string) :
  (List.length l <= String.length (Py.join ", " (map dumps_str l) ++ "]"))%nat.
Proof.
  induction l as [|x [|y l] IH].
  - simpl. lia.
  - cbn [map Py.join String.concat]. rewrite dumps_str_app. simpl. lia.
  - cbn [map]. rewrite join_cons2, !append_assoc, dumps_str_app.
    cbn [map] in IH. rewrite length_append in IH.
    cbn [String.length]. rewrite !length_append.
    cbn [String.length append] in IH |- *. rewrite length_append.
    cbn [String.length List.length] in IH |- *. lia.
Qed.

(** Reading back what [dumps] wrote gives the list of strings again. *)
Lemma loads_dumps (l : list string) : loads (dumps l) = Some l.
Proof.
  destruct l as [|x l]; [reflexivity|].
  unfold dumps. cbn [append].
  assert (E : exists tail,
             Py.join ", " (map dumps_str (x :: l)) ++ "]" =
             String Py.dquote tail).
  { destruct l as [|y l].
    - cbn [map Py.join String.concat]. rewrite dumps_str_app. eauto.
    - cbn [map]. rewrite join_cons2, !append_assoc, dumps_str_app. eauto. }
  destruct E as (tail & E).
  pose proof (join_length (x :: l)) as L.
  pose proof (read_items_join (x :: l)) as R.
  rewrite E in *. cbn [loads].
  apply R; [discriminate|exact L].
Qed.

Lemma dumps_injective (l1 l2 : list string) : dumps l1 = dumps l2 -> l1 = l2.
Proof.
  intros H. apply (f_equal loads) in H. rewrite !loads_dumps in H.
  now injection H.
Qed.

End JsonRoundTrip.

(** ** run_docker_container *)

Section DockerRun.
Import SparkRun.
Variable w : World.

Lemma fold_left_extend {A B} (f : B -> list A) (l : list B) (init : list A) :
  fold_left (fun acc x => Py.extend acc (f x)) l init =
  (init ++ flat_map f l)%list.
Proof.
  revert init. induction l as [|x l IH]; intros init; simpl.
  - now rewrite app_nil_r.
  - rewrite IH. unfold Py.extend. now rewrite app_assoc.
Qed.

Lemma fold_left_append {A B} (f : B -> A) (l : list B) (init : list A) :
  fold_left (fun acc x => Py.append acc (f x)) l init =
  (init ++ map f l)%list.
Proof.
  revert init. induction l as [|x l IH]; intros init; simpl.
  - now rewrite app_nil_r.
  - rewrite IH. unfold Py.append. now rewrite <- app_assoc.
Qed.

(** The argument vector, laid out. *)
Lemma get_docker_run_cmd_spec (container_name : string)
      (volumes : list string) (env : Dict.t) (docker_img docker_cmd : string) :
  get_docker_run_cmd w container_name volumes env docker_img docker_cmd =
  Launch.fixed_flags w container_name
  +++ Launch.env_flags env
  +++ Launch.volume_flags volumes
  +++ [docker_img; "sh"; "-c"; docker_cmd].
Proof.
  unfold get_docker_run_cmd, Launch.fixed_flags, Launch.env_flags,
    Launch.volume_flags.
  rewrite (fold_left_extend (fun kv => ["--env"; fst kv ++ "=" ++ snd kv])).
  rewrite (fold_left_append (fun v => "--volume=" ++ v)).
  unfold Py.append, Py.extend. cbn [app].
  rewrite <- !app_assoc. reflexivity.
Qed.

End DockerRun.

Lemma run_docker_container_modes (w : SparkRun.World) (container_name : string)
      (volumes : list string) (environment : Dict.t)
      (docker_img docker_cmd : string) :
  SparkRun.run_docker_container w container_name volumes environment
    docker_img docker_cmd true =
    ([Stdout (Json.dumps (SparkRun.get_docker_run_cmd w container_name volumes
                            environment docker_img docker_cmd))], Ret 0%Z) /\
  SparkRun.run_docker_container w container_name volumes environment
    docker_img docker_cmd false =
    ([Stdout ("Running docker command:" ++ Py.nl ++
              SparkRun.grey w
                (Py.join " " (SparkRun.get_docker_run_cmd w container_name volumes
                                environment docker_img docker_cmd)))],
     Execlp "paasta_docker_wrapper"
       (SparkRun.get_docker_run_cmd w container_name volumes environment
          docker_img docker_cmd)).
Proof. split; reflexivity. Qed.

(** C5. With the dry-run flag [run_docker_container] prints the argument
    vector as a JSON array and returns 0: the process is not replaced.
    Without the flag it replaces the process, passing the same argument
    vector.  Reading the printed JSON back gives that vector again. *)
Theorem C5_dry_run_prints_live_argv :
  forall (w : SparkRun.World) (container_name : string) (volumes : list string)
         (environment : Dict.t) (docker_img docker_cmd : string),
    let argv := SparkRun.get_docker_run_cmd w container_name volumes environment
                  docker_img docker_cmd in
    SparkRun.run_docker_container w container_name volumes environment
      docker_img docker_cmd true =
      ([Stdout (Json.dumps argv)], Ret 0%Z) /\
    SparkRun.run_docker_container w container_name volumes environment
      docker_img docker_cmd false =
      ([Stdout ("Running docker command:" ++ Py.nl ++
                SparkRun.grey w (Py.join " " argv))],
       Execlp "paasta_docker_wrapper" argv) /\
    Json.loads (Json.dumps argv) = Some argv.
Proof.
  intros. subst argv.
  destruct (run_docker_container_modes w container_name volumes environment docker_img docker_cmd)
    as [Dry Live].
  repeat split; auto using loads_dumps.
Qed.

(** ** configure_and_run_docker_container *)

Section Configure.
Import SparkRun.
Variable w : World.

(** The loop over the declared bindings never fails: it keeps the
    existing ones and warns about the others. *)
Lemma collect_volumes (vols : list Volume) (acc : list string) :
  for_each vols (volume_step w) acc =
  (Launch.warnings w vols, Ret (acc +++ Launch.kept w vols)).
Proof.
  revert acc. induction vols as [|v vols IH]; intros acc.
  - simpl. now rewrite app_nil_r.
  - cbn [for_each]. unfold volume_step at 1.
    unfold Launch.warnings, Launch.kept, Launch.exists_on in *.
    cbn [filter]. destruct (path_exists w (hostPath v)); cbn [negb map].
    + rewrite bind_ret_l, IH. unfold Py.append.
      now rewrite <- app_assoc.
    + unfold paasta_print, emit, ret. cbn [bind app]. rewrite IH.
      reflexivity.
Qed.

Lemma Stdout_inj (a b : string) : Stdout a = Stdout b -> a = b.
Proof. intros H. now injection H. Qed.

Lemma app_two_inj_tail {A} (l t : list A) (a b c : A) :
  l +++ [a; b] = t +++ [c] -> b = c.
Proof.
  change (l +++ [a; b]) with (l +++ [a] +++ [b]). rewrite app_assoc.
  intros H. now apply app_inj_tail in H.
Qed.

Lemma rewrite_docker_cmd_cases (args : Args) (c conf : string) :
  (exists c', rewrite_docker_cmd w args c conf = ([], Ret c')) \/
  rewrite_docker_cmd w args c conf = ([], Raise IndexError).
Proof.
  unfold rewrite_docker_cmd, index.
  destruct (String.eqb c "jupyter").
  - destruct (nth_error (Py.split ":" (work_dir args)) 1);
      [left; eexists; reflexivity | right; reflexivity].
  - destruct (existsb (String.eqb c) ["pyspark"; "spark-shell"]);
      [|destruct (Py.startswith "spark-submit" c)];
      left; eexists; reflexivity.
Qed.

(** Without credentials nothing is built: [creds.access_key] raises. *)
Lemma get_spark_env_no_credentials (args : Args) (conf : string) :
  get_credentials w = None ->
  get_spark_env w args conf = ([], Raise AttributeError).
Proof. intros N. unfold get_spark_env. rewrite N. reflexivity. Qed.

Lemma get_spark_env_cases (args : Args) (conf : string) :
  (exists env, get_spark_env w args conf = ([], Ret env)) \/
  get_spark_env w args conf = ([], Raise IndexError) \/
  get_spark_env w args conf = ([], Raise AttributeError).
Proof.
  destruct (get_credentials w) as [creds|] eqn:G.
  2:{ right. right. now apply get_spark_env_no_credentials. }
  unfold get_spark_env, index. rewrite G. cbn [attr]. rewrite !bind_ret_l.
  destruct (Py.opt_eqb (cmd args) "jupyter"); [|left; eexists; reflexivity].
  destruct (nth_error (Py.split ":" (work_dir args)) 1);
    [left; eexists; reflexivity | right; left; reflexivity].
Qed.

Lemma get_spark_conf_str_cases (args : Args) (name : string) (port : Z)
      (img : string) (spc : SystemPaastaConfig) (vols : list string) :
  (exists t conf, get_spark_conf_str w args name port img spc vols = (t, Ret conf)) \/
  (exists t, get_spark_conf_str w args name port img spc vols = (t, Exit 1%Z)).
Proof.
  rewrite get_spark_conf_str_spec.
  destruct (mesos_secret args) as [[|c s]|];
    try destruct (read_text w DEFAULT_SPARK_MESOS_SECRET_FILE); eauto.
Qed.

Variables (args : Args) (docker_img : string).
Variables (instance_config : InstanceConfig).
Variable system_paasta_config : SystemPaastaConfig.

Local Abbreviation vols := (Launch.declared instance_config system_paasta_config).
Local Abbreviation name := (Launch.name_of w args).
Local Abbreviation port := (Launch.port_of w args).
Local Abbreviation call :=
  (configure_and_run_docker_container w args docker_img instance_config
                                      system_paasta_config).
Local Abbreviation conf_call :=
  (get_spark_conf_str w args name port docker_img system_paasta_config
                      (Launch.kept w vols)).
Local Abbreviation monitoring :=
  (Stdout (Py.nl ++ "Spark Monitoring URL http://" ++ getfqdn w ++ ":" ++
           Py.fmt_d port ++ Py.nl)).

(** The function with its loop resolved. *)
Lemma configure_unfold :
  call =
    bind (Launch.warnings w vols, Ret (Launch.kept w vols)) (fun volumes =>
    bind (get_spark_conf_str w args name port docker_img system_paasta_config
                             volumes) (fun conf =>
      match Launch.command_of args instance_config with
      | None =>
          ([Stderr "A command is required, pyspark, spark-shell, spark-submit or jupyter"],
           Ret 1%Z)
      | Some c =>
          bind (rewrite_docker_cmd w args c conf) (fun c' =>
          bind (get_spark_env w args conf) (fun env' =>
          bind (emit monitoring) (fun _ =>
            run_docker_container w name (volumes +++ Launch.client_volumes args)
              (Dict.update (get_env_dictionary instance_config) env')
              docker_img c' (dry_run args))))
      end)).
Proof.
  unfold configure_and_run_docker_container.
  rewrite collect_volumes. cbn [app].
  apply bind_ext; intros volumes. apply bind_ext; intros conf.
  unfold Launch.command_of.
  destruct (match cmd args with
            | Some c => Some c
            | None => get_cmd instance_config
            end) as [c|]; [|reflexivity].
  apply bind_ext; intros c'. apply bind_ext; intros env'.
  apply bind_ext; intros _.
  unfold Launch.client_volumes, Py.append.
  now rewrite <- !app_assoc.
Qed.

(** A run that hands an argument vector over went through every
    stage, and the vector is the one built from the kept declared
    bindings followed by the client bindings. *)
Lemma configure_hands_over (argv : list string) :
  Launch.hands_over call argv ->
  exists t conf c c' env',
    conf_call = (t, Ret conf) /\
    Launch.command_of args instance_config = Some c /\
    rewrite_docker_cmd w args c conf = ([], Ret c') /\
    get_spark_env w args conf = ([], Ret env') /\
    argv = get_docker_run_cmd w name
             (Launch.kept w vols +++ Launch.client_volumes args)
             (Dict.update (get_env_dictionary instance_config) env')
             docker_img c' /\
    exists t', trace call = Launch.warnings w vols +++ t'.
Proof.
  intros H.
  assert (T : exists t', trace call = Launch.warnings w vols +++ t').
  { rewrite configure_unfold, bind_returns. eexists. reflexivity. }
  rewrite configure_unfold, bind_returns in H.
  destruct (get_spark_conf_str_cases args name port docker_img
              system_paasta_config (Launch.kept w vols))
    as [(t & conf & E)|(t & E)]; rewrite E in H.
  2:{ destruct H as [[? H]|[? H]]; discriminate. }
  rewrite bind_returns in H.
  destruct (Launch.command_of args instance_config) as [c|] eqn:K.
  2:{ destruct H as [[? H]|[? H]]; discriminate. }
  destruct (rewrite_docker_cmd_cases args c conf) as [(c' & R)| R];
    rewrite R in H.
  2:{ destruct H as [[? H]|[? H]]; discriminate. }
  rewrite bind_returns in H.
  destruct (get_spark_env_cases args conf) as [(env' & V)|[V|V]]; rewrite V in H.
  2,3: destruct H as [[? H]|[? H]]; discriminate.
  rewrite bind_returns in H. unfold emit in H. rewrite bind_returns in H.
  cbn [trace result fst snd app] in H.
  exists t, conf, c, c', env'.
  do 4 (split; [assumption || reflexivity|]).
  destruct (run_docker_container_modes w name
              (Launch.kept w vols +++ Launch.client_volumes args)
              (Dict.update (get_env_dictionary instance_config) env')
              docker_img c') as [Dry Live].
  destruct (dry_run args).
  - rewrite Dry in H. cbn [fst snd] in H.
    destruct H as [[? H]|[t0 H]]; [discriminate|].
    injection H as H.
    rewrite app_assoc in H. apply app_two_inj_tail in H.
    apply Stdout_inj in H. split; [|exact T].
    symmetry. now apply dumps_injective.
  - rewrite Live in H. cbn [fst snd] in H.
    destruct H as [[? H]|[? H]]; [|discriminate].
    injection H as _ H. split; [now symmetry|exact T].
Qed.

(** Conversely, a run whose stages all succeed hands over the vector
    built from their results. *)
Lemma configure_launches (t : list event) (conf c c' : string) (env' : Dict.t) :
  conf_call = (t, Ret conf) ->
  Launch.command_of args instance_config = Some c ->
  rewrite_docker_cmd w args c conf = ([], Ret c') ->
  get_spark_env w args conf = ([], Ret env') ->
  Launch.hands_over call
    (get_docker_run_cmd w name
       (Launch.kept w vols +++ Launch.client_volumes args)
       (Dict.update (get_env_dictionary instance_config) env') docker_img c').
Proof.
  intros E K R V.
  rewrite configure_unfold, bind_returns, E, bind_returns, K, R, bind_returns,
    V, bind_returns.
  unfold emit. rewrite bind_returns. cbn [trace result fst snd app].
  destruct (run_docker_container_modes w name
              (Launch.kept w vols +++ Launch.client_volumes args)
              (Dict.update (get_env_dictionary instance_config) env')
              docker_img c') as [Dry Live].
  destruct (dry_run args).
  - right. rewrite Dry. cbn [fst snd].
    exists (Launch.warnings w vols +++ t +++ [monitoring]).
    now rewrite <- !app_assoc.
  - left. rewrite Live. cbn [fst snd]. eexists. reflexivity.
Qed.

(** Where the image comes from, by [Conf.image_source_of]. *)
Lemma resolve_image_by_source :
  resolve_image w args instance_config =
  match Conf.image_source_of args with
  | Conf.Built => build_and_push_docker_image w args
  | Conf.Supplied => ret (image args)
  | Conf.Deployed =>
      match get_docker_url instance_config with
      | None =>
          ([Stderr (red w (msg_no_image (get_deploy_group instance_config)
                                        (service args)))], Ret None)
      | Some docker_url =>
          let command := "sudo -H docker pull " ++ docker_url in
          ([Stderr ("Please wait while the image (" ++ docker_url ++
                    ") is pulled (times out after 5m)...");
            Run command] +++
           (if Z.eqb (run_retcode w command) 0 then []
            else [Stderr (Py.nl ++
                          "Pull failed. Are you authorized to run docker commands?")]),
           if Z.eqb (run_retcode w command) 0 then Ret (Some docker_url)
           else Ret None)
      end
  end.
Proof.
  unfold resolve_image, Conf.image_source_of.
  destruct (build args); [reflexivity|].
  destruct (Py.truthy_str (image args)); [reflexivity|].
  destruct (get_docker_url instance_config) as [u|]; [|reflexivity].
  cbv zeta. destruct (Z.eqb (run_retcode w ("sudo -H docker pull " ++ u)) 0);
    reflexivity.
Qed.

End Configure.

(** ** The three claims about the launch *)

Section LaunchClaims.
Import SparkRun.

Lemma rewrite_spark_submit (w : World) (args : Args) (rest conf : string) :
  rewrite_docker_cmd w args ("spark-submit" ++ rest) conf =
  ([], Ret ("spark-submit " ++ conf ++ rest)).
Proof. destruct rest; reflexivity. Qed.

Lemma lower_char_not_upper (c : ascii) :
  Py.in_range "A" "Z" (Py.lower_char c) = false.
Proof.
  destruct c as [b0 b1 b2 b3 b4 b5 b6 b7].
  destruct b0, b1, b2, b3, b4, b5, b6, b7; reflexivity.
Qed.

(** [is_lower s]: no character of [s] is an upper-case ASCII letter. *)
Lemma lower_is_lower (s : string) :
  forall n c, get n (Py.lower s) = Some c -> Py.in_range "A" "Z" c = false.
Proof.
  induction s as [|x s IH]; intros n c; simpl.
  - discriminate.
  - destruct n as [|n].
    + intros H. injection H as <-. apply lower_char_not_upper.
    + apply IH.
Qed.

Lemma in_kept (w : World) (vols : list Volume) (b : string) :
  In b (Launch.kept w vols) <->
  exists v, In v vols /\ path_exists w (hostPath v) = true /\
            b = hostPath v ++ ":" ++ containerPath v ++ ":" ++ Py.lower (mode v).
Proof.
  unfold Launch.kept. rewrite in_map_iff. split.
  - intros (v & <- & H). apply filter_In in H as [H1 H2].
    exists v. auto.
  - intros (v & H1 & H2 & ->). exists v. split; [reflexivity|].
    apply filter_In. auto.
Qed.

Lemma join_snoc (sep : string) (l : list string) (x : string) :
  l <> [] -> Py.join sep (l +++ [x]) = Py.join sep l ++ sep ++ x.
Proof.
  induction l as [|a [|b l] IH]; intros N.
  - contradiction.
  - reflexivity.
  - change (Py.join sep ((a :: b :: l) +++ [x]))
      with (a ++ sep ++ Py.join sep ((b :: l) +++ [x])).
    rewrite IH by discriminate.
    change (Py.join sep (a :: b :: l)) with (a ++ sep ++ Py.join sep (b :: l)).
    now rewrite !append_assoc.
Qed.

(** The volume entry closes the configuration string. *)
Lemma conf_ends_with_volumes (w : World) (args : Args) (name : string)
      (port : Z) (img : string) (spc : SystemPaastaConfig)
      (volumes : list string) (t : list event) (conf : string) :
  get_spark_conf_str w args name port img spc volumes = (t, Ret conf) ->
  exists pre,
    conf = pre ++ " --conf spark.mesos.executor.docker.volumes=" ++
           Py.join "," volumes.
Proof.
  intros H.
  assert (S : exists secret,
             conf = Py.join " " (map Conf.render
                      (Conf.entries w args name port img spc volumes secret))).
  { pose proof (conf_str_result w args name port img spc volumes) as C.
    rewrite H in C. unfold result in C. cbn [snd] in C.
    destruct (Conf.secret_value w args) as [secret|]; [|discriminate].
    apply Ret_inj in C. eauto. }
  destruct S as (secret & ->).
  assert (L : exists front, front <> [] /\
             map Conf.render (Conf.entries w args name port img spc volumes secret) =
             front +++ ["--conf spark.mesos.executor.docker.volumes=" ++
                        Py.join "," volumes]).
  { unfold Conf.entries. cbn [concat]. rewrite app_nil_r.
    assert (E5 : forall a b c d e : string * string,
               [a; b; c; d; e] = [a; b; c; d] +++ [e]) by reflexivity.
    rewrite (E5 ("spark.mesos.principal", mesos_principal args)).
    rewrite !app_assoc, map_app. eexists. split; [|reflexivity].
    rewrite <- !app_assoc. cbn [app map]. discriminate. }
  destruct L as (front & N & ->).
  rewrite (join_snoc " " front _ N). eauto.
Qed.

End LaunchClaims.

(** C4. When the command starts with [spark-submit] (and the secret is
    available, so that a configuration string is synthesized), the command
    becomes [spark-submit], a space, the synthesized configuration string,
    and then what the user wrote after the keyword, unchanged.  Every run
    that reaches the container invocation gives exactly that command to
    [sh -c]; with AWS credentials at hand the run does reach it; without
    them [get_spark_env] raises AttributeError and nothing is launched. *)
Theorem C4_spark_submit_splice :
  forall (w : SparkRun.World) (args : SparkRun.Args) (docker_img : string)
         (instance_config : SparkRun.InstanceConfig)
         (system_paasta_config : SparkRun.SystemPaastaConfig)
         (rest secret : string),
    Launch.command_of args instance_config = Some ("spark-submit" ++ rest) ->
    Conf.secret_value w args = Some secret ->
    let conf :=
      Py.join " "
        (map Conf.render
           (Conf.entries w args (Launch.name_of w args) (Launch.port_of w args)
              docker_img system_paasta_config
              (Launch.kept w (Launch.declared instance_config system_paasta_config))
              secret)) in
    let run :=
      SparkRun.configure_and_run_docker_container w args docker_img
        instance_config system_paasta_config in
    result (SparkRun.get_spark_conf_str w args (Launch.name_of w args)
              (Launch.port_of w args) docker_img system_paasta_config
              (Launch.kept w (Launch.declared instance_config system_paasta_config))) =
      Ret conf /\
    SparkRun.rewrite_docker_cmd w args ("spark-submit" ++ rest) conf =
      ([], Ret ("spark-submit " ++ conf ++ rest)) /\
    (forall argv : list string,
       Launch.hands_over run argv ->
       exists pre, argv = pre +++ ["sh"; "-c"; "spark-submit " ++ conf ++ rest]) /\
    (SparkRun.get_credentials w <> None ->
     exists pre,
       Launch.hands_over run
         (pre +++ ["sh"; "-c"; "spark-submit " ++ conf ++ rest])) /\
    (SparkRun.get_credentials w = None ->
     result run = Raise AttributeError /\
     forall argv, ~ Launch.hands_over run argv).
Proof.
  intros w args img ic spc rest secret K S conf run.
  pose proof (conf_str_result w args (Launch.name_of w args)
                (Launch.port_of w args) img spc
                (Launch.kept w (Launch.declared ic spc))) as C.
  rewrite S in C. fold conf in C.
  split; [exact C|]. split; [apply rewrite_spark_submit|].
  destruct (SparkRun.get_spark_conf_str w args (Launch.name_of w args)
              (Launch.port_of w args) img spc
              (Launch.kept w (Launch.declared ic spc))) as [t o] eqn:E.
  unfold result in C. cbn [snd] in C. subst o.
  assert (J : Py.opt_eqb (SparkRun.cmd args) "jupyter" = false).
  { unfold Launch.command_of in K.
    destruct (SparkRun.cmd args) as [c|]; [|reflexivity].
    assert (c = "spark-submit" ++ rest) by congruence. subst c.
    reflexivity. }
  assert (Splice : forall argv, Launch.hands_over run argv ->
            exists pre, argv = pre +++ ["sh"; "-c"; "spark-submit " ++ conf ++ rest]).
  { intros argv H.
    destruct (configure_hands_over w args img ic spc argv H)
      as (t1 & conf1 & c & c' & env' & E1 & K1 & R1 & _ & -> & _).
    rewrite E in E1. injection E1 as _ E1. subst conf1.
    assert (c = "spark-submit" ++ rest) by congruence. subst c.
    rewrite rewrite_spark_submit in R1.
    apply (f_equal result) in R1. unfold result in R1. cbn [snd] in R1.
    apply Ret_inj in R1. subst c'.
    rewrite get_docker_run_cmd_spec.
    change [img; "sh"; "-c"; "spark-submit " ++ conf ++ rest]
      with ([img] +++ ["sh"; "-c"; "spark-submit " ++ conf ++ rest]).
    rewrite !app_assoc. eexists. reflexivity. }
  split; [exact Splice|]. split.
  - intros G. destruct (SparkRun.get_credentials w) as [creds|] eqn:Cr;
      [|now destruct G].
    assert (V : exists env', SparkRun.get_spark_env w args conf = ([], Ret env')).
    { unfold SparkRun.get_spark_env. rewrite Cr, J. eexists. reflexivity. }
    destruct V as (env' & V).
    pose proof (configure_launches w args img ic spc t conf
                  ("spark-submit" ++ rest) ("spark-submit " ++ conf ++ rest) env'
                  E K (rewrite_spark_submit w args rest conf) V) as L.
    fold run in L. destruct (Splice _ L) as (pre & P).
    exists pre. rewrite <- P. exact L.
  - intros G.
    assert (R : run = (Launch.warnings w (Launch.declared ic spc) +++ t,
                       Raise AttributeError)).
    { unfold run.
      rewrite configure_unfold, bind_returns, E, bind_returns, K,
        rewrite_spark_submit, bind_returns,
        (get_spark_env_no_credentials w args conf G).
      cbn [trace result fst snd bind app]. now rewrite !app_nil_r. }
    split; [now rewrite R|].
    intros argv [[? H]|[? H]]; rewrite R in H; discriminate.
Qed.

Lemma C4_spark_submit_splice_witness :
  Launch.command_of Launch.submit_args Sample.instance_config =
    Some ("spark-submit" ++ " myjob.py --foo") /\
  Conf.secret_value Sample.world Launch.submit_args = Some "hunter2" /\
  exists conf pre,
    result (SparkRun.get_spark_conf_str Sample.world Launch.submit_args
              (Launch.name_of Sample.world Launch.submit_args)
              (Launch.port_of Sample.world Launch.submit_args) "img"
              Sample.system_config
              (Launch.kept Sample.world
                 (Launch.declared Sample.instance_config Sample.system_config))) =
      Ret conf /\
    Launch.hands_over Launch.submit_run
      (pre +++ ["sh"; "-c"; "spark-submit " ++ conf ++ " myjob.py --foo"]).
Proof.
  assert (K : Launch.command_of Launch.submit_args Sample.instance_config =
              Some ("spark-submit" ++ " myjob.py --foo")) by reflexivity.
  assert (S : Conf.secret_value Sample.world Launch.submit_args = Some "hunter2")
    by reflexivity.
  split; [exact K|]. split; [exact S|].
  destruct (C4_spark_submit_splice Sample.world Launch.submit_args "img"
              Sample.instance_config Sample.system_config " myjob.py --foo"
              "hunter2" K S) as (C & _ & _ & L & _).
  destruct L as (pre & H); [discriminate|].
  eexists. exists pre. split; [exact C|exact H].
Defined.

(** C9. In a run that reaches the container invocation, the configuration
    string is synthesized from the declared bindings that passed the
    existence filter and from nothing else: it ends with the
    [spark.mesos.executor.docker.volumes] entry holding exactly those,
    comma-joined.  That string is the one given to the command and to
    SPARK_OPTS.  The work-dir binding and the read-only /etc/passwd and
    /etc/group bindings are added afterwards and appear only among the
    [--volume=] flags, after the kept declared ones. *)
Theorem C9_conf_volumes_without_client_bindings :
  forall (w : SparkRun.World) (args : SparkRun.Args) (docker_img : string)
         (instance_config : SparkRun.InstanceConfig)
         (system_paasta_config : SparkRun.SystemPaastaConfig)
         (argv : list string),
    Launch.hands_over
      (SparkRun.configure_and_run_docker_container w args docker_img
         instance_config system_paasta_config) argv ->
    let declared_kept :=
      Launch.kept w (Launch.declared instance_config system_paasta_config) in
    exists t conf pre c docker_cmd spark_env,
      SparkRun.get_spark_conf_str w args (Launch.name_of w args)
        (Launch.port_of w args) docker_img system_paasta_config declared_kept =
        (t, Ret conf) /\
      conf = pre ++ " --conf spark.mesos.executor.docker.volumes=" ++
             Py.join "," declared_kept /\
      Launch.command_of args instance_config = Some c /\
      SparkRun.rewrite_docker_cmd w args c conf = ([], Ret docker_cmd) /\
      SparkRun.get_spark_env w args conf = ([], Ret spark_env) /\
      argv =
        Launch.fixed_flags w (Launch.name_of w args)
        +++ Launch.env_flags
              (Dict.update (SparkRun.get_env_dictionary instance_config) spark_env)
        +++ Launch.volume_flags
              (declared_kept +++
               [SparkRun.work_dir args ++ ":rw"; "/etc/passwd:/etc/passwd:ro";
                "/etc/group:/etc/group:ro"])
        +++ [docker_img; "sh"; "-c"; docker_cmd].
Proof.
  intros w args img ic spc argv H declared_kept.
  destruct (configure_hands_over w args img ic spc argv H)
    as (t & conf & c & c' & env' & E & K & R & V & -> & _).
  destruct (conf_ends_with_volumes _ _ _ _ _ _ _ _ _ E) as (pre & P).
  exists t, conf, pre, c, c', env'.
  repeat (split; [assumption|]).
  apply get_docker_run_cmd_spec.
Qed.

Lemma C9_conf_volumes_without_client_bindings_witness :
  Launch.hands_over Launch.sample_run (Launch.argv_of Launch.sample_run) /\
  exists t conf pre c docker_cmd spark_env,
    SparkRun.get_spark_conf_str Sample.world Request.defaults
      (Launch.name_of Sample.world Request.defaults)
      (Launch.port_of Sample.world Request.defaults) "img" Sample.system_config
      (Launch.kept Sample.world
         (Launch.declared Sample.instance_config Sample.system_config)) =
      (t, Ret conf) /\
    conf = pre ++ " --conf spark.mesos.executor.docker.volumes=" ++
           Py.join ","
             (Launch.kept Sample.world
                (Launch.declared Sample.instance_config Sample.system_config)) /\
    Launch.command_of Request.defaults Sample.instance_config = Some c /\
    SparkRun.rewrite_docker_cmd Sample.world Request.defaults c conf =
      ([], Ret docker_cmd) /\
    SparkRun.get_spark_env Sample.world Request.defaults conf = ([], Ret spark_env) /\
    Launch.argv_of Launch.sample_run =
      Launch.fixed_flags Sample.world (Launch.name_of Sample.world Request.defaults)
      +++ Launch.env_flags
            (Dict.update (SparkRun.get_env_dictionary Sample.instance_config)
                         spark_env)
      +++ Launch.volume_flags
            (Launch.kept Sample.world
               (Launch.declared Sample.instance_config Sample.system_config) +++
             [SparkRun.work_dir Request.defaults ++ ":rw";
              "/etc/passwd:/etc/passwd:ro"; "/etc/group:/etc/group:ro"])
      +++ ["img"; "sh"; "-c"; docker_cmd].
Proof.
  assert (H : Launch.hands_over Launch.sample_run
                (Launch.argv_of Launch.sample_run)).
  { left. exists (trace Launch.sample_run). vm_compute. reflexivity. }
  split; [exact H|].
  exact (C9_conf_volumes_without_client_bindings Sample.world Request.defaults
           "img" Sample.instance_config Sample.system_config
           (Launch.argv_of Launch.sample_run) H).
Defined.

(** The claim of C2 fails for the client bindings: on a machine where no
    path exists at all the run still replaces the process, and the
    work-dir binding (host path /home/alice) is among the [--volume=]
    flags, with the two identity files. *)
Lemma C2_client_bindings_not_checked :
  (forall p, SparkRun.path_exists Sample.bare_world p = false) /\
  exists t argv,
    Launch.bare_run = (t, Execlp "paasta_docker_wrapper" argv) /\
    In "--volume=/home/alice:/spark_driver:rw" argv /\
    In "--volume=/etc/passwd:/etc/passwd:ro" argv /\
    In "--volume=/etc/group:/etc/group:ro" argv.
Proof.
  split; [reflexivity|].
  exists (trace Launch.bare_run), (Launch.argv_of Launch.bare_run).
  split; [vm_compute; reflexivity|].
  vm_compute. intuition.
Qed.

(** C2, amended.  In a run that reaches the container invocation the
    [--volume=] flags are the kept declared bindings followed by the three
    client bindings (work dir read-write, /etc/passwd and /etc/group
    read-only), the latter added without an existence check.  A declared
    binding is kept exactly when its host path exists on the launching
    machine, and is then written [hostPath:containerPath:mode] with the
    mode in lower case.  The loop over the declared bindings always
    returns: for each binding whose host path does not exist it prints a
    warning, first thing in the run, and goes on. *)
Theorem C2_declared_bindings_filtered :
  forall (w : SparkRun.World) (args : SparkRun.Args) (docker_img : string)
         (instance_config : SparkRun.InstanceConfig)
         (system_paasta_config : SparkRun.SystemPaastaConfig)
         (argv : list string),
    Launch.hands_over
      (SparkRun.configure_and_run_docker_container w args docker_img
         instance_config system_paasta_config) argv ->
    let declared := Launch.declared instance_config system_paasta_config in
    (exists env docker_cmd,
        argv =
          Launch.fixed_flags w (Launch.name_of w args)
          +++ Launch.env_flags env
          +++ Launch.volume_flags
                (Launch.kept w declared +++
                 [SparkRun.work_dir args ++ ":rw"; "/etc/passwd:/etc/passwd:ro";
                  "/etc/group:/etc/group:ro"])
          +++ [docker_img; "sh"; "-c"; docker_cmd]) /\
    (forall b, In b (Launch.kept w declared) <->
               exists v, In v declared /\
                         SparkRun.path_exists w (SparkRun.hostPath v) = true /\
                         b = SparkRun.hostPath v ++ ":" ++
                             SparkRun.containerPath v ++ ":" ++
                             Py.lower (SparkRun.mode v)) /\
    (forall v n c, get n (Py.lower (SparkRun.mode v)) = Some c ->
                   Py.in_range "A" "Z" c = false) /\
    for_each declared (SparkRun.volume_step w) [] =
      (map (fun v => Stdout (SparkRun.skip_warning w v))
           (filter (fun v => negb (SparkRun.path_exists w (SparkRun.hostPath v)))
                   declared),
       Ret (Launch.kept w declared)) /\
    exists t',
      trace (SparkRun.configure_and_run_docker_container w args docker_img
               instance_config system_paasta_config) =
      map (fun v => Stdout (SparkRun.skip_warning w v))
          (filter (fun v => negb (SparkRun.path_exists w (SparkRun.hostPath v)))
                  declared) +++ t'.
Proof.
  intros w args img ic spc argv H declared.
  destruct (configure_hands_over w args img ic spc argv H)
    as (t & conf & c & c' & env' & E & K & R & V & -> & T).
  split; [|split; [|split; [|split]]].
  - do 2 eexists. apply get_docker_run_cmd_spec.
  - intros b. apply in_kept.
  - intros v. apply lower_is_lower.
  - apply (collect_volumes w declared []).
  - exact T.
Qed.

Lemma C2_declared_bindings_filtered_witness :
  Launch.hands_over Launch.sample_run (Launch.argv_of Launch.sample_run) /\
  Launch.kept Sample.world
    (Launch.declared Sample.instance_config Sample.system_config) =
    ["/nail/srv:/nail/srv:ro"] /\
  exists t',
    trace Launch.sample_run =
    map (fun v => Stdout (SparkRun.skip_warning Sample.world v))
        (filter (fun v => negb (SparkRun.path_exists Sample.world
                                  (SparkRun.hostPath v)))
                (Launch.declared Sample.instance_config Sample.system_config))
    +++ t'.
Proof.
  assert (H : Launch.hands_over Launch.sample_run
                (Launch.argv_of Launch.sample_run)).
  { left. exists (trace Launch.sample_run). vm_compute. reflexivity. }
  split; [exact H|]. split; [reflexivity|].
  exact (proj2 (proj2 (proj2 (proj2
           (C2_declared_bindings_filtered Sample.world Request.defaults "img"
              Sample.instance_config Sample.system_config
              (Launch.argv_of Launch.sample_run) H))))).
Defined.

(* ================================================================== *)
(** * Further properties                                               *)
(* ================================================================== *)

(** ** Secret references *)

Section MoreSecrets.
Import SecretTools.

Lemma token_char_codes (c : ascii) :
  token_char c = true <->
  (65 <= nat_of_ascii c <= 90 \/ 97 <= nat_of_ascii c <= 122 \/
   48 <= nat_of_ascii c <= 57 \/ nat_of_ascii c = 95 \/
   nat_of_ascii c = 45)%nat.
Proof.
  destruct c as [b0 b1 b2 b3 b4 b5 b6 b7].
  destruct b0, b1, b2, b3, b4, b5, b6, b7;
    (split; [intros H; try discriminate H; cbn; lia
            | intros H; try reflexivity; cbn in H; lia]).
Qed.

(** A string holding the separator splits into at least two parts. *)
Lemma split_has_sep (sep : ascii) (s : string) :
  no_char sep s = false ->
  exists a b rest, Py.split sep s = a :: b :: rest.
Proof.
  induction s as [|c s IH]; simpl; [discriminate|].
  destruct (Ascii.eqb c sep) eqn:E; simpl.
  - intros _. destruct (Py.split sep s) as [|b rest] eqn:S.
    + now apply split_not_nil in S.
    + eauto.
  - intros H. destruct (IH H) as (a & b & rest & ->). eauto.
Qed.

Lemma secret_name_index_error (s : string) :
  get_secret_name_from_ref s = ([], Raise IndexError) <->
  no_char "(" s = true.
Proof.
  unfold get_secret_name_from_ref, index. split.
  - intros H. destruct (no_char "(" s) eqn:N; [reflexivity|].
    destruct (split_has_sep "(" s N) as (a & b & rest & E).
    rewrite E in H. discriminate.
  - intros N.
    rewrite (proj2 (split_one "(" s s) (conj eq_refl N)). reflexivity.
Qed.

Lemma secret_name_returns (s : string) :
  no_char "(" s = false -> exists name, get_secret_name_from_ref s = ret name.
Proof.
  intros N. destruct (split_has_sep "(" s N) as (a & b & rest & E).
  unfold get_secret_name_from_ref, index. rewrite E.
  eexists. reflexivity.
Qed.

Lemma secret_name_of_ref_nl (tok : string) :
  is_token tok = true ->
  get_secret_name_from_ref ("SECRET(" ++ tok ++ ")" ++ Py.nl) = ret (tok ++ ")").
Proof.
  intros H. unfold get_secret_name_from_ref.
  assert (E : Py.split "(" ("SECRET(" ++ tok ++ ")" ++ Py.nl) =
              ["SECRET"; tok ++ ")" ++ Py.nl]).
  { apply split_two. repeat split.
    rewrite no_char_app, (token_no_paren tok H). reflexivity. }
  rewrite E. simpl.
  change (tok ++ String ")" Py.nl) with (tok ++ ")" ++ String "010" "").
  rewrite <- append_assoc, drop_last_app. reflexivity.
Qed.

(** Once the name is known, the rest of [get_hmac_for_secret]. *)
Lemma hmac_after_name (fs : files) (s service soa_dir env name : string) :
  get_secret_name_from_ref s = ret name ->
  get_hmac_for_secret fs s service soa_dir env =
    (emit (Open (secret_path soa_dir service name)) ;;
     match fs (secret_path soa_dir service name) with
     | Json.Missing =>
         emit (Stdout (msg_no_file (secret_path soa_dir service name))) ;;
         ret Json.JNull
     | Json.Malformed =>
         emit (Stdout (msg_bad_json (secret_path soa_dir service name))) ;;
         ret Json.JNull
     | Json.Document secret_file =>
         catch_KeyError
           (envs <- Json.subscript secret_file "environments" ;;
            e <- Json.subscript envs env ;;
            Json.subscript e "signature")
           (emit (Stdout (msg_no_signature env)) ;; ret Json.JNull)
     end).
Proof.
  intros H. unfold get_hmac_for_secret. rewrite H, bind_ret_l. reflexivity.
Qed.

(** What the lookup in a decoded document gives, exceptions resolved. *)
Lemma hmac_document (fs : files) (s service soa_dir env name : string)
      (doc : Json.value) :
  get_secret_name_from_ref s = ret name ->
  fs (secret_path soa_dir service name) = Json.Document doc ->
  get_hmac_for_secret fs s service soa_dir env =
    let path := secret_path soa_dir service name in
    let no_signature :=
      ([Open path; Stdout (msg_no_signature env)], Ret Json.JNull) in
    let type_error := ([Open path], Raise TypeError) in
    match doc with
    | Json.JObj top =>
        match Json.lookup "environments" top with
        | None => no_signature
        | Some (Json.JObj items) =>
            match Json.lookup env items with
            | None => no_signature
            | Some (Json.JObj fields) =>
                match Json.lookup "signature" fields with
                | None => no_signature
                | Some signature => ([Open path], Ret signature)
                end
            | Some _ => type_error
            end
        | Some _ => type_error
        end
    | _ => type_error
    end.
Proof.
  intros H D. rewrite (hmac_after_name fs s service soa_dir env name H), D.
  cbv zeta. destruct doc as [| | | | |top]; try reflexivity. simpl.
  destruct (Json.lookup "environments" top) as [[| | | | |items]|];
    try reflexivity. simpl.
  destruct (Json.lookup env items) as [[| | | | |fields]|];
    try reflexivity. simpl.
  destruct (Json.lookup "signature" fields); reflexivity.
Qed.

Lemma hmac_index_error (fs : files) (s service soa_dir env : string) :
  no_char "(" s = true ->
  get_hmac_for_secret fs s service soa_dir env = ([], Raise IndexError).
Proof.
  intros N. apply secret_name_index_error in N.
  unfold get_hmac_for_secret. rewrite N. reflexivity.
Qed.

End MoreSecrets.

(** X1. [is_secret_ref] accepts exactly the strings [SECRET(<token>)] and
    [SECRET(<token>)] followed by one newline, where the token is any
    string, the empty one included, of the characters A-Z, a-z, 0-9,
    underscore and hyphen. *)
Theorem X1_is_secret_ref_accepted_strings :
  (forall s : string,
      SecretTools.is_secret_ref s = true <->
      exists tok, SecretTools.is_token tok = true /\
                  (s = "SECRET(" ++ tok ++ ")" \/
                   s = "SECRET(" ++ tok ++ ")" ++ Py.nl)) /\
  (forall c : ascii,
      SecretTools.token_char c = true <->
      (65 <= nat_of_ascii c <= 90 \/ 97 <= nat_of_ascii c <= 122 \/
       48 <= nat_of_ascii c <= 57 \/ nat_of_ascii c = 95 \/
       nat_of_ascii c = 45)%nat) /\
  SecretTools.is_token "" = true.
Proof.
  split; [exact is_secret_ref_spec|]. split; [exact token_char_codes|].
  reflexivity.
Qed.

(** X2. On every value that [is_secret_ref] accepts,
    [get_secret_name_from_ref] returns without raising: the token itself
    for [SECRET(<token>)], and the token followed by the closing
    parenthesis when the value ends with a newline. *)
Theorem X2_secret_name_of_accepted_ref :
  forall s : string,
    SecretTools.is_secret_ref s = true ->
    exists tok,
      SecretTools.is_token tok = true /\
      ((s = "SECRET(" ++ tok ++ ")" /\
        SecretTools.get_secret_name_from_ref s = ([], Ret tok)) \/
       (s = "SECRET(" ++ tok ++ ")" ++ Py.nl /\
        SecretTools.get_secret_name_from_ref s = ([], Ret (tok ++ ")")))).
Proof.
  intros s H. apply is_secret_ref_spec in H as (tok & T & [->| ->]);
    exists tok; (split; [exact T|]).
  - left. split; [reflexivity|]. now apply secret_name_of_ref.
  - right. split; [reflexivity|]. now apply secret_name_of_ref_nl.
Qed.

Lemma X2_secret_name_of_accepted_ref_witness :
  SecretTools.is_secret_ref "SECRET(my-key_1)" = true /\
  exists tok,
    SecretTools.is_token tok = true /\
    (("SECRET(my-key_1)" = "SECRET(" ++ tok ++ ")" /\
      SecretTools.get_secret_name_from_ref "SECRET(my-key_1)" = ([], Ret tok)) \/
     ("SECRET(my-key_1)" = "SECRET(" ++ tok ++ ")" ++ Py.nl /\
      SecretTools.get_secret_name_from_ref "SECRET(my-key_1)" =
        ([], Ret (tok ++ ")")))).
Proof.
  split; [reflexivity|].
  apply (X2_secret_name_of_accepted_ref "SECRET(my-key_1)"). reflexivity.
Defined.

(** X3. [get_secret_name_from_ref] raises IndexError exactly on the
    values without an opening parenthesis, and [get_hmac_for_secret]
    passes that exception on, before it opens any file, exactly on those
    values. *)
Theorem X3_no_parenthesis_index_error :
  forall (fs : SecretTools.files) (s service soa_dir vault_environment : string),
    (SecretTools.get_secret_name_from_ref s = ([], Raise IndexError) <->
     no_char "(" s = true) /\
    (SecretTools.get_hmac_for_secret fs s service soa_dir vault_environment =
       ([], Raise IndexError) <->
     no_char "(" s = true).
Proof.
  intros fs s service soa_dir env. split; [apply secret_name_index_error|].
  split.
  - intros H. destruct (no_char "(" s) eqn:N; [reflexivity|].
    destruct (secret_name_returns s N) as (name & E).
    rewrite (hmac_after_name fs s service soa_dir env name E) in H.
    unfold emit in H. rewrite bind_returns in H. discriminate.
  - intros N. apply secret_name_index_error in N.
    unfold SecretTools.get_hmac_for_secret. rewrite N. reflexivity.
Qed.

(** X4. When the secret file cannot be opened, or is not JSON,
    [get_hmac_for_secret] returns None after printing one line that names
    the path, a different line in the two cases; it does nothing else. *)
Theorem X4_hmac_unreadable_file :
  forall (fs : SecretTools.files)
         (s service soa_dir vault_environment name : string),
    SecretTools.get_secret_name_from_ref s = ([], Ret name) ->
    let path := SecretTools.secret_path soa_dir service name in
    let call := SecretTools.get_hmac_for_secret fs s service soa_dir
                  vault_environment in
    match fs path with
    | Json.Missing =>
        call = ([Open path; Stdout ("Failed to open json secret at " ++ path)],
                Ret Json.JNull)
    | Json.Malformed =>
        call = ([Open path;
                 Stdout ("Failed to deserialise json secret at " ++ path)],
                Ret Json.JNull)
    | Json.Document _ =>
        exists rest, trace call = Open path :: rest
    end.
Proof.
  intros fs s service soa_dir env name H path call. subst call path.
  rewrite (hmac_after_name fs s service soa_dir env name H).
  destruct (fs (SecretTools.secret_path soa_dir service name));
    try reflexivity.
  unfold emit. rewrite bind_returns. eexists. reflexivity.
Qed.

Lemma X4_hmac_unreadable_file_witness :
  SecretTools.get_secret_name_from_ref "SECRET(b)" = ([], Ret "b") /\
  SecretTools.get_hmac_for_secret More.fs_signed "SECRET(b)" "svc" "/soa" "prod" =
    ([Open "/soa/svc/secrets/b.json";
      Stdout "Failed to open json secret at /soa/svc/secrets/b.json"],
     Ret Json.JNull).
Proof.
  split; [reflexivity|].
  exact (X4_hmac_unreadable_file More.fs_signed "SECRET(b)" "svc" "/soa" "prod" "b"
           eq_refl).
Defined.

(** X5. On a secret file that decodes, [get_hmac_for_secret] returns the
    value at [environments][<environment>][signature] without printing
    when the three keys are there; when one of them is missing from an
    object it prints the signature diagnostic and returns None; when the
    document, its [environments] or the entry of the environment is not
    an object, TypeError reaches the caller. *)
Theorem X5_hmac_decoded_document :
  forall (fs : SecretTools.files)
         (s service soa_dir vault_environment name : string) (doc : Json.value),
    SecretTools.get_secret_name_from_ref s = ([], Ret name) ->
    fs (SecretTools.secret_path soa_dir service name) = Json.Document doc ->
    SecretTools.get_hmac_for_secret fs s service soa_dir vault_environment =
      let path := SecretTools.secret_path soa_dir service name in
      let no_signature :=
        ([Open path;
          Stdout ("Failed to get secret signature at environments:" ++
                  vault_environment ++ ":signature in json file")],
         Ret Json.JNull) in
      let type_error := ([Open path], Raise TypeError) in
      match doc with
      | Json.JObj top =>
          match Json.lookup "environments" top with
          | None => no_signature
          | Some (Json.JObj items) =>
              match Json.lookup vault_environment items with
              | None => no_signature
              | Some (Json.JObj fields) =>
                  match Json.lookup "signature" fields with
                  | None => no_signature
                  | Some signature => ([Open path], Ret signature)
                  end
              | Some _ => type_error
              end
          | Some _ => type_error
          end
      | _ => type_error
      end.
Proof. exact hmac_document. Qed.

Lemma X5_hmac_decoded_document_witness :
  SecretTools.get_secret_name_from_ref "SECRET(a)" = ([], Ret "a") /\
  SecretTools.get_hmac_for_secret More.fs_signed "SECRET(a)" "svc" "/soa" "prod" =
    ([Open "/soa/svc/secrets/a.json"], Ret (Json.JStr "abc")) /\
  SecretTools.get_hmac_for_secret More.fs_signed "SECRET(a)" "svc" "/soa" "stage" =
    ([Open "/soa/svc/secrets/a.json";
      Stdout "Failed to get secret signature at environments:stage:signature in json file"],
     Ret Json.JNull).
Proof.
  split; [reflexivity|]. split.
  - exact (X5_hmac_decoded_document More.fs_signed "SECRET(a)" "svc" "/soa" "prod"
             "a" _ eq_refl eq_refl).
  - exact (X5_hmac_decoded_document More.fs_signed "SECRET(a)" "svc" "/soa" "stage"
             "a" _ eq_refl eq_refl).
Defined.

(** How a call ends, for a secret file that is missing, is not JSON, or
    decodes to a document. *)
Lemma hmac_cases (fs : SecretTools.files)
      (s service soa_dir vault_environment : string) :
  let call := SecretTools.get_hmac_for_secret fs s service soa_dir
                vault_environment in
  (no_char "(" s = true /\ call = ([], Raise IndexError)) \/
  exists name,
    SecretTools.get_secret_name_from_ref s = ([], Ret name) /\
    let path := SecretTools.secret_path soa_dir service name in
    ((exists v, call = ([Open path], Ret v)) \/
     call = ([Open path], Raise TypeError) \/
     exists line, call = ([Open path; Stdout line], Ret Json.JNull)).
Proof.
  intros call. subst call.
  destruct (no_char "(" s) eqn:N.
  - left. split; [reflexivity|].
    now apply (hmac_index_error fs s service soa_dir vault_environment).
  - right. destruct (secret_name_returns s N) as (name & E).
    exists name. split; [exact E|]. cbv zeta.
    destruct (fs (SecretTools.secret_path soa_dir service name)) as [| |doc] eqn:F.
    + rewrite (hmac_after_name fs s service soa_dir vault_environment name E), F.
      right. right. eexists. reflexivity.
    + rewrite (hmac_after_name fs s service soa_dir vault_environment name E), F.
      right. right. eexists. reflexivity.
    + rewrite (hmac_document fs s service soa_dir vault_environment name doc E F).
      cbv zeta.
      destruct doc as [| | | | |top]; try (right; left; reflexivity).
      destruct (Json.lookup "environments" top) as [[| | | | |items]|];
        try (right; left; reflexivity);
        try (right; right; eexists; reflexivity).
      destruct (Json.lookup vault_environment items) as [[| | | | |fields]|];
        try (right; left; reflexivity);
        try (right; right; eexists; reflexivity).
      destruct (Json.lookup "signature" fields);
        [left; eexists; reflexivity|right; right; eexists; reflexivity].
Qed.

(** X6. For a secret file that is missing, is not JSON, or decodes to a
    document: a KeyError never leaves [get_hmac_for_secret]; an IndexError
    leaves it only for a value without an opening parenthesis, and then
    nothing was opened or printed; a line is printed only on the way to
    returning None.  It opens at most one file, the one at the secret
    path of the extracted name, and prints at most one line, after
    opening. *)
Theorem X6_hmac_outcomes :
  forall (fs : SecretTools.files) (s service soa_dir vault_environment : string),
    let call := SecretTools.get_hmac_for_secret fs s service soa_dir
                  vault_environment in
    result call <> Raise KeyError /\
    (result call = Raise IndexError ->
     no_char "(" s = true /\ trace call = []) /\
    (forall line, In (Stdout line) (trace call) -> result call = Ret Json.JNull) /\
    (trace call = [] \/
     exists name,
       SecretTools.get_secret_name_from_ref s = ([], Ret name) /\
       (trace call = [Open (SecretTools.secret_path soa_dir service name)] \/
        exists line,
          trace call = [Open (SecretTools.secret_path soa_dir service name);
                        Stdout line])).
Proof.
  intros fs s service soa_dir env call.
  destruct (hmac_cases fs s service soa_dir env)
    as [[N C]|(name & E & [(v & C)|[C|(line & C)]])];
    fold call in C; rewrite C; unfold trace, result; cbn [fst snd].
  - split; [discriminate|]. split; [auto|]. split; [intros l []|now left].
  - split; [discriminate|]. split; [discriminate|].
    split; [intros l [H|[]]; discriminate|].
    right. exists name. split; [exact E|now left].
  - split; [discriminate|]. split; [discriminate|].
    split; [intros l [H|[]]; discriminate|].
    right. exists name. split; [exact E|now left].
  - split; [discriminate|]. split; [discriminate|].
    split; [reflexivity|].
    right. exists name. split; [exact E|]. right. now exists line.
Qed.

(** ** The path of a secret file *)

Section SecretPath.

Lemma endswith_slash_cons (x : ascii) (s : string) :
  s <> "" -> Py.endswith_slash (String x s) = Py.endswith_slash s.
Proof.
  intros N. destruct s as [|c s]; [contradiction|].
  unfold Py.endswith_slash. cbn [String.length]. rewrite !Nat.sub_succ, !Nat.sub_0_r.
  reflexivity.
Qed.

Lemma endswith_slash_app (a b : string) :
  b <> "" -> Py.endswith_slash (a ++ b) = Py.endswith_slash b.
Proof.
  intros N. induction a as [|x a IH]; [reflexivity|].
  cbn [append]. rewrite endswith_slash_cons; [exact IH|].
  destruct a; [exact N|discriminate].
Qed.

Lemma append_not_empty (a b : string) : b <> "" -> a ++ b <> "".
Proof. intros N. destruct a; [exact N|discriminate]. Qed.

Lemma eqb_empty_false (s : string) : s <> "" -> String.eqb s "" = false.
Proof. intros N. now apply String.eqb_neq. Qed.

Lemma startswith_slash_app (a b : string) :
  a <> "" -> Py.startswith "/" (a ++ b) = Py.startswith "/" a.
Proof.
  intros N. destruct a as [|c a]; [contradiction|].
  unfold Py.startswith. cbn [append String.prefix].
  destruct (ascii_dec "/" c); [|reflexivity].
  destruct (a ++ b), a; reflexivity.
Qed.

Lemma path_join_relative (a b : string) (p : list string) :
  a <> "" -> Py.endswith_slash a = false -> Py.startswith "/" b = false ->
  Py.path_join a (b :: p) = Py.path_join (a ++ "/" ++ b) p.
Proof.
  intros N E S. cbn [Py.path_join]. now rewrite S, (eqb_empty_false a N), E.
Qed.

End SecretPath.

(** X7. The secret file of a name is looked up at
    [soa_dir/service/secrets/name.json] when [soa_dir] and [service] are
    not empty and do not end with a slash, and neither [service] nor the
    name starts with one. *)
Theorem X7_secret_path_plain :
  forall soa_dir service name : string,
    soa_dir <> "" -> Py.endswith_slash soa_dir = false ->
    service <> "" -> Py.endswith_slash service = false ->
    Py.isabs service = false -> Py.isabs name = false ->
    SecretTools.secret_path soa_dir service name =
      soa_dir ++ "/" ++ service ++ "/secrets/" ++ name ++ ".json".
Proof.
  intros soa service name N1 E1 N2 E2 A2 A3. unfold SecretTools.secret_path.
  rewrite path_join_relative by assumption.
  assert (N3 : soa ++ "/" ++ service <> "").
  { apply append_not_empty. discriminate. }
  assert (E3 : Py.endswith_slash (soa ++ "/" ++ service) = false).
  { rewrite endswith_slash_app by discriminate.
    change ("/" ++ service) with (String "/" service).
    now rewrite endswith_slash_cons. }
  rewrite path_join_relative by (assumption || reflexivity).
  assert (A4 : Py.startswith "/" (name ++ ".json") = false).
  { destruct name as [|c name]; [reflexivity|].
    rewrite startswith_slash_app by discriminate. exact A3. }
  rewrite path_join_relative.
  - cbn [Py.path_join]. rewrite !append_assoc. reflexivity.
  - apply append_not_empty. discriminate.
  - rewrite endswith_slash_app by discriminate. reflexivity.
  - exact A4.
Qed.

Lemma X7_secret_path_plain_witness :
  SecretTools.secret_path "/nail/etc/services" "spark" "token" =
    "/nail/etc/services" ++ "/" ++ "spark" ++ "/secrets/" ++ "token" ++ ".json".
Proof.
  apply X7_secret_path_plain;
    solve [discriminate | reflexivity].
Defined.

(** X8. A service name that starts with a slash makes the secret path
    independent of [soa_dir]: the file is looked up under the service
    name taken as an absolute path. *)
Theorem X8_secret_path_absolute_service :
  forall soa_dir other_dir service name : string,
    Py.isabs service = true ->
    SecretTools.secret_path soa_dir service name =
    SecretTools.secret_path other_dir service name.
Proof.
  intros soa other service name A. unfold SecretTools.secret_path.
  cbn [Py.path_join]. unfold Py.isabs in A. rewrite A. reflexivity.
Qed.

Lemma X8_secret_path_absolute_service_witness :
  SecretTools.secret_path "/nail/etc/services" "/tmp/evil" "a" =
  SecretTools.secret_path "" "/tmp/evil" "a" /\
  SecretTools.secret_path "/nail/etc/services" "/tmp/evil" "a" =
  "/tmp/evil/secrets/a.json".
Proof.
  split; [|reflexivity].
  apply X8_secret_path_absolute_service. reflexivity.
Defined.

(** ** Command and environment by run mode *)

Section Modes.
Import SparkRun.
Variable w : World.

(** What a successful validation says about the work dir. *)
Lemma validate_ok_inv (s : string) :
  validate_work_dir s = work_dir_ok ->
  exists a b, Py.split ":" s = [a; b] /\
              Py.isabs a = true /\ Py.isabs b = true.
Proof.
  intros H.
  destruct (Nat.eq_dec (List.length (Py.split ":" s)) 2) as [L|L].
  - destruct (length_two _ L) as (a & b & E). exists a, b.
    rewrite (validate_two s a b E) in H.
    destruct (Py.isabs a), (Py.isabs b); simpl in H; try discriminate; auto.
  - rewrite (validate_wrong_arity s L) in H. discriminate.
Qed.

(** Any other run of the validation has exited. *)
Lemma validate_cases (s : string) :
  validate_work_dir s = work_dir_ok \/
  exists msg, validate_work_dir s = ([Stderr msg], Exit 1%Z).
Proof.
  destruct (Nat.eq_dec (List.length (Py.split ":" s)) 2) as [L|L].
  - destruct (length_two _ L) as (a & b & E).
    rewrite (validate_two s a b E).
    destruct (Py.isabs a), (Py.isabs b); simpl; eauto.
  - rewrite (validate_wrong_arity s L). eauto.
Qed.

Lemma rewrite_jupyter (args : Args) (conf a b : string) :
  Py.split ":" (work_dir args) = [a; b] ->
  rewrite_docker_cmd w args "jupyter" conf =
    ([], Ret ("jupyter notebook -y --ip=" ++ getfqdn w ++
              " --notebook-dir=" ++ b)).
Proof.
  intros E. unfold rewrite_docker_cmd. cbn [String.eqb Ascii.eqb Bool.eqb].
  rewrite E. reflexivity.
Qed.

Lemma get_spark_env_split (args : Args) (conf a b : string) :
  Py.split ":" (work_dir args) = [a; b] ->
  get_spark_env w args conf =
    match get_credentials w with
    | Some creds =>
        ([], Ret ([("AWS_ACCESS_KEY_ID", access_key creds);
                   ("AWS_SECRET_ACCESS_KEY", secret_key creds);
                   ("SPARK_USER", "root");
                   ("SPARK_OPTS", conf)] +++
                  (if Py.opt_eqb (cmd args) "jupyter"
                   then [("JUPYTER_RUNTIME_DIR", b ++ "/.jupyter");
                         ("JUPYTER_DATA_DIR", b ++ "/.jupyter")]
                   else [])))
    | None => ([], Raise AttributeError)
    end.
Proof.
  intros E. unfold get_spark_env. rewrite E.
  destruct (get_credentials w) as [creds|]; [|reflexivity].
  destruct (Py.opt_eqb (cmd args) "jupyter"); reflexivity.
Qed.

Lemma rewrite_plain (args : Args) (c conf : string) :
  c <> "jupyter" -> Py.startswith "spark-submit" c = false ->
  rewrite_docker_cmd w args c conf =
    ([], Ret (if String.eqb c "pyspark" || String.eqb c "spark-shell"
              then c ++ " " ++ conf else c)).
Proof.
  intros J S. unfold rewrite_docker_cmd.
  apply String.eqb_neq in J. rewrite J, S. cbn [existsb].
  rewrite orb_false_r.
  destruct (String.eqb c "pyspark" || String.eqb c "spark-shell"); reflexivity.
Qed.

End Modes.

(** X9. A command other than [jupyter] that does not start with
    [spark-submit] receives the configuration string, after a space, only
    when it is exactly [pyspark] or [spark-shell]; any other command,
    [pyspark] with arguments included, is handed on unchanged. *)
Theorem X9_command_passed_through :
  forall (w : SparkRun.World) (args : SparkRun.Args) (c conf : string),
    c <> "jupyter" ->
    Py.startswith "spark-submit" c = false ->
    SparkRun.rewrite_docker_cmd w args c conf =
      ([], Ret (if String.eqb c "pyspark" || String.eqb c "spark-shell"
                then c ++ " " ++ conf else c)).
Proof. exact rewrite_plain. Qed.

Lemma X9_command_passed_through_witness :
  "pyspark -i job.py" <> "jupyter" /\
  Py.startswith "spark-submit" "pyspark -i job.py" = false /\
  SparkRun.rewrite_docker_cmd Sample.world Request.defaults "pyspark -i job.py"
    "--conf k=v" = ([], Ret "pyspark -i job.py").
Proof.
  assert (J : "pyspark -i job.py" <> "jupyter") by discriminate.
  assert (S : Py.startswith "spark-submit" "pyspark -i job.py" = false)
    by reflexivity.
  split; [exact J|]. split; [exact S|].
  exact (X9_command_passed_through Sample.world Request.defaults
           "pyspark -i job.py" "--conf k=v" J S).
Defined.

(** X10. In notebook mode, with a work dir of two components, the
    command becomes the notebook server bound to the host's name and to
    the container side of the work dir; it does not hold the
    configuration string.  That string travels in SPARK_OPTS: when AWS
    credentials are found [get_spark_env] returns six variables, the two
    JUPYTER directories being the [.jupyter] directory under the
    container side of the work dir; when none are found it raises
    AttributeError. *)
Theorem X10_notebook_mode :
  forall (w : SparkRun.World) (args : SparkRun.Args) (conf a b : string),
    SparkRun.cmd args = Some "jupyter" ->
    Py.split ":" (SparkRun.work_dir args) = [a; b] ->
    SparkRun.rewrite_docker_cmd w args "jupyter" conf =
      ([], Ret ("jupyter notebook -y --ip=" ++ SparkRun.getfqdn w ++
                " --notebook-dir=" ++ b)) /\
    SparkRun.get_spark_env w args conf =
      match SparkRun.get_credentials w with
      | Some creds =>
          ([], Ret [("AWS_ACCESS_KEY_ID", SparkRun.access_key creds);
                    ("AWS_SECRET_ACCESS_KEY", SparkRun.secret_key creds);
                    ("SPARK_USER", "root");
                    ("SPARK_OPTS", conf);
                    ("JUPYTER_RUNTIME_DIR", b ++ "/.jupyter");
                    ("JUPYTER_DATA_DIR", b ++ "/.jupyter")])
      | None => ([], Raise AttributeError)
      end.
Proof.
  intros w args conf a b C E. split.
  - now apply rewrite_jupyter with (a := a).
  - rewrite (get_spark_env_split w args conf a b E), C. reflexivity.
Qed.

Lemma X10_notebook_mode_witness :
  let args := Request.with_secret_cmd Request.defaults None (Some "jupyter") in
  SparkRun.cmd args = Some "jupyter" /\
  Py.split ":" (SparkRun.work_dir args) = ["/home/alice"; "/spark_driver"] /\
  SparkRun.rewrite_docker_cmd Sample.world args "jupyter" "--conf k=v" =
    ([], Ret "jupyter notebook -y --ip=dev1.example.com --notebook-dir=/spark_driver") /\
  SparkRun.get_spark_env Sample.world args "--conf k=v" =
    ([], Ret [("AWS_ACCESS_KEY_ID", "AKIA");
              ("AWS_SECRET_ACCESS_KEY", "wJal");
              ("SPARK_USER", "root");
              ("SPARK_OPTS", "--conf k=v");
              ("JUPYTER_RUNTIME_DIR", "/spark_driver/.jupyter");
              ("JUPYTER_DATA_DIR", "/spark_driver/.jupyter")]).
Proof.
  split; [reflexivity|]. split; [reflexivity|].
  exact (X10_notebook_mode Sample.world
           (Request.with_secret_cmd Request.defaults None (Some "jupyter"))
           "--conf k=v" "/home/alice" "/spark_driver" eq_refl eq_refl).
Defined.

(** X11. Once [validate_work_dir] has accepted the work dir,
    [get_spark_env] cannot raise IndexError.  When AWS credentials are
    found it returns them, SPARK_USER=root and SPARK_OPTS holding the
    configuration string, followed in notebook mode only by the two
    JUPYTER directories; when none are found it raises AttributeError,
    whatever the mode. *)
Theorem X11_spark_env_after_validation :
  forall (w : SparkRun.World) (args : SparkRun.Args) (conf : string),
    SparkRun.validate_work_dir (SparkRun.work_dir args) = work_dir_ok ->
    exists a b,
      SparkRun.work_dir args = a ++ ":" ++ b /\
      SparkRun.get_spark_env w args conf =
        match SparkRun.get_credentials w with
        | Some creds =>
            ([], Ret ([("AWS_ACCESS_KEY_ID", SparkRun.access_key creds);
                       ("AWS_SECRET_ACCESS_KEY", SparkRun.secret_key creds);
                       ("SPARK_USER", "root");
                       ("SPARK_OPTS", conf)] +++
                      (if Py.opt_eqb (SparkRun.cmd args) "jupyter"
                       then [("JUPYTER_RUNTIME_DIR", b ++ "/.jupyter");
                             ("JUPYTER_DATA_DIR", b ++ "/.jupyter")]
                       else [])))
        | None => ([], Raise AttributeError)
        end.
Proof.
  intros w args conf H.
  destruct (validate_ok_inv _ H) as (a & b & E & _ & _).
  exists a, b. split.
  - now apply split_two in E as (E & _ & _).
  - now apply get_spark_env_split with (a := a).
Qed.

Lemma X11_spark_env_after_validation_witness :
  SparkRun.validate_work_dir (SparkRun.work_dir Request.defaults) = work_dir_ok /\
  exists a b,
    SparkRun.work_dir Request.defaults = a ++ ":" ++ b /\
    SparkRun.get_spark_env Sample.world Request.defaults "--conf k=v" =
      match SparkRun.get_credentials Sample.world with
      | Some creds =>
          ([], Ret ([("AWS_ACCESS_KEY_ID", SparkRun.access_key creds);
                     ("AWS_SECRET_ACCESS_KEY", SparkRun.secret_key creds);
                     ("SPARK_USER", "root");
                     ("SPARK_OPTS", "--conf k=v")] +++
                    (if Py.opt_eqb (SparkRun.cmd Request.defaults) "jupyter"
                     then [("JUPYTER_RUNTIME_DIR", b ++ "/.jupyter");
                           ("JUPYTER_DATA_DIR", b ++ "/.jupyter")]
                     else [])))
      | None => ([], Raise AttributeError)
      end.
Proof.
  split; [reflexivity|].
  exact (X11_spark_env_after_validation Sample.world Request.defaults
           "--conf k=v" eq_refl).
Defined.

(** ** The whole run *)

Section WholeRun.
Import SparkRun.
Variable w : World.

Lemma rewrite_returns (args : Args) (c conf a b : string) :
  Py.split ":" (work_dir args) = [a; b] ->
  exists c', rewrite_docker_cmd w args c conf = ([], Ret c').
Proof.
  intros E. unfold rewrite_docker_cmd. rewrite E.
  destruct (String.eqb c "jupyter"); [eexists; reflexivity|].
  destruct (existsb (String.eqb c) ["pyspark"; "spark-shell"]);
    [eexists; reflexivity|].
  destruct (Py.startswith "spark-submit" c); eexists; reflexivity.
Qed.

Lemma build_returns (args : Args) :
  exists t o, build_and_push_docker_image w args = (t, Ret o).
Proof.
  unfold build_and_push_docker_image.
  destruct (makefile_responds_to w "cook-image"); [|do 2 eexists; reflexivity].
  cbn [negb].
  destruct (Z.eqb (paasta_cook_image w (service args) (yelpsoa_config_root args)) 0);
    [|do 2 eexists; reflexivity].
  cbn [negb].
  match goal with
  | |- context [ run_retcode w ?c ] => destruct (Z.eqb (run_retcode w c) 0)
  end; [|do 2 eexists; reflexivity].
  cbn [negb].
  match goal with
  | |- context [ run_retcode w ?c ] => destruct (Z.eqb (run_retcode w c) 0)
  end; do 2 eexists; reflexivity.
Qed.

Lemma resolve_image_returns (args : Args) (ic : InstanceConfig) :
  exists t o, resolve_image w args ic = (t, Ret o).
Proof.
  rewrite resolve_image_by_source.
  destruct (Conf.image_source_of args).
  - apply build_returns.
  - do 2 eexists. reflexivity.
  - destruct (get_docker_url ic) as [u|]; cbv zeta;
      [|do 2 eexists; reflexivity].
    destruct (Z.eqb (run_retcode w ("sudo -H docker pull " ++ u)) 0);
      do 2 eexists; reflexivity.
Qed.

(** The run after a successful validation, stage by stage. *)
Lemma paasta_spark_run_valid (args : Args) :
  validate_work_dir (work_dir args) = work_dir_ok ->
  paasta_spark_run w args =
    match get_instance_config w (service args) (instance args) (cluster args)
            (More.load_deployments_of args) (yelpsoa_config_root args) with
    | NoConfigurationForServiceError message =>
        (More.config_warning w +++ [Stderr message], Ret 1%Z)
    | NoDeploymentsAvailable =>
        (More.config_warning w +++
         [Stderr (red w (msg_no_deployments (yelpsoa_config_root args)
                                            (service args)))], Ret 1%Z)
    | Loaded ic =>
        bind (More.config_warning w, Ret tt) (fun _ =>
        bind (resolve_image w args ic) (fun docker_url =>
          match docker_url with
          | None => ret 1%Z
          | Some img =>
              configure_and_run_docker_container w args img ic (More.config_of w)
          end))
    end.
Proof.
  intros V. unfold paasta_spark_run. rewrite V.
  change work_dir_ok with (ret tt : M unit). rewrite bind_ret_l.
  unfold More.config_warning, More.config_of, More.load_deployments_of,
    More.fallback_config.
  destruct (load_system_paasta_config w) as [c|].
  - rewrite bind_ret_l.
    destruct (get_instance_config w (service args) (instance args) (cluster args)
                (negb (build args) &&
                 match image args with None => true | Some _ => false end)
                (yelpsoa_config_root args)) as [ic| |]; try reflexivity.
    symmetry. apply (bind_ret_l tt).
  - rewrite bind_assoc. unfold paasta_print, emit.
    rewrite bind_returns, !bind_ret_l.
    destruct (get_instance_config w (service args) (instance args) (cluster args)
                (negb (build args) &&
                 match image args with None => true | Some _ => false end)
                (yelpsoa_config_root args)) as [ic| |]; try reflexivity.
    now rewrite bind_returns.
Qed.

End WholeRun.

Section RunFacts.
Import SparkRun.
Variable w : World.

Lemma result_bind_returns {A B} (t : list event) (a : A) (f : A -> M B) :
  result (bind (t, Ret a) f) = result (f a).
Proof. now rewrite bind_returns. Qed.

Lemma trace_bind_returns {A B} (t : list event) (a : A) (f : A -> M B) :
  trace (bind (t, Ret a) f) = t +++ trace (f a).
Proof. now rewrite bind_returns. Qed.

(** How [configure_and_run_docker_container] ends on a work dir of two
    components. *)
Lemma configure_outcome (args : Args) (img : string) (ic : InstanceConfig)
      (spc : SystemPaastaConfig) (a b : string) :
  Py.split ":" (work_dir args) = [a; b] ->
  More.regular_end (dry_run args)
    (result (configure_and_run_docker_container w args img ic spc)).
Proof.
  intros E. rewrite configure_unfold, result_bind_returns.
  destruct (get_spark_conf_str_cases w args (Launch.name_of w args)
              (Launch.port_of w args) img spc
              (Launch.kept w (Launch.declared ic spc)))
    as [(t & conf & C)|(t & C)]; rewrite C; [|reflexivity].
  rewrite result_bind_returns.
  destruct (Launch.command_of args ic) as [c|]; [|left; reflexivity].
  destruct (rewrite_returns w args c conf a b E) as (c' & R).
  rewrite R, result_bind_returns.
  rewrite (get_spark_env_split w args conf a b E).
  destruct (get_credentials w) as [creds|]; [|reflexivity].
  rewrite result_bind_returns.
  unfold emit. rewrite result_bind_returns.
  match goal with
  | |- context [ run_docker_container w ?n ?v ?e ?i ?c ?d ] =>
      destruct (run_docker_container_modes w n v e i c) as [Dry Live]
  end.
  destruct (dry_run args).
  - rewrite Dry. right. split; reflexivity.
  - rewrite Live. split; reflexivity.
Qed.

Lemma quiet_app (l1 l2 : list event) :
  forallb More.quiet (l1 +++ l2) =
  forallb More.quiet l1 && forallb More.quiet l2.
Proof. apply forallb_app. Qed.

Lemma quiet_bind {A B} (m : M A) (f : A -> M B) :
  forallb More.quiet (trace m) = true ->
  (forall a, forallb More.quiet (trace (f a)) = true) ->
  forallb More.quiet (trace (bind m f)) = true.
Proof.
  intros H K. destruct m as [t [a|c|e|p a]]; try exact H.
  rewrite trace_bind_returns, quiet_app. unfold trace in H. cbn [fst] in H.
  now rewrite H, K.
Qed.

Lemma warnings_quiet (vols : list Volume) :
  forallb More.quiet (Launch.warnings w vols) = true.
Proof.
  unfold Launch.warnings.
  induction (filter (fun v => negb (Launch.exists_on w v)) vols);
    [reflexivity|exact IHl].
Qed.

(** [configure_and_run_docker_container] runs no command and writes no
    environment variable; the file it opens is the mesos secret file. *)
Lemma configure_quiet (args : Args) (img : string) (ic : InstanceConfig)
      (spc : SystemPaastaConfig) :
  forallb More.quiet
    (trace (configure_and_run_docker_container w args img ic spc)) = true.
Proof.
  rewrite configure_unfold.
  apply quiet_bind; [apply warnings_quiet|]. intros volumes.
  apply quiet_bind.
  { rewrite get_spark_conf_str_spec.
    destruct (mesos_secret args) as [[|c s]|];
      try destruct (read_text w DEFAULT_SPARK_MESOS_SECRET_FILE); reflexivity. }
  intros conf. destruct (Launch.command_of args ic) as [c|]; [|reflexivity].
  apply quiet_bind.
  { destruct (rewrite_docker_cmd_cases w args c conf) as [(c' & R)|R];
      rewrite R; reflexivity. }
  intros c'. apply quiet_bind.
  { destruct (get_spark_env_cases w args conf) as [(e & R)|[R|R]];
      rewrite R; reflexivity. }
  intros env'. apply quiet_bind; [reflexivity|]. intros _.
  match goal with
  | |- context [ run_docker_container w ?n ?v ?e ?i ?c ?d ] =>
      destruct (run_docker_container_modes w n v e i c) as [Dry Live]
  end.
  destruct (dry_run args); [rewrite Dry|rewrite Live]; reflexivity.
Qed.

End RunFacts.

(** X12. A run of [paasta_spark_run] that returns gives 1, or 0 and then
    it was a dry run; a run that exits does so with status 1; a run that
    replaces the process does so with paasta_docker_wrapper and was not a
    dry run.  The IndexError of the two work-dir subscripts never leaves
    it, since the work dir is validated first. *)
Theorem X12_run_outcomes :
  forall (w : SparkRun.World) (args : SparkRun.Args),
    let r := result (SparkRun.paasta_spark_run w args) in
    (forall n : Z, r = Ret n ->
       n = 1%Z \/ (n = 0%Z /\ SparkRun.dry_run args = true)) /\
    (forall code : Z, r = Exit code -> code = 1%Z) /\
    (forall (file : string) (argv : list string),
       r = Execlp file argv ->
       file = "paasta_docker_wrapper" /\ SparkRun.dry_run args = false) /\
    r <> Raise IndexError.
Proof.
  intros w args r.
  assert (E : More.regular_end (SparkRun.dry_run args) r).
  { subst r.
    destruct (validate_cases (SparkRun.work_dir args)) as [V|(msg & V)].
    - rewrite (paasta_spark_run_valid w args V).
      destruct (validate_ok_inv _ V) as (a & b & E & _).
      destruct (SparkRun.get_instance_config w (SparkRun.service args)
                  (SparkRun.instance args) (SparkRun.cluster args)
                  (More.load_deployments_of args)
                  (SparkRun.yelpsoa_config_root args)) as [ic| |];
        try (left; reflexivity).
      rewrite result_bind_returns.
      destruct (resolve_image_returns w args ic) as (t & o & R).
      rewrite R, result_bind_returns.
      destruct o as [img|]; [|left; reflexivity].
      now apply configure_outcome with (a := a) (b := b).
    - unfold SparkRun.paasta_spark_run. rewrite V. reflexivity. }
  clearbody r. repeat split.
  - intros n ->. exact E.
  - intros code ->. exact E.
  - subst r. exact (proj1 E).
  - subst r. exact (proj2 E).
  - intros ->. discriminate E.
Qed.

(** X13. When the system configuration cannot be loaded and the work dir
    is valid, the run prints one warning and goes on exactly as the run
    on a machine whose configuration is the fallback, with no system
    volumes: the failure is not fatal. *)
Theorem X13_missing_system_config_is_not_fatal :
  forall (w : SparkRun.World) (args : SparkRun.Args),
    SparkRun.load_system_paasta_config w = None ->
    SparkRun.validate_work_dir (SparkRun.work_dir args) = work_dir_ok ->
    let fallback_run :=
      SparkRun.paasta_spark_run
        (More.with_system_config w (Some (More.fallback_config w))) args in
    SparkRun.paasta_spark_run w args =
      (Stdout (SparkRun.yellow w SparkRun.msg_not_configured)
         :: trace fallback_run,
       result fallback_run) /\
    SparkRun.get_volumes (More.fallback_config w) = [].
Proof.
  intros w args L V fallback_run. subst fallback_run. split; [|reflexivity].
  rewrite (paasta_spark_run_valid w args V).
  rewrite (paasta_spark_run_valid
             (More.with_system_config w (Some (More.fallback_config w))) args V).
  unfold More.config_warning, More.config_of. rewrite L.
  cbn [More.with_system_config SparkRun.load_system_paasta_config
       SparkRun.get_instance_config SparkRun.red].
  destruct (SparkRun.get_instance_config w (SparkRun.service args)
              (SparkRun.instance args) (SparkRun.cluster args)
              (More.load_deployments_of args)
              (SparkRun.yelpsoa_config_root args)) as [ic| |];
    try reflexivity.
  rewrite bind_returns. rewrite (bind_returns []). reflexivity.
Qed.

Lemma X13_missing_system_config_is_not_fatal_witness :
  SparkRun.load_system_paasta_config More.unconfigured_world = None /\
  SparkRun.validate_work_dir (SparkRun.work_dir Request.defaults) = work_dir_ok /\
  SparkRun.paasta_spark_run More.unconfigured_world Request.defaults =
    (Stdout (SparkRun.yellow More.unconfigured_world SparkRun.msg_not_configured)
       :: trace (SparkRun.paasta_spark_run
                   (More.with_system_config More.unconfigured_world
                      (Some (More.fallback_config More.unconfigured_world)))
                   Request.defaults),
     result (SparkRun.paasta_spark_run
               (More.with_system_config More.unconfigured_world
                  (Some (More.fallback_config More.unconfigured_world)))
               Request.defaults)).
Proof.
  split; [reflexivity|]. split; [reflexivity|].
  exact (proj1 (X13_missing_system_config_is_not_fatal More.unconfigured_world
                  Request.defaults eq_refl eq_refl)).
Defined.

(** ** Building and publishing the image *)

Section Build.
Import SparkRun.
Variable w : World.

(** [build_and_push_docker_image] with its control flow resolved. *)
Lemma build_spec (args : Args) :
  build_and_push_docker_image w args =
    if makefile_responds_to w "cook-image" then
      let cooked :=
        Z.eqb (paasta_cook_image w (service args) (yelpsoa_config_root args)) 0 in
      let tagged := Z.eqb (run_retcode w (More.tag_command w)) 0 in
      let pushed := Z.eqb (run_retcode w (More.push_command w)) 0 in
      ([SetEnv "DOCKER_TAG" (More.docker_tag_of w);
        CookImage (service args) (yelpsoa_config_root args)] +++
       (if cooked
        then [Stdout (grey w (More.tag_command w)); Run (More.tag_command w)] +++
             (if tagged
              then [Stdout (grey w (More.push_command w));
                    Run (More.push_command w)]
              else [])
        else []),
       Ret (if cooked && tagged && pushed then Some (More.docker_url_of w)
            else None))
    else
      ([Stderr "A local Makefile with a 'cook-image' target is required for --build"],
       Ret None).
Proof.
  unfold build_and_push_docker_image, More.tag_command, More.push_command,
    More.docker_url_of, More.docker_tag_of.
  destruct (makefile_responds_to w "cook-image"); [|reflexivity].
  cbv zeta. cbn [negb].
  destruct (Z.eqb (paasta_cook_image w (service args) (yelpsoa_config_root args)) 0);
    [|reflexivity].
  cbn [negb].
  match goal with
  | |- context [ Z.eqb (run_retcode w ?c) 0 ] =>
      destruct (Z.eqb (run_retcode w c) 0)
  end; [|reflexivity].
  cbn [negb].
  match goal with
  | |- context [ Z.eqb (run_retcode w ?c) 0 ] =>
      destruct (Z.eqb (run_retcode w c) 0)
  end; reflexivity.
Qed.

End Build.

(** X14. [build_and_push_docker_image] returns an image reference exactly
    when the Makefile has the cook-image target and the cook, the
    [docker tag] and the [docker push] each returned 0; the reference is
    then the fixed registry followed by the tag, which is the DOCKER_TAG
    of the environment or, without one, [paasta-spark-run-<user>].  In
    every other case it returns None. *)
Theorem X14_build_returns_pushed_image :
  forall (w : SparkRun.World) (args : SparkRun.Args) (url : string),
    (result (SparkRun.build_and_push_docker_image w args) = Ret (Some url) <->
     SparkRun.makefile_responds_to w "cook-image" = true /\
     SparkRun.paasta_cook_image w (SparkRun.service args)
       (SparkRun.yelpsoa_config_root args) = 0%Z /\
     SparkRun.run_retcode w
       ("docker tag " ++ More.docker_tag_of w ++ " " ++
        "docker-dev.yelpcorp.com/" ++ More.docker_tag_of w) = 0%Z /\
     SparkRun.run_retcode w
       ("docker push " ++ "docker-dev.yelpcorp.com/" ++ More.docker_tag_of w) = 0%Z /\
     url = "docker-dev.yelpcorp.com/" ++ More.docker_tag_of w) /\
    (result (SparkRun.build_and_push_docker_image w args) = Ret None \/
     result (SparkRun.build_and_push_docker_image w args) =
       Ret (Some ("docker-dev.yelpcorp.com/" ++ More.docker_tag_of w))).
Proof.
  intros w args url. rewrite build_spec.
  change ("docker tag " ++ More.docker_tag_of w ++ " " ++
          "docker-dev.yelpcorp.com/" ++ More.docker_tag_of w)
    with (More.tag_command w).
  change ("docker push " ++ "docker-dev.yelpcorp.com/" ++ More.docker_tag_of w)
    with (More.push_command w).
  change ("docker-dev.yelpcorp.com/" ++ More.docker_tag_of w)
    with (More.docker_url_of w).
  rewrite <- !Z.eqb_eq.
  destruct (SparkRun.makefile_responds_to w "cook-image"); cbv zeta;
    unfold result; cbn [snd].
  2:{ split; [|now left]. split; [discriminate|]. intros (H & _). discriminate. }
  destruct (Z.eqb (SparkRun.paasta_cook_image w (SparkRun.service args)
                     (SparkRun.yelpsoa_config_root args)) 0),
           (Z.eqb (SparkRun.run_retcode w (More.tag_command w)) 0),
           (Z.eqb (SparkRun.run_retcode w (More.push_command w)) 0);
    cbn [andb];
    (split;
     [split;
      [intros H; try discriminate H; apply Ret_inj in H;
       repeat split; congruence
      |intros (_ & H1 & H2 & H3 & ->); try discriminate; reflexivity]
     |auto]).
Qed.

(** X15. [build_and_push_docker_image] runs a docker command only after
    the cook returned 0, and [docker push] only after [docker tag]
    returned 0; the commands it runs are these two and no other. *)
Theorem X15_build_runs_docker_in_order :
  forall (w : SparkRun.World) (args : SparkRun.Args) (command : string),
    In (Run command) (trace (SparkRun.build_and_push_docker_image w args)) ->
    SparkRun.makefile_responds_to w "cook-image" = true /\
    SparkRun.paasta_cook_image w (SparkRun.service args)
      (SparkRun.yelpsoa_config_root args) = 0%Z /\
    (command = More.tag_command w \/
     (command = More.push_command w /\
      SparkRun.run_retcode w (More.tag_command w) = 0%Z)).
Proof.
  intros w args command. rewrite build_spec. rewrite <- !Z.eqb_eq.
  destruct (SparkRun.makefile_responds_to w "cook-image"); cbv zeta;
    unfold trace; cbn [fst].
  2:{ intros [H|[]]. discriminate. }
  destruct (Z.eqb (SparkRun.paasta_cook_image w (SparkRun.service args)
                     (SparkRun.yelpsoa_config_root args)) 0).
  2:{ intros [H|[H|[]]]; discriminate. }
  destruct (Z.eqb (SparkRun.run_retcode w (More.tag_command w)) 0); cbn [app].
  - intros [H|[H|[H|[H|[H|[H|[]]]]]]]; try discriminate.
    + injection H as <-. auto.
    + injection H as <-. auto.
  - intros [H|[H|[H|[H|[]]]]]; try discriminate.
    injection H as <-. auto.
Qed.

Lemma X15_build_runs_docker_in_order_witness :
  In (Run "docker push docker-dev.yelpcorp.com/paasta-spark-run-alice")
     (trace (SparkRun.build_and_push_docker_image More.build_world
               More.build_args)) /\
  SparkRun.run_retcode More.build_world (More.tag_command More.build_world) = 0%Z.
Proof.
  assert (H : In (Run "docker push docker-dev.yelpcorp.com/paasta-spark-run-alice")
                 (trace (SparkRun.build_and_push_docker_image More.build_world
                           More.build_args))).
  { vm_compute. auto 10. }
  split; [exact H|].
  destruct (X15_build_runs_docker_in_order More.build_world More.build_args _ H)
    as (_ & _ & [E|[_ R]]).
  - discriminate E.
  - exact R.
Defined.

(** ** Where the image comes from *)

(** X16. With [--image] given and not empty, and without [--build], the
    whole run starts no external command through [_run], cooks no image
    and writes no environment variable; the one file it opens with
    [open] is the mesos secret file.  Every event of the run is a
    printed line or the opening of that file. *)
Theorem X16_supplied_image_runs_no_command :
  forall (w : SparkRun.World) (args : SparkRun.Args),
    SparkRun.build args = false ->
    Py.truthy_str (SparkRun.image args) = true ->
    forall e : event,
      In e (trace (SparkRun.paasta_spark_run w args)) ->
      (exists line, e = Stdout line) \/ (exists line, e = Stderr line) \/
      e = Open SparkRun.DEFAULT_SPARK_MESOS_SECRET_FILE.
Proof.
  intros w args B I.
  assert (Q : forallb More.quiet (trace (SparkRun.paasta_spark_run w args)) = true).
  { destruct (validate_cases (SparkRun.work_dir args)) as [V|(msg & V)].
    - rewrite (paasta_spark_run_valid w args V).
      assert (W : forallb More.quiet (More.config_warning w) = true).
      { unfold More.config_warning.
        destruct (SparkRun.load_system_paasta_config w); reflexivity. }
      destruct (SparkRun.get_instance_config w (SparkRun.service args)
                  (SparkRun.instance args) (SparkRun.cluster args)
                  (More.load_deployments_of args)
                  (SparkRun.yelpsoa_config_root args)) as [ic| |].
      + apply quiet_bind; [exact W|]. intros _.
        rewrite resolve_image_by_source. unfold Conf.image_source_of.
        rewrite B, I. apply quiet_bind; [reflexivity|].
        intros [img|]; [apply configure_quiet|reflexivity].
      + unfold trace. cbn [fst]. rewrite quiet_app, W. reflexivity.
      + unfold trace. cbn [fst]. rewrite quiet_app, W. reflexivity.
    - unfold SparkRun.paasta_spark_run. rewrite V. reflexivity. }
  intros e H. rewrite forallb_forall in Q. specialize (Q e H).
  destruct e as [line|line|path| | |]; try discriminate Q.
  - left. now exists line.
  - right. left. now exists line.
  - right. right. apply String.eqb_eq in Q. now subst path.
Qed.

Lemma X16_supplied_image_runs_no_command_witness :
  SparkRun.build More.image_args = false /\
  Py.truthy_str (SparkRun.image More.image_args) = true /\
  (forall e : event,
     In e (trace (SparkRun.paasta_spark_run Sample.world More.image_args)) ->
     (exists line, e = Stdout line) \/ (exists line, e = Stderr line) \/
     e = Open SparkRun.DEFAULT_SPARK_MESOS_SECRET_FILE) /\
  exists t argv,
    SparkRun.paasta_spark_run Sample.world More.image_args =
      (t, Execlp "paasta_docker_wrapper" argv) /\
    In "registry.example.com/spark:1" argv.
Proof.
  split; [reflexivity|]. split; [reflexivity|]. split.
  - exact (X16_supplied_image_runs_no_command Sample.world More.image_args
             eq_refl eq_refl).
  - exists (trace (SparkRun.paasta_spark_run Sample.world More.image_args)),
      (Launch.argv_of (SparkRun.paasta_spark_run Sample.world More.image_args)).
    split; [vm_compute; reflexivity|]. vm_compute. auto 30.
Defined.

(** X17. Without [--build] and without a non-empty [--image], a run that
    ends well (status 0 or the process replaced) has loaded the instance
    configuration, found an image marked for deployment, and pulled it
    with [sudo -H docker pull], which returned 0; the launch then uses
    that image. *)
Theorem X17_deployed_image_is_pulled_first :
  forall (w : SparkRun.World) (args : SparkRun.Args),
    SparkRun.build args = false ->
    Py.truthy_str (SparkRun.image args) = false ->
    More.succeeded (SparkRun.paasta_spark_run w args) ->
    exists ic url,
      SparkRun.get_instance_config w (SparkRun.service args)
        (SparkRun.instance args) (SparkRun.cluster args)
        (More.load_deployments_of args) (SparkRun.yelpsoa_config_root args) =
        SparkRun.Loaded ic /\
      SparkRun.get_docker_url ic = Some url /\
      SparkRun.run_retcode w ("sudo -H docker pull " ++ url) = 0%Z /\
      In (Run ("sudo -H docker pull " ++ url))
         (trace (SparkRun.paasta_spark_run w args)) /\
      More.succeeded
        (SparkRun.configure_and_run_docker_container w args url ic
           (More.config_of w)).
Proof.
  intros w args B I S.
  destruct (validate_cases (SparkRun.work_dir args)) as [V|(msg & V)].
  2:{ unfold SparkRun.paasta_spark_run in S. rewrite V in S.
      destruct S as [S|(f & a & S)]; discriminate S. }
  rewrite (paasta_spark_run_valid w args V) in *.
  destruct (SparkRun.get_instance_config w (SparkRun.service args)
              (SparkRun.instance args) (SparkRun.cluster args)
              (More.load_deployments_of args)
              (SparkRun.yelpsoa_config_root args)) as [ic| |] eqn:G;
    try (destruct S as [S|(f & a & S)]; discriminate S).
  rewrite resolve_image_by_source in *. unfold Conf.image_source_of in *.
  rewrite B, I in *. unfold More.succeeded in S.
  rewrite result_bind_returns in S. rewrite trace_bind_returns.
  destruct (SparkRun.get_docker_url ic) as [url|] eqn:U.
  2:{ destruct S as [S|(f & a & S)]; discriminate S. }
  cbv zeta in *.
  destruct (Z.eqb (SparkRun.run_retcode w ("sudo -H docker pull " ++ url)) 0)
    eqn:R.
  2:{ destruct S as [S|(f & a & S)]; discriminate S. }
  rewrite result_bind_returns in S. rewrite trace_bind_returns.
  exists ic, url. split; [reflexivity|]. split; [exact U|].
  split; [now apply Z.eqb_eq|]. split; [|exact S].
  apply in_or_app. right. apply in_or_app. left. cbn. auto.
Qed.

Lemma X17_deployed_image_is_pulled_first_witness :
  SparkRun.build Request.defaults = false /\
  Py.truthy_str (SparkRun.image Request.defaults) = false /\
  More.succeeded (SparkRun.paasta_spark_run Sample.world Request.defaults) /\
  exists ic url,
    SparkRun.get_docker_url ic = Some url /\
    In (Run ("sudo -H docker pull " ++ url))
       (trace (SparkRun.paasta_spark_run Sample.world Request.defaults)).
Proof.
  assert (S : More.succeeded
                (SparkRun.paasta_spark_run Sample.world Request.defaults)).
  { right.
    exists "paasta_docker_wrapper",
      (Launch.argv_of (SparkRun.paasta_spark_run Sample.world Request.defaults)).
    vm_compute. reflexivity. }
  split; [reflexivity|]. split; [reflexivity|]. split; [exact S|].
  destruct (X17_deployed_image_is_pulled_first Sample.world Request.defaults
              eq_refl eq_refl S) as (ic & url & _ & U & _ & H & _).
  exists ic, url. split; [exact U|exact H].
Defined.

(** ** The argument vector and the environment *)

Section Environment.
Import SparkRun.

Lemma dict_get_set (k k' v : string) (d : Dict.t) :
  More.dict_get k (Dict.set k' v d) =
  if String.eqb k k' then Some v else More.dict_get k d.
Proof.
  induction d as [|[x y] d IH]; cbn [Dict.set More.dict_get].
  - destruct (String.eqb k k'); reflexivity.
  - destruct (String.eqb k' x) eqn:E; cbn [More.dict_get].
    + apply String.eqb_eq in E. subst x.
      destruct (String.eqb k k'); reflexivity.
    + rewrite IH. destruct (String.eqb k x) eqn:F; [|reflexivity].
      apply String.eqb_eq in F. subst x.
      rewrite String.eqb_sym, E. reflexivity.
Qed.

Lemma dict_get_app (k : string) (a b : Dict.t) :
  More.dict_get k (a +++ b) =
  match More.dict_get k a with
  | Some v => Some v
  | None => More.dict_get k b
  end.
Proof.
  induction a as [|[x y] a IH]; cbn [app More.dict_get]; [reflexivity|].
  destruct (String.eqb k x); [reflexivity|exact IH].
Qed.

(** After [d.update(other)] a key has the last value [other] gives it,
    and the value it had in [d] when [other] does not have it. *)
Lemma dict_get_update (k : string) (other d : Dict.t) :
  More.dict_get k (Dict.update d other) =
  match More.dict_get k (rev other) with
  | Some v => Some v
  | None => More.dict_get k d
  end.
Proof.
  unfold Dict.update. revert d.
  induction other as [|[x y] other IH]; intros d; cbn [fold_left rev].
  - reflexivity.
  - rewrite IH, dict_get_app, dict_get_set. cbn [fst snd More.dict_get].
    destruct (More.dict_get k (rev other)); [reflexivity|].
    destruct (String.eqb k x); reflexivity.
Qed.

Lemma dict_get_none (k : string) (d : Dict.t) :
  More.dict_get k d = None <-> ~ In k (More.dict_keys d).
Proof.
  induction d as [|[x y] d IH]; cbn [More.dict_get More.dict_keys map fst In].
  - tauto.
  - destruct (String.eqb k x) eqn:E.
    + apply String.eqb_eq in E. subst. split; [discriminate|tauto].
    + apply String.eqb_neq in E. rewrite IH. unfold More.dict_keys.
      split; [intros H [K|K]; [congruence|tauto]|tauto].
Qed.

Lemma dict_get_rev_none (k : string) (d : Dict.t) :
  More.dict_get k d = None -> More.dict_get k (rev d) = None.
Proof.
  rewrite !dict_get_none. unfold More.dict_keys. rewrite map_rev.
  intros H K. apply H. now apply in_rev.
Qed.

Lemma keys_set (k v : string) (d : Dict.t) :
  More.dict_keys (Dict.set k v d) =
  if existsb (String.eqb k) (More.dict_keys d)
  then More.dict_keys d else More.dict_keys d +++ [k].
Proof.
  induction d as [|[x y] d IH]; [reflexivity|].
  cbn [Dict.set More.dict_keys map fst existsb].
  destruct (String.eqb k x); cbn [orb More.dict_keys map fst]; [reflexivity|].
  unfold More.dict_keys in IH. rewrite IH.
  destruct (existsb (String.eqb k) (map fst d)); reflexivity.
Qed.

Lemma existsb_eqb_false (k : string) (l : list string) :
  existsb (String.eqb k) l = false -> ~ In k l.
Proof.
  intros H K. assert (T : existsb (String.eqb k) l = true).
  { apply existsb_exists. exists k. split; [exact K|apply String.eqb_refl]. }
  congruence.
Qed.

Lemma distinct_NoDup (l : list string) : More.distinct l = true -> NoDup l.
Proof.
  induction l as [|x l IH]; cbn [More.distinct]; [constructor|].
  intros H. apply andb_prop in H as [H1 H2]. constructor; [|auto].
  apply existsb_eqb_false. now destruct (existsb (String.eqb x) l).
Qed.

Lemma keys_set_nodup (k v : string) (d : Dict.t) :
  NoDup (More.dict_keys d) ->
  NoDup (More.dict_keys (Dict.set k v d)) /\
  exists added, More.dict_keys (Dict.set k v d) = More.dict_keys d +++ added.
Proof.
  intros N. rewrite keys_set.
  destruct (existsb (String.eqb k) (More.dict_keys d)) eqn:E.
  - split; [exact N|]. exists []. now rewrite app_nil_r.
  - split; [|eauto]. apply NoDup_app; [exact N|repeat constructor; auto|].
    intros x Hx [<-|[]]. now apply existsb_eqb_false in E.
Qed.

Lemma keys_update_nodup (other d : Dict.t) :
  NoDup (More.dict_keys d) ->
  NoDup (More.dict_keys (Dict.update d other)) /\
  exists added,
    More.dict_keys (Dict.update d other) = More.dict_keys d +++ added.
Proof.
  unfold Dict.update. revert d.
  induction other as [|[x y] other IH]; intros d N; cbn [fold_left fst snd].
  - split; [exact N|]. exists []. now rewrite app_nil_r.
  - destruct (keys_set_nodup x y d N) as (N' & a1 & E1).
    destruct (IH _ N') as (N'' & a2 & E2).
    split; [exact N''|]. exists (a1 +++ a2). now rewrite E2, E1, app_assoc.
Qed.

(** The keys after [d.update(other)]: those of [d] in their order, then
    the keys of [other] that [d] does not have, in the order of [other]. *)
Lemma keys_update (other d : Dict.t) :
  NoDup (More.dict_keys other) ->
  More.dict_keys (Dict.update d other) =
  More.dict_keys d +++
  filter (fun k => negb (existsb (String.eqb k) (More.dict_keys d)))
         (More.dict_keys other).
Proof.
  unfold Dict.update. revert d.
  induction other as [|[x y] other IH]; intros d N;
    cbn [fold_left fst snd More.dict_keys map filter].
  - now rewrite app_nil_r.
  - inversion N as [|? ? Hx N']; subst.
    unfold More.dict_keys in IH. rewrite (IH _ N').
    fold (More.dict_keys (Dict.set x y d)). rewrite keys_set.
    fold (More.dict_keys d).
    destruct (existsb (String.eqb x) (More.dict_keys d)) eqn:E; cbn [negb].
    + reflexivity.
    + rewrite <- app_assoc. cbn [app]. do 2 f_equal.
      apply filter_ext_in. intros k Hk.
      rewrite existsb_app. cbn [existsb]. rewrite orb_false_r.
      destruct (String.eqb k x) eqn:F; [|now rewrite orb_false_r].
      apply String.eqb_eq in F. subst k. contradiction.
Qed.

(** What [get_spark_env] returns when it returns. *)
Lemma get_spark_env_value (w : World) (args : Args) (conf : string)
      (env' : Dict.t) :
  get_spark_env w args conf = ([], Ret env') ->
  exists creds extra,
    get_credentials w = Some creds /\
    env' = [("AWS_ACCESS_KEY_ID", access_key creds);
            ("AWS_SECRET_ACCESS_KEY", secret_key creds);
            ("SPARK_USER", "root"); ("SPARK_OPTS", conf)] +++ extra /\
    (extra = [] \/
     exists d, extra = [("JUPYTER_RUNTIME_DIR", d ++ "/.jupyter");
                        ("JUPYTER_DATA_DIR", d ++ "/.jupyter")]).
Proof.
  destruct (get_credentials w) as [creds|] eqn:G.
  2:{ rewrite (get_spark_env_no_credentials w args conf G). discriminate. }
  unfold get_spark_env, index. rewrite G. cbn [attr]. rewrite !bind_ret_l.
  destruct (Py.opt_eqb (cmd args) "jupyter").
  - destruct (nth_error (Py.split ":" (work_dir args)) 1) as [d|];
      [|discriminate].
    intros H. apply (f_equal result) in H. unfold result in H. cbn [snd] in H.
    apply Ret_inj in H. subst env'.
    exists creds, [("JUPYTER_RUNTIME_DIR", d ++ "/.jupyter");
                   ("JUPYTER_DATA_DIR", d ++ "/.jupyter")].
    split; [reflexivity|]. split; [reflexivity|]. right. exists d. reflexivity.
  - intros H. apply (f_equal result) in H. unfold result in H. cbn [snd] in H.
    apply Ret_inj in H. subst env'. exists creds, [].
    split; [reflexivity|]. split; [reflexivity|auto].
Qed.

(** The variables [get_spark_env] sets, in order: each is set once. *)
Lemma get_spark_env_keys (w : World) (args : Args) (conf : string)
      (env' : Dict.t) :
  get_spark_env w args conf = ([], Ret env') ->
  More.dict_keys env' =
    ["AWS_ACCESS_KEY_ID"; "AWS_SECRET_ACCESS_KEY"; "SPARK_USER"; "SPARK_OPTS"] +++
    (if Py.opt_eqb (cmd args) "jupyter"
     then ["JUPYTER_RUNTIME_DIR"; "JUPYTER_DATA_DIR"] else []).
Proof.
  destruct (get_credentials w) as [creds|] eqn:G.
  2:{ rewrite (get_spark_env_no_credentials w args conf G). discriminate. }
  unfold get_spark_env, index. rewrite G. cbn [attr]. rewrite !bind_ret_l.
  destruct (Py.opt_eqb (cmd args) "jupyter").
  - destruct (nth_error (Py.split ":" (work_dir args)) 1) as [d|];
      [|discriminate].
    intros H. apply (f_equal result) in H. unfold result in H. cbn [snd] in H.
    apply Ret_inj in H. subst env'. reflexivity.
  - intros H. apply (f_equal result) in H. unfold result in H. cbn [snd] in H.
    apply Ret_inj in H. subst env'. reflexivity.
Qed.

End Environment.

(** X18. The argument vector [get_docker_run_cmd] builds is the eight
    fixed flags, then [--env] and [KEY=VALUE] for every variable in the
    order of the environment, then one [--volume=] flag for every volume
    in order, then the image, [sh], [-c] and the command as one last
    argument: 12 arguments plus two for each variable and one for each
    volume. *)
Theorem X18_argument_vector_layout :
  forall (w : SparkRun.World) (container_name : string) (volumes : list string)
         (env : Dict.t) (docker_img docker_cmd : string),
    let argv := SparkRun.get_docker_run_cmd w container_name volumes env
                  docker_img docker_cmd in
    argv =
      ["paasta_docker_wrapper"; "run"; "--rm"; "--net=host";
       "--interactive=true"; "--tty=true";
       "--user=" ++ Py.fmt_d (SparkRun.geteuid w) ++ ":" ++
         Py.fmt_d (SparkRun.getegid w);
       "--name=" ++ container_name]
      +++ flat_map (fun kv => ["--env"; fst kv ++ "=" ++ snd kv]) env
      +++ map (fun v => "--volume=" ++ v) volumes
      +++ [docker_img; "sh"; "-c"; docker_cmd] /\
    List.length argv =
      (12 + 2 * List.length env + List.length volumes)%nat /\
    last argv "" = docker_cmd.
Proof.
  intros w name volumes env img c argv. subst argv.
  rewrite get_docker_run_cmd_spec.
  unfold Launch.fixed_flags, Launch.env_flags, Launch.volume_flags.
  split; [reflexivity|]. split.
  - rewrite !length_app, length_map. cbn [List.length].
    assert (L : forall l : Dict.t,
               List.length (flat_map (fun kv => ["--env"; fst kv ++ "=" ++ snd kv]) l)
               = (2 * List.length l)%nat).
    { induction l as [|x l IH]; [reflexivity|].
      cbn [flat_map app List.length]. rewrite IH. lia. }
    rewrite L. lia.
  - rewrite !app_assoc.
    change [img; "sh"; "-c"; c] with ([img; "sh"; "-c"] +++ [c]).
    rewrite app_assoc. apply last_last.
Qed.

(** X19. In the environment handed to the container the variables that
    [get_spark_env] computes win over the variables of the same name that
    the service declares: SPARK_OPTS is the configuration string,
    SPARK_USER is root and the AWS keys are the credentials of the
    session, which were found; a variable [get_spark_env] does not set
    keeps the value the service gave it. *)
Theorem X19_spark_variables_override_service_ones :
  forall (w : SparkRun.World) (args : SparkRun.Args) (conf : string)
         (declared spark_env : Dict.t),
    SparkRun.get_spark_env w args conf = ([], Ret spark_env) ->
    let env := Dict.update declared spark_env in
    More.dict_get "SPARK_OPTS" env = Some conf /\
    More.dict_get "SPARK_USER" env = Some "root" /\
    (exists creds,
       SparkRun.get_credentials w = Some creds /\
       More.dict_get "AWS_ACCESS_KEY_ID" env = Some (SparkRun.access_key creds) /\
       More.dict_get "AWS_SECRET_ACCESS_KEY" env =
         Some (SparkRun.secret_key creds)) /\
    forall k, More.dict_get k spark_env = None ->
              More.dict_get k env = More.dict_get k declared.
Proof.
  intros w args conf d env' H env. subst env.
  destruct (get_spark_env_value w args conf env' H) as (creds & extra & G & -> & X).
  split; [|split; [|split]].
  1-2: rewrite dict_get_update; destruct X as [->|(b & ->)]; reflexivity.
  - exists creds. split; [exact G|].
    split; rewrite dict_get_update; destruct X as [->|(b & ->)]; reflexivity.
  - intros k K. rewrite dict_get_update, (dict_get_rev_none k _ K). reflexivity.
Qed.

Lemma X19_spark_variables_override_service_ones_witness :
  exists spark_env,
    SparkRun.get_spark_env Sample.world Request.defaults "--conf k=v" =
      ([], Ret spark_env) /\
    More.dict_get "SPARK_OPTS"
      (Dict.update [("SPARK_OPTS", "mine"); ("HOME", "/root")] spark_env) =
      Some "--conf k=v" /\
    More.dict_get "HOME"
      (Dict.update [("SPARK_OPTS", "mine"); ("HOME", "/root")] spark_env) =
      Some "/root".
Proof.
  eexists. split; [reflexivity|].
  destruct (X19_spark_variables_override_service_ones Sample.world
              Request.defaults "--conf k=v"
              [("SPARK_OPTS", "mine"); ("HOME", "/root")] _ eq_refl)
    as (H1 & _ & _ & H5).
  split; [exact H1|]. rewrite (H5 "HOME" eq_refl). reflexivity.
Defined.

(** X20. When the service declares each variable once, a run that
    reaches the container invocation passes each variable of the final
    environment in exactly one [--env] flag.  The argument vector is the
    fixed flags, one [--env KEY=VALUE] pair for each variable of the
    declared environment updated with what [get_spark_env] returned, the
    volume flags, the image, and [sh -c] with the command.  The variables
    are pairwise different: the declared ones first, in their order, then
    those of the four (in notebook mode six) variables of [get_spark_env]
    that the service did not declare, in the order [get_spark_env] sets
    them. *)
Theorem X20_each_variable_passed_once :
  forall (w : SparkRun.World) (args : SparkRun.Args) (docker_img : string)
         (instance_config : SparkRun.InstanceConfig)
         (system_paasta_config : SparkRun.SystemPaastaConfig)
         (argv : list string),
    let declared := SparkRun.get_env_dictionary instance_config in
    NoDup (More.dict_keys declared) ->
    Launch.hands_over
      (SparkRun.configure_and_run_docker_container w args docker_img
         instance_config system_paasta_config) argv ->
    exists t conf docker_cmd spark_env,
      SparkRun.get_spark_conf_str w args (Launch.name_of w args)
        (Launch.port_of w args) docker_img system_paasta_config
        (Launch.kept w (Launch.declared instance_config system_paasta_config)) =
        (t, Ret conf) /\
      SparkRun.get_spark_env w args conf = ([], Ret spark_env) /\
      More.dict_keys spark_env =
        ["AWS_ACCESS_KEY_ID"; "AWS_SECRET_ACCESS_KEY"; "SPARK_USER"; "SPARK_OPTS"]
        +++ (if Py.opt_eqb (SparkRun.cmd args) "jupyter"
             then ["JUPYTER_RUNTIME_DIR"; "JUPYTER_DATA_DIR"] else []) /\
      let env := Dict.update declared spark_env in
      argv =
        Launch.fixed_flags w (Launch.name_of w args)
        +++ flat_map (fun kv => ["--env"; fst kv ++ "=" ++ snd kv]) env
        +++ map (fun v => "--volume=" ++ v)
              (Launch.kept w (Launch.declared instance_config system_paasta_config)
               +++ Launch.client_volumes args)
        +++ [docker_img; "sh"; "-c"; docker_cmd] /\
      NoDup (More.dict_keys env) /\
      More.dict_keys env =
        More.dict_keys declared +++
        filter (fun k => negb (existsb (String.eqb k) (More.dict_keys declared)))
               (More.dict_keys spark_env).
Proof.
  intros w args img ic spc argv declared N H. subst declared.
  destruct (configure_hands_over w args img ic spc argv H)
    as (t & conf & c & c' & env' & E & _ & _ & V & -> & _).
  pose proof (get_spark_env_keys w args conf env' V) as K.
  assert (N' : NoDup (More.dict_keys env')).
  { rewrite K. apply distinct_NoDup.
    destruct (Py.opt_eqb (SparkRun.cmd args) "jupyter"); reflexivity. }
  exists t, conf, c', env'.
  split; [exact E|]. split; [exact V|]. split; [exact K|]. cbv zeta.
  split; [apply get_docker_run_cmd_spec|].
  split; [apply (keys_update_nodup env' _ N)|].
  now apply keys_update.
Qed.

Lemma X20_each_variable_passed_once_witness :
  NoDup (More.dict_keys (SparkRun.get_env_dictionary Sample.instance_config)) /\
  Launch.hands_over Launch.sample_run (Launch.argv_of Launch.sample_run) /\
  exists conf docker_cmd spark_env,
    SparkRun.get_spark_env Sample.world Request.defaults conf =
      ([], Ret spark_env) /\
    Launch.argv_of Launch.sample_run =
      Launch.fixed_flags Sample.world (Launch.name_of Sample.world Request.defaults)
      +++ flat_map (fun kv => ["--env"; fst kv ++ "=" ++ snd kv])
            (Dict.update (SparkRun.get_env_dictionary Sample.instance_config)
               spark_env)
      +++ map (fun v => "--volume=" ++ v)
            (Launch.kept Sample.world
               (Launch.declared Sample.instance_config Sample.system_config)
             +++ Launch.client_volumes Request.defaults)
      +++ ["img"; "sh"; "-c"; docker_cmd] /\
    NoDup (More.dict_keys
             (Dict.update (SparkRun.get_env_dictionary Sample.instance_config)
                spark_env)).
Proof.
  assert (N : NoDup (More.dict_keys
                       (SparkRun.get_env_dictionary Sample.instance_config))).
  { apply distinct_NoDup. reflexivity. }
  assert (H : Launch.hands_over Launch.sample_run
                (Launch.argv_of Launch.sample_run)).
  { left. exists (trace Launch.sample_run). vm_compute. reflexivity. }
  split; [exact N|]. split; [exact H|].
  destruct (X20_each_variable_passed_once Sample.world Request.defaults "img"
              Sample.instance_config Sample.system_config
              (Launch.argv_of Launch.sample_run) N H)
    as (t & conf & c & env' & _ & V & _ & A & D & _).
  exists conf, c, env'. split; [exact V|]. split; [exact A|exact D].
Defined.

(** ** Names, commands and keys *)

Section NamesAndKeys.
Import SparkRun.

Lemma opt_int_keys (o : option Z) (key unit : string) :
  map fst (Conf.opt_int o key unit) = if Py.truthy_int o then [key] else [].
Proof.
  unfold Conf.opt_int. destruct o as [n|]; cbn [Py.truthy_int];
    [destruct (negb (Z.eqb n 0))|]; reflexivity.
Qed.

Lemma opt_str_keys (o : option string) (key : string) :
  map fst (Conf.opt_str o key) = if Py.truthy_str o then [key] else [].
Proof. unfold Conf.opt_str. destruct o as [[|c s]|]; reflexivity. Qed.

(** No key occurs twice among the entries. *)
Lemma entries_keys_distinct (w : World) (args : Args) (name : string)
      (port : Z) (img : string) (spc : SystemPaastaConfig)
      (volumes : list string) (secret : string) :
  NoDup (map fst (Conf.entries w args name port img spc volumes secret)).
Proof.
  unfold Conf.entries. cbn [concat]. rewrite !map_app.
  rewrite !opt_int_keys, opt_str_keys. unfold Conf.image_source_of.
  destruct (Py.truthy_int (driver_max_result_size args)),
           (Py.truthy_int (driver_memory args)),
           (Py.truthy_int (driver_cores args)),
           (build args), (Py.truthy_str (image args)),
           (Py.truthy_str (jars args));
    apply distinct_NoDup; reflexivity.
Qed.

(** The keys are spelled without a space. *)
Lemma entries_keys_no_space (w : World) (args : Args) (name : string)
      (port : Z) (img : string) (spc : SystemPaastaConfig)
      (volumes : list string) (secret : string) :
  forallb (no_char " ")
    (map fst (Conf.entries w args name port img spc volumes secret)) = true.
Proof.
  unfold Conf.entries. cbn [concat]. rewrite !map_app.
  rewrite !opt_int_keys, opt_str_keys. unfold Conf.image_source_of.
  destruct (Py.truthy_int (driver_max_result_size args)),
           (Py.truthy_int (driver_memory args)),
           (Py.truthy_int (driver_cores args)),
           (build args), (Py.truthy_str (image args)),
           (Py.truthy_str (jars args)); reflexivity.
Qed.

(** Splitting after a component free of the separator. *)
Lemma split_app_sep (sep : ascii) (a r : string) :
  no_char sep a = true ->
  Py.split sep (a ++ String sep r) = a :: Py.split sep r.
Proof.
  induction a as [|c a IH]; intros N; cbn [append Py.split].
  - now rewrite Ascii.eqb_refl.
  - cbn [no_char] in N. apply andb_prop in N as [C N].
    apply negb_true_iff in C. rewrite C, (IH N). reflexivity.
Qed.

(** [sep.join(l).split(sep)] gives [l] back when no element holds the
    separator. *)
Lemma split_join (sep : ascii) (l : list string) :
  l <> [] ->
  forallb (no_char sep) l = true ->
  Py.split sep (Py.join (String sep "") l) = l.
Proof.
  induction l as [|a [|b l] IH]; intros N F.
  - contradiction.
  - cbn [forallb] in F. apply andb_prop in F as [F _].
    change (Py.join (String sep "") [a]) with a.
    now apply split_one.
  - cbn [forallb] in F. apply andb_prop in F as [Fa F].
    change (Py.join (String sep "") (a :: b :: l))
      with (a ++ String sep (Py.join (String sep "") (b :: l))).
    rewrite (split_app_sep sep a _ Fa). f_equal.
    apply IH; [discriminate|exact F].
Qed.

(** The joined entries, word by word. *)
Lemma join_render_words (entries : list (string * string)) :
  Py.join " " (map Conf.render entries) =
  Py.join " " (flat_map (fun kv => ["--conf"; fst kv ++ "=" ++ snd kv]) entries).
Proof.
  induction entries as [|kv [|kv' entries] IH]; [reflexivity|reflexivity|].
  change (Py.join " " (map Conf.render (kv :: kv' :: entries)))
    with (Conf.render kv ++ " " ++ Py.join " " (map Conf.render (kv' :: entries))).
  rewrite IH. reflexivity.
Qed.

(** The configuration string opens with the name and the port. *)
Lemma conf_starts_with_name (w : World) (args : Args) (name : string)
      (port : Z) (img : string) (spc : SystemPaastaConfig)
      (volumes : list string) (t : list event) (conf : string) :
  get_spark_conf_str w args name port img spc volumes = (t, Ret conf) ->
  exists rest,
    conf = "--conf spark.app.name=" ++ name ++
           " --conf spark.ui.port=" ++ Py.fmt_d port ++ " " ++ rest.
Proof.
  intros H.
  pose proof (conf_str_result w args name port img spc volumes) as C.
  rewrite H in C. unfold result in C. cbn [snd] in C.
  destruct (Conf.secret_value w args) as [secret|]; [|discriminate].
  apply Ret_inj in C. subst conf.
  unfold Conf.entries. cbn [concat app map].
  unfold Py.join. cbn [String.concat]. unfold Conf.render at 1 2.
  cbn [fst snd]. eexists.
  change ("--conf " ++ "spark.app.name" ++ "=" ++ name)
    with ("--conf spark.app.name=" ++ name).
  change ("--conf " ++ "spark.ui.port" ++ "=" ++ Py.fmt_d port)
    with ("--conf spark.ui.port=" ++ Py.fmt_d port).
  rewrite !append_assoc. reflexivity.
Qed.

End NamesAndKeys.

(** X21. In a run that reaches the container invocation the container is
    named [paasta_spark_run_<user>_<port>], and the configuration string
    opens with that same name as spark.app.name and with that same port
    as spark.ui.port. *)
Theorem X21_container_name_is_job_name :
  forall (w : SparkRun.World) (args : SparkRun.Args) (docker_img : string)
         (instance_config : SparkRun.InstanceConfig)
         (system_paasta_config : SparkRun.SystemPaastaConfig)
         (argv : list string),
    Launch.hands_over
      (SparkRun.configure_and_run_docker_container w args docker_img
         instance_config system_paasta_config) argv ->
    let port := Py.fmt_d (SparkRun.pick_random_port w (SparkRun.service args)) in
    let name := "paasta_spark_run_" ++ SparkRun.get_username w ++ "_" ++ port in
    exists t conf rest,
      SparkRun.get_spark_conf_str w args (Launch.name_of w args)
        (Launch.port_of w args) docker_img system_paasta_config
        (Launch.kept w (Launch.declared instance_config system_paasta_config)) =
        (t, Ret conf) /\
      conf = "--conf spark.app.name=" ++ name ++
             " --conf spark.ui.port=" ++ port ++ " " ++ rest /\
      nth_error argv 7 = Some ("--name=" ++ name).
Proof.
  intros w args img ic spc argv H port name.
  destruct (configure_hands_over w args img ic spc argv H)
    as (t & conf & c & c' & env' & E & _ & _ & _ & -> & _).
  destruct (conf_starts_with_name _ _ _ _ _ _ _ _ _ E) as (rest & C).
  exists t, conf, rest. split; [exact E|]. split; [exact C|].
  rewrite get_docker_run_cmd_spec. reflexivity.
Qed.

Lemma X21_container_name_is_job_name_witness :
  Launch.hands_over Launch.sample_run (Launch.argv_of Launch.sample_run) /\
  nth_error (Launch.argv_of Launch.sample_run) 7 =
    Some "--name=paasta_spark_run_alice_31337" /\
  exists t conf rest,
    SparkRun.get_spark_conf_str Sample.world Request.defaults
      (Launch.name_of Sample.world Request.defaults)
      (Launch.port_of Sample.world Request.defaults) "img" Sample.system_config
      (Launch.kept Sample.world
         (Launch.declared Sample.instance_config Sample.system_config)) =
      (t, Ret conf) /\
    conf = "--conf spark.app.name=" ++
           ("paasta_spark_run_" ++ SparkRun.get_username Sample.world ++ "_" ++
            Py.fmt_d (SparkRun.pick_random_port Sample.world
                        (SparkRun.service Request.defaults))) ++
           " --conf spark.ui.port=" ++
           Py.fmt_d (SparkRun.pick_random_port Sample.world
                       (SparkRun.service Request.defaults)) ++ " " ++ rest.
Proof.
  assert (H : Launch.hands_over Launch.sample_run
                (Launch.argv_of Launch.sample_run)).
  { left. exists (trace Launch.sample_run). vm_compute. reflexivity. }
  split; [exact H|].
  destruct (X21_container_name_is_job_name Sample.world Request.defaults "img"
              Sample.instance_config Sample.system_config
              (Launch.argv_of Launch.sample_run) H)
    as (t & conf & rest & E & C & N).
  split; [exact N|]. exists t, conf, rest. split; [exact E|exact C].
Defined.

(** X22. When neither the request nor the instance gives a command and
    the secret is available, [configure_and_run_docker_container] prints
    that a command is required, last thing on stderr, and returns 1:
    nothing is launched. *)
Theorem X22_no_command_returns_one :
  forall (w : SparkRun.World) (args : SparkRun.Args) (docker_img : string)
         (instance_config : SparkRun.InstanceConfig)
         (system_paasta_config : SparkRun.SystemPaastaConfig) (secret : string),
    SparkRun.cmd args = None ->
    SparkRun.get_cmd instance_config = None ->
    Conf.secret_value w args = Some secret ->
    exists t,
      SparkRun.configure_and_run_docker_container w args docker_img
        instance_config system_paasta_config =
      (t +++ [Stderr "A command is required, pyspark, spark-shell, spark-submit or jupyter"],
       Ret 1%Z).
Proof.
  intros w args img ic spc secret C G S.
  rewrite configure_unfold, bind_returns.
  pose proof (conf_str_result w args (Launch.name_of w args)
                (Launch.port_of w args) img spc
                (Launch.kept w (Launch.declared ic spc))) as R.
  rewrite S in R.
  destruct (SparkRun.get_spark_conf_str w args (Launch.name_of w args)
              (Launch.port_of w args) img spc
              (Launch.kept w (Launch.declared ic spc))) as [t o].
  unfold result in R. cbn [snd] in R. subst o.
  rewrite bind_returns. unfold Launch.command_of. rewrite C, G.
  cbn [trace result fst snd].
  exists (Launch.warnings w (Launch.declared ic spc) +++ t).
  now rewrite <- app_assoc.
Qed.

Lemma X22_no_command_returns_one_witness :
  SparkRun.cmd More.no_command_args = None /\
  SparkRun.get_cmd Sample.instance_config = None /\
  Conf.secret_value Sample.world More.no_command_args = Some "hunter2" /\
  exists t,
    SparkRun.configure_and_run_docker_container Sample.world
      More.no_command_args "img" Sample.instance_config Sample.system_config =
    (t +++ [Stderr "A command is required, pyspark, spark-shell, spark-submit or jupyter"],
     Ret 1%Z).
Proof.
  split; [reflexivity|]. split; [reflexivity|]. split; [reflexivity|].
  exact (X22_no_command_returns_one Sample.world More.no_command_args "img"
           Sample.instance_config Sample.system_config "hunter2"
           eq_refl eq_refl eq_refl).
Defined.

(** X23. The entries [get_spark_conf_str] joins, between 12 and 17 of
    them, have pairwise different keys.  When no value holds a space,
    splitting the returned string at its spaces gives back, for each
    entry in order, the word [--conf] and then [key=value]: the string
    then sets no key twice.  (A value with a space in it can carry further
    words, [--conf] among them, into the string.) *)
Theorem X23_conf_keys_are_distinct :
  forall (w : SparkRun.World) (args : SparkRun.Args) (container_name : string)
         (spark_ui_port : Z) (docker_img : string)
         (system_paasta_config : SparkRun.SystemPaastaConfig)
         (volumes : list string) (t : list event) (conf : string),
    SparkRun.get_spark_conf_str w args container_name spark_ui_port docker_img
      system_paasta_config volumes = (t, Ret conf) ->
    exists secret,
      Conf.secret_value w args = Some secret /\
      let entries :=
        Conf.entries w args container_name spark_ui_port docker_img
          system_paasta_config volumes secret in
      conf = Py.join " " (map (fun kv => "--conf " ++ fst kv ++ "=" ++ snd kv)
                              entries) /\
      NoDup (map fst entries) /\
      (12 <= List.length entries <= 17)%nat /\
      (forallb (fun kv => no_char " " (snd kv)) entries = true ->
       Py.split " " conf =
         flat_map (fun kv => ["--conf"; fst kv ++ "=" ++ snd kv]) entries).
Proof.
  intros w args name port img spc volumes t conf H.
  pose proof (conf_str_result w args name port img spc volumes) as C.
  rewrite H in C. unfold result in C. cbn [snd] in C.
  destruct (Conf.secret_value w args) as [secret|]; [|discriminate].
  apply Ret_inj in C.
  exists secret. split; [reflexivity|]. cbv zeta.
  split; [exact C|]. split; [apply entries_keys_distinct|].
  assert (L : (12 <= List.length (Conf.entries w args name port img spc volumes
                                    secret) <= 17)%nat).
  { rewrite <- (length_map fst).
    unfold Conf.entries. cbn [concat]. rewrite !map_app.
    rewrite !opt_int_keys, opt_str_keys. unfold Conf.image_source_of.
    destruct (Py.truthy_int (SparkRun.driver_max_result_size args)),
             (Py.truthy_int (SparkRun.driver_memory args)),
             (Py.truthy_int (SparkRun.driver_cores args)),
             (SparkRun.build args), (Py.truthy_str (SparkRun.image args)),
             (Py.truthy_str (SparkRun.jars args)); cbn; lia. }
  split; [exact L|].
  intros V. rewrite C, join_render_words.
  pose proof (entries_keys_no_space w args name port img spc volumes secret) as K.
  revert L K V.
  generalize (Conf.entries w args name port img spc volumes secret) as entries.
  intros entries L K V.
  apply (split_join " ").
  - destruct entries; [cbn in L; lia|discriminate].
  - clear L. induction entries as [|[k v] entries IH]; [reflexivity|].
    cbn [map fst snd forallb flat_map app] in *.
    apply andb_prop in K as [Kk K]. apply andb_prop in V as [Vv V].
    rewrite (IH K V), andb_true_r.
    rewrite !no_char_app, Kk, Vv. reflexivity.
Qed.

Lemma X23_conf_keys_are_distinct_witness :
  exists t conf,
    SparkRun.get_spark_conf_str Sample.world Request.defaults "n" 31337 "img"
      Sample.system_config [] = (t, Ret conf) /\
    let entries :=
      Conf.entries Sample.world Request.defaults "n" 31337 "img"
        Sample.system_config [] "hunter2" in
    NoDup (map fst entries) /\
    Py.split " " conf =
      flat_map (fun kv => ["--conf"; fst kv ++ "=" ++ snd kv]) entries.
Proof.
  do 2 eexists.
  assert (H : SparkRun.get_spark_conf_str Sample.world Request.defaults "n" 31337
                "img" Sample.system_config [] =
              (trace (SparkRun.get_spark_conf_str Sample.world Request.defaults
                        "n" 31337 "img" Sample.system_config []),
               Ret (match result (SparkRun.get_spark_conf_str Sample.world
                                    Request.defaults "n" 31337 "img"
                                    Sample.system_config []) with
                    | Ret c => c
                    | _ => ""
                    end))) by reflexivity.
  destruct (X23_conf_keys_are_distinct _ _ _ _ _ _ _ _ _ H)
    as (secret & S & _ & N & _ & W).
  assert (secret = "hunter2") by (vm_compute in S; congruence). subst secret.
  split; [exact H|]. cbv zeta. split; [exact N|]. apply W. reflexivity.
Defined.

(** ** The metrics registry *)

Section MetricsRegistry.
Import Metrics.

Lemma key_eqb_eq (a b : option string) : key_eqb a b = true <-> a = b.
Proof.
  destruct a as [x|], b as [y|]; cbn [key_eqb];
    try (split; [discriminate|discriminate]); [|tauto].
  rewrite String.eqb_eq. split; [now intros ->|now intros [= ->]].
Qed.

Lemma registry_get_set (n n' : option string) (c : metrics_class)
      (r : registry) :
  registry_get n' (registry_set n c r) =
  if key_eqb n' n then Some c else registry_get n' r.
Proof.
  induction r as [|[m c0] r IH]; cbn [registry_set registry_get].
  - destruct (key_eqb n' n); reflexivity.
  - destruct (key_eqb n m) eqn:E; cbn [registry_get].
    + apply key_eqb_eq in E. subst m. destruct (key_eqb n' n); reflexivity.
    + rewrite IH. destruct (key_eqb n' m) eqn:F; [|reflexivity].
      apply key_eqb_eq in F. subst m.
      destruct (key_eqb n' n) eqn:G; [|reflexivity].
      apply key_eqb_eq in G. subst n'.
      assert (T : key_eqb n n = true) by now apply key_eqb_eq.
      congruence.
Qed.

End MetricsRegistry.

(** X24. With the registry as the module leaves it after import,
    [get_metrics_interface] gives a NoMetrics object when no provider is
    configured; for the provider [meteorite] it gives a MeteoriteMetrics
    object when yelp_meteorite could be imported and raises ImportError
    when it could not; for any other provider name it raises KeyError.
    The object carries the base name it was asked for. *)
Theorem X24_metrics_interface_by_provider :
  forall (yelp_meteorite : bool) (provider : option string) (base_name : string),
    Metrics.get_metrics_interface Metrics._metrics_interfaces yelp_meteorite
      (Some provider) base_name =
    match provider with
    | None =>
        Metrics.Ok {| Metrics.cls := Metrics.NoMetrics;
                      Metrics.base_name := base_name |}
    | Some name =>
        if String.eqb name "meteorite" then
          if yelp_meteorite
          then Metrics.Ok {| Metrics.cls := Metrics.MeteoriteMetrics;
                             Metrics.base_name := base_name |}
          else Metrics.Err
                 (Metrics.ImportError
                    "yelp_meteorite not imported, pleast try another metrics provider")
        else Metrics.Err Metrics.KeyError
    end.
Proof.
  intros yelp [name|] base; [|reflexivity].
  unfold Metrics.get_metrics_interface, Metrics._metrics_interfaces.
  cbn [Metrics.register_metrics_interface fst Metrics.registry_set
       Metrics.key_eqb Metrics.registry_get].
  destruct (String.eqb name "meteorite"); reflexivity.
Qed.

(** X25. Registering a class under a name returns the class unchanged
    and makes it the one found under that name afterwards, replacing an
    earlier registration of the name; the class found under any other
    name stays the same. *)
Theorem X25_register_then_lookup :
  forall (name other : option string) (func : Metrics.metrics_class)
         (r : Metrics.registry),
    snd (Metrics.register_metrics_interface name func r) = func /\
    Metrics.registry_get other
      (fst (Metrics.register_metrics_interface name func r)) =
      (if Metrics.key_eqb other name then Some func
       else Metrics.registry_get other r) /\
    (Metrics.key_eqb other name = true <-> other = name).
Proof.
  intros name other func r. split; [reflexivity|]. split.
  - apply registry_get_set.
  - apply key_eqb_eq.
Qed.

(** ** One more entry for one more option *)

(** X26. Giving [--driver-memory n] with [n] not zero adds exactly one
    entry, [spark.driver.memory=<n>g], to the configuration string and
    changes no other: the entries before it and after it are those of
    the same request without the option. *)
Theorem X26_driver_memory_adds_one_entry :
  forall (w : SparkRun.World) (a : SparkRun.Args)
         (result_size cores : option Z) (n : Z)
         (container_name : string) (spark_ui_port : Z) (docker_img : string)
         (system_paasta_config : SparkRun.SystemPaastaConfig)
         (volumes : list string) (secret : string),
    n <> 0%Z ->
    Conf.secret_value w a = Some secret ->
    exists before after,
      result (SparkRun.get_spark_conf_str w
                (Request.with_driver a result_size (Some n) cores)
                container_name spark_ui_port docker_img system_paasta_config
                volumes) =
        Ret (Py.join " "
               (map Conf.render
                  (before +++ [("spark.driver.memory", Py.fmt_d n ++ "g")]
                   +++ after))) /\
      result (SparkRun.get_spark_conf_str w
                (Request.with_driver a result_size None cores)
                container_name spark_ui_port docker_img system_paasta_config
                volumes) =
        Ret (Py.join " " (map Conf.render (before +++ after))).
Proof.
  intros w a rs cores n name port img spc volumes secret N S.
  rewrite !conf_str_result.
  change (Conf.secret_value w (Request.with_driver a rs (Some n) cores))
    with (Conf.secret_value w a).
  change (Conf.secret_value w (Request.with_driver a rs None cores))
    with (Conf.secret_value w a).
  rewrite S. unfold Conf.entries. cbn [concat].
  cbn [Request.with_driver SparkRun.driver_max_result_size
       SparkRun.driver_memory SparkRun.driver_cores SparkRun.cluster
       SparkRun.max_cores SparkRun.executor_memory SparkRun.executor_cores
       SparkRun.jars SparkRun.mesos_principal SparkRun.pool].
  change (Conf.image_source_of (Request.with_driver a rs (Some n) cores))
    with (Conf.image_source_of a).
  change (Conf.image_source_of (Request.with_driver a rs None cores))
    with (Conf.image_source_of a).
  assert (E : Conf.opt_int (Some n) "spark.driver.memory" "g" =
              [("spark.driver.memory", Py.fmt_d n ++ "g")]).
  { unfold Conf.opt_int, Py.truthy_int.
    apply Z.eqb_neq in N. now rewrite N. }
  rewrite E. change (Conf.opt_int None "spark.driver.memory" "g") with
    (@nil (string * string)).
  eexists. eexists. split.
  - rewrite (app_assoc _ (Conf.opt_int rs "spark.driver.maxResultSize" "g")).
    reflexivity.
  - cbn [app]. rewrite app_assoc. reflexivity.
Qed.

Lemma X26_driver_memory_adds_one_entry_witness :
  8%Z <> 0%Z /\
  Conf.secret_value Sample.world Request.defaults = Some "hunter2" /\
  exists before after,
    result (SparkRun.get_spark_conf_str Sample.world
              (Request.with_driver Request.defaults None (Some 8%Z) None)
              "n" 31337 "img" Sample.system_config []) =
      Ret (Py.join " "
             (map Conf.render
                (before +++ [("spark.driver.memory", Py.fmt_d 8 ++ "g")]
                 +++ after))) /\
    result (SparkRun.get_spark_conf_str Sample.world
              (Request.with_driver Request.defaults None None None)
              "n" 31337 "img" Sample.system_config []) =
      Ret (Py.join " " (map Conf.render (before +++ after))).
Proof.
  assert (N : 8%Z <> 0%Z) by discriminate.
  split; [exact N|]. split; [reflexivity|].
  exact (X26_driver_memory_adds_one_entry Sample.world Request.defaults None None
           8 "n" 31337 "img" Sample.system_config [] "hunter2" N eq_refl).
Defined.
